(** * xenbus_xs.c: the xenstore client of mini-os

    A shallow embedding of [src/xenbus/xenbus_xs.c] and the properties of
    its request/reply engine, watch subsystem and key/value helpers.

    C strings are [string]s without the NUL character; buffers are
    [string]s that may contain it.  Functions that touch the global state
    ([xs_state], [watches], [watch_events]), the allocator, the console or
    the ring transport run in a small monad over the record [world]. *)

From Stdlib Require Import ZArith List String Ascii Bool Lia Arith DecimalString.
Import ListNotations.

Local Open Scope string_scope.
Local Open Scope Z_scope.

(* ================================================================== *)
(** * Strings and buffers *)

Module CStr.

Definition NUL : ascii := Ascii.zero.

(** [strlen p]: distance from [p] to the first NUL.  [None] when the
    buffer ends before a NUL is found: the C function would read past the
    end of the object. *)
Fixpoint strlen (p : string) : option nat :=
  match p with
  | EmptyString => None
  | String c p' =>
      if Ascii.eqb c NUL then Some O
      else match strlen p' with
           | Some n => Some (S n)
           | None => None
           end
  end.

(** The C string that starts at [p]: the bytes before the first NUL. *)
Fixpoint cstr (p : string) : string :=
  match p with
  | EmptyString => EmptyString
  | String c p' => if Ascii.eqb c NUL then EmptyString else String c (cstr p')
  end.

(** Pointer arithmetic [p + n] inside a buffer. *)
Fixpoint advance (n : nat) (p : string) : string :=
  match n, p with
  | O, _ => p
  | S n', EmptyString => EmptyString
  | S n', String _ p' => advance n' p'
  end.

(** [memcpy] of the first [n] bytes into a fresh object of [n] bytes. *)
Fixpoint memcpy (n : nat) (p : string) : string :=
  match n, p with
  | O, _ => EmptyString
  | S n', EmptyString => EmptyString
  | S n', String c p' => String c (memcpy n' p')
  end.

(** A C string proper: no NUL inside. *)
Fixpoint nul_free (s : string) : bool :=
  match s with
  | EmptyString => true
  | String c s' => negb (Ascii.eqb c NUL) && nul_free s'
  end.

(** The bytes a C string occupies: its characters and the terminator. *)
Definition with_nul (s : string) : string := s ++ String NUL EmptyString.

(** [streq(a, b)], i.e. [strcmp(a, b) == 0], on C strings. *)
Definition streq (a b : string) : bool := String.eqb a b.

End CStr.
Import CStr.

(* ================================================================== *)
(** * Data model *)

(** [struct xsd_sockmsg]: the wire header. *)
Record xsd_sockmsg := mk_sockmsg {
  type : Z;
  req_id : Z;
  tx_id : Z;
  len : Z
}.

(** [struct xenbus_watch]; a watch is identified by its address, which is
    what the code compares and what it prints into the token. *)
Record xenbus_watch := mk_watch {
  addr : Z;
  node : string
}.

Definition same_watch (a b : xenbus_watch) : bool := addr a =? addr b.

(** The union [u] of [struct xs_stored_msg]. *)
Inductive stored_u :=
| reply (body : string)
| watch (handle : xenbus_watch) (vec : list string) (vec_size : Z).

Record xs_stored_msg := mk_stored {
  hdr : xsd_sockmsg;
  u : stored_u
}.

(** Pointer results in the style of [err.h]: [ERR_PTR(err)] or a valid
    pointer, with what it points to.  The error codes that reach
    [ERR_PTR] are negative errno values, for which the C macro [IS_ERR]
    holds; here [IS_ERR] is the test on the constructor. *)
Inductive ptr (A : Type) :=
| ERR_PTR (err : Z)
| PTR (a : A).
Arguments ERR_PTR {A} err.
Arguments PTR {A} a.

Definition IS_ERR {A} (p : ptr A) : bool :=
  match p with ERR_PTR _ => true | PTR _ => false end.

(** Modelled from the spec: [struct semaphore] of semaphore.h (not under
    src/): a counter; [down] waits while it is zero. *)
Record semaphore := mk_sem { count : Z }.

(** Modelled from the spec: [struct rw_semaphore] of semaphore.h (not under
    src/): a reader/writer lock with a count of readers and one writer. *)
Record rw_semaphore := mk_rwsem { readers : Z; writer : bool }.

(** [struct xs_handle].  The spin locks guard critical sections that are
    atomic in this model and are not represented; a wait queue is
    represented by the number of [wake_up] calls it received. *)
Record xs_handle := mk_handle {
  reply_list : list xs_stored_msg;
  reply_waitq : nat;
  request_mutex : semaphore;
  suspend_mutex : rw_semaphore
}.

(** The collaborators: allocator, transport, console, user callbacks.
    [heap] lists the outcomes of the coming [malloc] calls ([true]: a
    buffer; past its end every call succeeds); [xb_wr] and [xb_rd] the
    return codes of the coming [xb_write] and [xb_read] calls (past their
    end 0); [xb_in] the bytes the ring will deliver; [xb_out] the bytes
    written to it; [console] the [printk] lines; [callbacks] the callback
    invocations made, oldest first. *)
Record world := mk_world {
  xs_state : xs_handle;
  watches : list xenbus_watch;
  watch_events : list xs_stored_msg;
  xenwatch_mutex : semaphore;
  watch_events_waitq : nat;
  heap : list bool;
  xb_wr : list Z;
  xb_rd : list Z;
  xb_in : string;
  xb_out : string;
  console : list string;
  callbacks : list (xenbus_watch * list string * Z)
}.

(* ------------------------------------------------------------------ *)
(** ** Field updates *)

Definition set_xs_state (f : xs_handle -> xs_handle) (w : world) : world :=
  mk_world (f (xs_state w)) (watches w) (watch_events w) (xenwatch_mutex w)
           (watch_events_waitq w) (heap w) (xb_wr w) (xb_rd w) (xb_in w) (xb_out w)
           (console w) (callbacks w).

Definition set_watches (f : list xenbus_watch -> list xenbus_watch) (w : world) : world :=
  mk_world (xs_state w) (f (watches w)) (watch_events w) (xenwatch_mutex w)
           (watch_events_waitq w) (heap w) (xb_wr w) (xb_rd w) (xb_in w) (xb_out w)
           (console w) (callbacks w).

Definition set_watch_events (f : list xs_stored_msg -> list xs_stored_msg) (w : world) : world :=
  mk_world (xs_state w) (watches w) (f (watch_events w)) (xenwatch_mutex w)
           (watch_events_waitq w) (heap w) (xb_wr w) (xb_rd w) (xb_in w) (xb_out w)
           (console w) (callbacks w).

Definition set_xenwatch_mutex (f : semaphore -> semaphore) (w : world) : world :=
  mk_world (xs_state w) (watches w) (watch_events w) (f (xenwatch_mutex w))
           (watch_events_waitq w) (heap w) (xb_wr w) (xb_rd w) (xb_in w) (xb_out w)
           (console w) (callbacks w).

Definition set_watch_events_waitq (f : nat -> nat) (w : world) : world :=
  mk_world (xs_state w) (watches w) (watch_events w) (xenwatch_mutex w)
           (f (watch_events_waitq w)) (heap w) (xb_wr w) (xb_rd w) (xb_in w) (xb_out w)
           (console w) (callbacks w).

Definition set_heap (f : list bool -> list bool) (w : world) : world :=
  mk_world (xs_state w) (watches w) (watch_events w) (xenwatch_mutex w)
           (watch_events_waitq w) (f (heap w)) (xb_wr w) (xb_rd w) (xb_in w) (xb_out w)
           (console w) (callbacks w).

Definition set_xb_wr (f : list Z -> list Z) (w : world) : world :=
  mk_world (xs_state w) (watches w) (watch_events w) (xenwatch_mutex w)
           (watch_events_waitq w) (heap w) (f (xb_wr w)) (xb_rd w) (xb_in w) (xb_out w)
           (console w) (callbacks w).

Definition set_xb_rd (f : list Z -> list Z) (w : world) : world :=
  mk_world (xs_state w) (watches w) (watch_events w) (xenwatch_mutex w)
           (watch_events_waitq w) (heap w) (xb_wr w) (f (xb_rd w)) (xb_in w) (xb_out w)
           (console w) (callbacks w).

Definition set_xb_in (f : string -> string) (w : world) : world :=
  mk_world (xs_state w) (watches w) (watch_events w) (xenwatch_mutex w)
           (watch_events_waitq w) (heap w) (xb_wr w) (xb_rd w) (f (xb_in w)) (xb_out w)
           (console w) (callbacks w).

Definition set_xb_out (f : string -> string) (w : world) : world :=
  mk_world (xs_state w) (watches w) (watch_events w) (xenwatch_mutex w)
           (watch_events_waitq w) (heap w) (xb_wr w) (xb_rd w) (xb_in w) (f (xb_out w))
           (console w) (callbacks w).

Definition set_console (f : list string -> list string) (w : world) : world :=
  mk_world (xs_state w) (watches w) (watch_events w) (xenwatch_mutex w)
           (watch_events_waitq w) (heap w) (xb_wr w) (xb_rd w) (xb_in w) (xb_out w)
           (f (console w)) (callbacks w).

Definition set_callbacks
  (f : list (xenbus_watch * list string * Z) -> list (xenbus_watch * list string * Z))
  (w : world) : world :=
  mk_world (xs_state w) (watches w) (watch_events w) (xenwatch_mutex w)
           (watch_events_waitq w) (heap w) (xb_wr w) (xb_rd w) (xb_in w) (xb_out w)
           (console w) (f (callbacks w)).

Definition set_reply_list (f : list xs_stored_msg -> list xs_stored_msg) (h : xs_handle) : xs_handle :=
  mk_handle (f (reply_list h)) (reply_waitq h) (request_mutex h) (suspend_mutex h).

Definition set_reply_waitq (f : nat -> nat) (h : xs_handle) : xs_handle :=
  mk_handle (reply_list h) (f (reply_waitq h)) (request_mutex h) (suspend_mutex h).

Definition set_request_mutex (f : semaphore -> semaphore) (h : xs_handle) : xs_handle :=
  mk_handle (reply_list h) (reply_waitq h) (f (request_mutex h)) (suspend_mutex h).

Definition set_suspend_mutex (f : rw_semaphore -> rw_semaphore) (h : xs_handle) : xs_handle :=
  mk_handle (reply_list h) (reply_waitq h) (request_mutex h) (f (suspend_mutex h)).

(* ================================================================== *)
(** * The monad of the C code *)

(** A call returns a value and a new world, never returns because it waits
    for something that does not come ([Blocked]), or leaves defined
    behaviour ([Fault]): a read outside an object, a list operation on a
    node in the wrong state. *)
Inductive outcome (A : Type) :=
| Done (a : A) (w : world)
| Blocked
| Fault.
Arguments Done {A} a w.
Arguments Blocked {A}.
Arguments Fault {A}.

Definition M (A : Type) : Type := world -> outcome A.

Definition ret {A} (a : A) : M A := fun w => Done a w.

Definition bind {A B} (m : M A) (k : A -> M B) : M B :=
  fun w => match m w with
           | Done a w' => k a w'
           | Blocked => Blocked
           | Fault => Fault
           end.

Declare Scope xs_scope.
Delimit Scope xs_scope with xs.
Notation "x <- m ;; k" := (bind m (fun x => k))
  (at level 61, m at next level, right associativity) : xs_scope.
Notation "m ;;; k" := (bind m (fun _ => k))
  (at level 61, right associativity) : xs_scope.
Local Open Scope xs_scope.

Definition get : M world := fun w => Done w w.
Definition modify (f : world -> world) : M unit := fun w => Done tt (f w).
Definition block {A} : M A := fun _ => Blocked.
Definition fault {A} : M A := fun _ => Fault.

(* ================================================================== *)
(** * What the missing headers provide *)

(** One row of [xsd_errors] (xs_wire.h). *)
Record xsd_error := mk_xsd_error {
  errnum : Z;
  errstring : string
}.

(** The constants, tables and library functions the file takes from
    headers that are not under src/ (errno.h, xen/io/xs_wire.h, lib.h).
    [sockmsg_bytes] and [sockmsg_of_bytes] are the object representation
    of [struct xsd_sockmsg], [sizeof_sockmsg] its size.  [sscanf p fmt]
    gives the return value of the call and what it stored through the
    output pointer, if it stored. *)
Class Platform := {
  EINVAL : Z;
  ENOMEM : Z;
  EEXIST : Z;
  XS_DIRECTORY : Z;
  XS_READ : Z;
  XS_WATCH : Z;
  XS_UNWATCH : Z;
  XS_TRANSACTION_START : Z;
  XS_TRANSACTION_END : Z;
  XS_WATCH_EVENT : Z;
  XS_ERROR : Z;
  XS_WATCH_TOKEN : nat;
  xsd_errors : list xsd_error;
  xsd_errors_nonempty : xsd_errors <> [];
  sizeof_sockmsg : nat;
  sockmsg_bytes : xsd_sockmsg -> string;
  sockmsg_of_bytes : string -> xsd_sockmsg;
  simple_strtoul : string -> Z -> Z;
  sprintf_lX : Z -> string;
  sscanf : string -> string -> Z * option string
}.

(** [%d] and [%i] of [printk]. *)
Definition fmt_d (z : Z) : string := NilZero.string_of_int (Z.to_int z).

Definition nez (z : Z) : bool := negb (z =? 0).

(* ================================================================== *)
(** * Collaborators *)

(** [malloc]: the next outcome of [heap]. *)
Definition malloc : M bool :=
  fun w => match heap w with
           | [] => Done true w
           | b :: rest => Done b (set_heap (fun _ => rest) w)
           end.

Definition next_rc (script : list Z) : Z :=
  match script with [] => 0 | rc :: _ => rc end.

(** Modelled from the spec: [xb_write] of xenbus_comms.c (not under src/):
    blocking write of the bytes, or an error code. *)
Definition xb_write (data : string) : M Z :=
  fun w =>
    let rc := next_rc (xb_wr w) in
    let w' := set_xb_wr (@tl Z) w in
    if rc =? 0 then Done 0 (set_xb_out (fun o => o ++ data) w')
    else Done rc w'.

(** Modelled from the spec: [xb_read] of xenbus_comms.c (not under src/):
    blocking read of exactly [n] bytes, or an error code. *)
Definition xb_read (n : nat) : M (Z * string) :=
  fun w =>
    let rc := next_rc (xb_rd w) in
    let w' := set_xb_rd (@tl Z) w in
    if rc =? 0 then
      if (String.length (xb_in w) <? n)%nat then Blocked
      else Done (0, memcpy n (xb_in w)) (set_xb_in (advance n) w')
    else Done (rc, EmptyString) w'.

Definition printk (line : string) : M unit :=
  modify (set_console (fun c => (c ++ [line])%list)).

(** Modelled from the spec: [down] and [up] of semaphore.h (not under
    src/). *)
Definition down (sem : world -> semaphore)
  (upd : (semaphore -> semaphore) -> world -> world) : M unit :=
  fun w => if 0 <? count (sem w)
           then Done tt (upd (fun s => mk_sem (count s - 1)) w)
           else Blocked.

Definition up (upd : (semaphore -> semaphore) -> world -> world) : M unit :=
  modify (upd (fun s => mk_sem (count s + 1))).

Definition the_request_mutex (w : world) : semaphore := request_mutex (xs_state w).
Definition upd_request_mutex (f : semaphore -> semaphore) : world -> world :=
  set_xs_state (set_request_mutex f).

(** Modelled from the spec: [down_read] and [up_read] of semaphore.h (not
    under src/), on [xs_state.suspend_mutex]: a reader waits while the
    writer holds the lock. *)
Definition down_read : M unit :=
  fun w => if writer (suspend_mutex (xs_state w)) then Blocked
           else Done tt (set_xs_state (set_suspend_mutex
                           (fun s => mk_rwsem (readers s + 1) (writer s))) w).

Definition up_read : M unit :=
  modify (set_xs_state (set_suspend_mutex
            (fun s => mk_rwsem (readers s - 1) (writer s)))).

(** [list_add(&watch->list, &watches)]: at the head.  A node that is
    already linked would corrupt the list. *)
Definition list_add_watch (wt : xenbus_watch) : M unit :=
  fun w => if existsb (same_watch wt) (watches w) then Fault
           else Done tt (set_watches (cons wt) w).

Fixpoint unlink (wt : xenbus_watch) (l : list xenbus_watch) : list xenbus_watch :=
  match l with
  | [] => []
  | x :: l' => if same_watch x wt then l' else x :: unlink wt l'
  end.

(** [list_del(&watch->list)]; the node has to be linked. *)
Definition list_del_watch (wt : xenbus_watch) : M unit :=
  fun w => if existsb (same_watch wt) (watches w)
           then Done tt (set_watches (unlink wt) w)
           else Fault.

(* ================================================================== *)
(** * The functions of xenbus_xs.c *)

Section Xenbus.

Context `{Platform}.

(** [get_error]: the loop over [xsd_errors], from index [i] on ([tab] is
    the rest of the array from [i]). *)
Fixpoint get_error_from (tab : list xsd_error) (errorstring : string) : M Z :=
  match tab with
  | [] => fault
  | e :: rest =>
      if streq errorstring (errstring e) then ret (errnum e)
      else match rest with
           | [] =>
               printk ("XENBUS xen store gave: unknown error " ++ errorstring);;;
               ret EINVAL
           | _ :: _ => get_error_from rest errorstring
           end
  end.

Definition get_error (errorstring : string) : M Z :=
  get_error_from xsd_errors errorstring.

(** [count_strings]: [p] is the offset of the C pointer in [strings]. *)
Fixpoint count_strings_from (fuel : nat) (strings : string) (len p num : nat)
  : option nat :=
  if (p <? len)%nat then
    match fuel with
    | O => None
    | S fuel' =>
        match strlen (advance p strings) with
        | None => None
        | Some n => count_strings_from fuel' strings len (p + n + 1) (S num)
        end
    end
  else Some num.

Definition count_strings (strings : string) (len : nat) : option nat :=
  count_strings_from len strings len 0 0.

(** [join]: the path to [dir] with [/name] appended. *)
Definition join (dir name : string) : M (ptr string) :=
  buffer <- malloc;;
  if negb buffer then ret (ERR_PTR (- ENOMEM))
  else
    let buffer := dir in
    ret (PTR (if negb (streq name "") then (buffer ++ "/") ++ name else buffer)).

(** The second loop of [split], over the copy: [ret[( *num)++] = p]. *)
Fixpoint split_from (fuel : nat) (strings : string) (len p : nat)
  (vec : list string) : option (list string) :=
  if (p <? len)%nat then
    match fuel with
    | O => None
    | S fuel' =>
        match strlen (advance p strings) with
        | None => None
        | Some n =>
            split_from fuel' strings len (p + n + 1)
                       (vec ++ [cstr (advance p strings)])%list
        end
    end
  else Some vec.

(** [split]: the strings of the payload and their number.  The copy holds
    the [len] bytes of the payload and nothing after them. *)
Definition split (strings : string) (len : nat) : M (ptr (list string * Z)) :=
  match count_strings strings len with
  | None => fault
  | Some num =>
      r <- malloc;;
      if negb r then ret (ERR_PTR (- ENOMEM))
      else
        let strings := memcpy len strings in
        match split_from len strings len 0 [] with
        | None => fault
        | Some vec => ret (PTR (vec, Z.of_nat (List.length vec)))
        end
  end.

(** [find_watch]: the watch whose address the token spells. *)
Definition find_watch (token : string) : M (option xenbus_watch) :=
  let cmp := simple_strtoul token 16 in
  w <- get;;
  ret (find (fun i => addr i =? cmp) (watches w)).

(** Arithmetic on [unsigned int]: 32 bits, wrapping. *)
Definition u32 (z : Z) : Z := z mod 2 ^ 32.

(** The size [msg->hdr.len + 1] that [process_msg] asks [malloc] for is
    computed in 32 bits: it is smaller than the [len] bytes read into
    the buffer and the terminator written after them when the sum
    wraps. *)
Definition body_overrun (h : xsd_sockmsg) : bool :=
  u32 (len h + 1) <? len h + 1.

(** [process_msg]: read one message from the ring and route it. *)
Definition process_msg : M Z :=
  msg <- malloc;;
  if negb msg then ret (- ENOMEM)
  else
    rd <- xb_read sizeof_sockmsg;;
    if nez (fst rd) then ret (fst rd)
    else
      let h := sockmsg_of_bytes (snd rd) in
      body <- malloc;;
      if negb body then ret (- ENOMEM)
      else
        rd <- xb_read (Z.to_nat (len h));;
        if nez (fst rd) then ret (fst rd)
        else if body_overrun h then fault  (* written past the buffer *)
        else
          let body := snd rd ++ String NUL EmptyString in
          if type h =? XS_WATCH_EVENT then
            v <- split body (Z.to_nat (len h));;
            match v with
            | ERR_PTR _ => fault  (* reads msg->u.watch.vec after free(msg) *)
            | PTR (vec, vec_size) =>
                match nth_error vec XS_WATCH_TOKEN with
                | None => fault   (* vec[XS_WATCH_TOKEN] is past the array *)
                | Some token =>
                    hd <- find_watch token;;
                    match hd with
                    | Some wt =>
                        modify (set_watch_events (fun q =>
                           (q ++ [mk_stored h (watch wt vec vec_size)])%list));;;
                        modify (set_watch_events_waitq S);;;
                        ret 0
                    | None => ret 0
                    end
                end
            end
          else
            modify (set_xs_state (set_reply_list (fun q =>
               (q ++ [mk_stored h (reply body)])%list)));;;
            modify (set_xs_state (set_reply_waitq S));;;
            ret 0.

(** One turn of the loop of [xenbus_thread]. *)
Definition xenbus_thread_iter : M unit :=
  err <- process_msg;;
  if nez err
  then printk ("XENBUS error " ++ fmt_d err ++ " while reading message" ++ String "010" "")
  else ret tt.

(** Modelled from the spec: [wait_event] of wait.h (not under src/): the
    caller sleeps until the condition holds; meanwhile the Dispatcher
    ([xenbus_thread]) runs.  Every turn of the Dispatcher uses up ring
    bytes or a scripted outcome, or waits for the ring itself. *)
Fixpoint wait_event_from (fuel : nat) (cond : world -> bool) : M unit :=
  fun w =>
    if cond w then Done tt w
    else match fuel with
         | O => Blocked
         | S fuel' => (xenbus_thread_iter;;; wait_event_from fuel' cond) w
         end.

Definition wait_event (cond : world -> bool) : M unit :=
  fun w => wait_event_from
             (S (String.length (xb_in w) + List.length (xb_rd w)
                 + List.length (heap w))) cond w.

Definition list_empty {A} (l : list A) : bool :=
  match l with [] => true | _ :: _ => false end.

(** [read_reply]: type, length and body of the oldest queued reply. *)
Definition read_reply : M (Z * Z * string) :=
  wait_event (fun w => negb (list_empty (reply_list (xs_state w))));;;
  w <- get;;
  match reply_list (xs_state w) with
  | [] => fault
  | msg :: rest =>
      modify (set_xs_state (set_reply_list (fun _ => rest)));;;
      match u msg with
      | reply body => ret (type (hdr msg), len (hdr msg), body)
      | watch _ _ _ => fault
      end
  end.

(** The loop of [xs_talkv] over the payload parts: the first error. *)
Fixpoint write_iovec (iovec : list string) : M Z :=
  match iovec with
  | [] => ret 0
  | v :: rest =>
      err <- xb_write v;;
      if nez err then ret err else write_iovec rest
  end.

Definition iovec_len (iovec : list string) : Z :=
  fold_left (fun l v => u32 (l + Z.of_nat (String.length v))) iovec 0.

(** [xs_talkv]: send a request, return the reply body and its length, or
    [ERR_PTR]. *)
Definition xs_talkv (t : Z) (ty : Z) (iovec : list string)
  : M (ptr (string * Z)) :=
  let msg := mk_sockmsg ty 0 (u32 t) (iovec_len iovec) in
  down the_request_mutex upd_request_mutex;;;
  err <- xb_write (sockmsg_bytes msg);;
  if nez err then
    up upd_request_mutex;;;
    ret (ERR_PTR err)
  else
    err <- write_iovec iovec;;
    if nez err then
      up upd_request_mutex;;;
      ret (ERR_PTR err)
    else
      r <- read_reply;;
      up upd_request_mutex;;;
      let '(rtype, rlen, body) := r in
      if rtype =? XS_ERROR then
        err <- get_error (cstr body);;
        ret (ERR_PTR (- err))
      else ret (PTR (body, rlen)).

(** [xs_single]: one payload part, the string and its terminator. *)
Definition xs_single (t : Z) (ty : Z) (s : string) : M (ptr (string * Z)) :=
  xs_talkv t ty [with_nul s].

Definition xs_error {A} (r : ptr A) : Z :=
  match r with ERR_PTR e => e | PTR _ => 0 end.

Definition xenbus_directory (t : Z) (dir node : string)
  : M (ptr (list string * Z)) :=
  path <- join dir node;;
  match path with
  | ERR_PTR e => ret (ERR_PTR e)
  | PTR path =>
      strings <- xs_single t XS_DIRECTORY path;;
      match strings with
      | ERR_PTR e => ret (ERR_PTR e)
      | PTR (strings, len) => split strings (Z.to_nat len)
      end
  end.

Definition xenbus_exists (t : Z) (dir node : string) : M Z :=
  d <- xenbus_directory t dir node;;
  if IS_ERR d then ret 0 else ret 1.

Definition xenbus_read (t : Z) (dir node : string) : M (ptr (string * Z)) :=
  path <- join dir node;;
  match path with
  | ERR_PTR e => ret (ERR_PTR e)
  | PTR path => xs_single t XS_READ path
  end.

(** [xenbus_transaction_start]; the [NULL] transaction is 0. *)
Definition xenbus_transaction_start : M (ptr Z) :=
  down_read;;;
  id_str <- xs_single 0 XS_TRANSACTION_START "";;
  match id_str with
  | ERR_PTR e =>
      up_read;;;
      ret (ERR_PTR e)
  | PTR (id_str, _) => ret (PTR (simple_strtoul (cstr id_str) 0))
  end.

Definition xenbus_transaction_end (t : Z) (abort : Z) : M Z :=
  let abortstr := if nez abort then "F" else "T" in
  r <- xs_single t XS_TRANSACTION_END abortstr;;
  let err := xs_error r in
  up_read;;;
  ret err.

(** The caller's output objects of [xenbus_gather], by address. *)
Definition outputs := list (Z * string).

Definition store (result : Z) (v : string) (out : outputs) : outputs :=
  (result, v) :: out.

Fixpoint load (result : Z) (out : outputs) : option string :=
  match out with
  | [] => None
  | (a, v) :: out' => if a =? result then Some v else load result out'
  end.

(** [xenbus_gather]: [args] is the argument list up to the terminating
    [NULL], as triples of name, format ([None] for [NULL]) and output
    address.  [ret] is the local of the C function. *)
Fixpoint xenbus_gather_from (t : Z) (dir : string)
  (args : list (string * option string * Z)) (ret_ : Z) (out : outputs)
  : M (Z * outputs) :=
  if nez ret_ then ret (ret_, out)
  else
    match args with
    | [] => ret (ret_, out)
    | (name, fmt, result) :: rest =>
        p <- xenbus_read t dir name;;
        match p with
        | ERR_PTR e => ret (e, out)
        | PTR (p, _) =>
            match fmt with
            | Some fmt =>
                let '(n, stored) := sscanf (cstr p) fmt in
                let out := match stored with
                           | Some v => store result v out
                           | None => out
                           end in
                xenbus_gather_from t dir rest
                  (if n =? 0 then - EINVAL else ret_) out
            | None => xenbus_gather_from t dir rest ret_ (store result p out)
            end
        end
    end.

Definition xenbus_gather (t : Z) (dir : string)
  (args : list (string * option string * Z)) (out : outputs) : M (Z * outputs) :=
  xenbus_gather_from t dir args 0 out.

Definition xs_watch (path token : string) : M Z :=
  r <- xs_talkv 0 XS_WATCH [with_nul path; with_nul token];;
  ret (xs_error r).

Definition xs_unwatch (path token : string) : M Z :=
  r <- xs_talkv 0 XS_UNWATCH [with_nul path; with_nul token];;
  ret (xs_error r).

(** [register_xenbus_watch]; the token is the address in hexadecimal. *)
Definition register_xenbus_watch (wt : xenbus_watch) : M Z :=
  let token := sprintf_lX (addr wt) in
  down_read;;;
  list_add_watch wt;;;
  err <- xs_watch (node wt) token;;
  (if nez err && negb (err =? - EEXIST) then list_del_watch wt else ret tt);;;
  up_read;;;
  ret err.

(** The event is one of the watch [wt]: [msg->u.watch.handle == watch]. *)
Definition event_of (wt : xenbus_watch) (msg : xs_stored_msg) : bool :=
  match u msg with
  | watch handle _ _ => same_watch handle wt
  | reply _ => false
  end.

Definition unregister_xenbus_watch (wt : xenbus_watch) : M unit :=
  let token := sprintf_lX (addr wt) in
  down_read;;;
  list_del_watch wt;;;
  err <- xs_unwatch (node wt) token;;
  (if nez err
   then printk ("XENBUS Failed to release watch " ++ node wt ++ ": "
                ++ fmt_d err ++ String "010" "")
   else ret tt);;;
  up_read;;;
  modify (set_watch_events (filter (fun msg => negb (event_of wt msg)))).

(** [xenwatch_thread], first part of a turn of its loop: wait for an
    event, take [xenwatch_mutex], unlink the oldest event under
    [watch_events_lock].  The result is the local [ent]. *)
Definition xenwatch_dequeue : M (option xs_stored_msg) :=
  wait_event (fun w => negb (list_empty (watch_events w)));;;
  down xenwatch_mutex set_xenwatch_mutex;;;
  w <- get;;
  match watch_events w with
  | [] => ret None
  | ent :: rest =>
      modify (set_watch_events (fun _ => rest));;;
      ret (Some ent)
  end.

(** Second part: outside [watch_events_lock], run the callback of the
    event taken and release [xenwatch_mutex].  The callback is the
    owner's code; the model records the call. *)
Definition xenwatch_deliver (ent : option xs_stored_msg) : M unit :=
  (match ent with
   | Some msg =>
       match u msg with
       | watch handle vec vec_size =>
           modify (set_callbacks (fun c => (c ++ [(handle, vec, vec_size)])%list))
       | reply _ => fault
       end
   | None => ret tt
   end);;;
  up set_xenwatch_mutex.

Definition xenwatch_thread_iter : M unit :=
  ent <- xenwatch_dequeue;;
  xenwatch_deliver ent.

End Xenbus.

(* ================================================================== *)
(** * A platform to run the code on

    The values of errno.h and xen/io/xs_wire.h, a little-endian header of
    four 32-bit fields, and the library functions in the cases the
    examples use. *)

Module Xen.

Definition le32 (z : Z) : string :=
  let b (k : Z) := ascii_of_N (Z.to_N ((z / 2 ^ (8 * k)) mod 256)) in
  String (b 0) (String (b 1) (String (b 2) (String (b 3) EmptyString))).

Definition byte_at (k : nat) (s : string) : Z :=
  match String.get k s with
  | Some c => Z.of_N (N_of_ascii c)
  | None => 0
  end.

Definition of_le32 (k : nat) (s : string) : Z :=
  byte_at k s + 2 ^ 8 * byte_at (k + 1) s + 2 ^ 16 * byte_at (k + 2) s
  + 2 ^ 24 * byte_at (k + 3) s.

Definition hdr_bytes (h : xsd_sockmsg) : string :=
  le32 (type h) ++ le32 (req_id h) ++ le32 (tx_id h) ++ le32 (len h).

Definition hdr_of_bytes (s : string) : xsd_sockmsg :=
  mk_sockmsg (of_le32 0 s) (of_le32 4 s) (of_le32 8 s) (of_le32 12 s).

(** The value of a digit for [simple_strtoul], if it is one. *)
Definition xdigit (c : ascii) : option Z :=
  let n := Z.of_N (N_of_ascii c) in
  if (48 <=? n) && (n <=? 57) then Some (n - 48)
  else if (97 <=? n) && (n <=? 102) then Some (n - 87)
  else if (65 <=? n) && (n <=? 70) then Some (n - 55)
  else None.

Fixpoint strtoul_digits (base : Z) (cp : string) (result : Z) : Z :=
  match cp with
  | EmptyString => result
  | String c cp' =>
      match xdigit c with
      | Some value =>
          if value <? base
          then strtoul_digits base cp' ((result * base + value) mod 2 ^ 64)
          else result
      | None => result
      end
  end.

Definition is_xdigit_at (k : nat) (s : string) : bool :=
  match String.get k s with
  | Some c => match xdigit c with Some _ => true | None => false end
  | None => false
  end.

Definition strtoul (cp : string) (base : Z) : Z :=
  if base =? 0 then
    match cp with
    | String "0" cp' =>
        match cp' with
        | String "x" cp'' =>
            if is_xdigit_at 0 cp'' then strtoul_digits 16 cp'' 0
            else strtoul_digits 8 cp' 0
        | _ => strtoul_digits 8 cp' 0
        end
    | _ => strtoul_digits 10 cp 0
    end
  else strtoul_digits base cp 0.

Definition hex_digit (d : Z) : ascii :=
  ascii_of_N (Z.to_N (if d <? 10 then 48 + d else 55 + d)).

Fixpoint to_hex (fuel : nat) (n : Z) (acc : string) : string :=
  match fuel with
  | O => acc
  | S fuel' =>
      let acc' := String (hex_digit (n mod 16)) acc in
      if n / 16 =? 0 then acc' else to_hex fuel' (n / 16) acc'
  end.

Definition print_lX (a : Z) : string := to_hex 16 (a mod 2 ^ 64) EmptyString.

Fixpoint leading_digits (s : string) : string :=
  match s with
  | EmptyString => EmptyString
  | String c s' =>
      let n := Z.of_N (N_of_ascii c) in
      if (48 <=? n) && (n <=? 57) then String c (leading_digits s')
      else EmptyString
  end.

(** [sscanf] for a format of one unsigned decimal field: the digits read
    are what is stored; -1 ([EOF]) on empty input. *)
Definition scan_u (p fmt : string) : Z * option string :=
  match p with
  | EmptyString => (-1, None)
  | _ => match leading_digits p with
         | EmptyString => (0, None)
         | d => (1, Some d)
         end
  end.

Definition errors : list xsd_error :=
  [ mk_xsd_error 22 "EINVAL"; mk_xsd_error 13 "EACCES";
    mk_xsd_error 17 "EEXIST"; mk_xsd_error 21 "EISDIR";
    mk_xsd_error 2 "ENOENT"; mk_xsd_error 12 "ENOMEM";
    mk_xsd_error 28 "ENOSPC"; mk_xsd_error 5 "EIO";
    mk_xsd_error 39 "ENOTEMPTY"; mk_xsd_error 38 "ENOSYS";
    mk_xsd_error 30 "EROFS"; mk_xsd_error 16 "EBUSY";
    mk_xsd_error 11 "EAGAIN"; mk_xsd_error 106 "EISCONN" ].

Definition errors_nonempty : errors <> [] := ltac:(discriminate).

#[export] Instance platform : Platform := {|
  EINVAL := 22;
  ENOMEM := 12;
  EEXIST := 17;
  XS_DIRECTORY := 1;
  XS_READ := 2;
  XS_WATCH := 4;
  XS_UNWATCH := 5;
  XS_TRANSACTION_START := 6;
  XS_TRANSACTION_END := 7;
  XS_WATCH_EVENT := 15;
  XS_ERROR := 16;
  XS_WATCH_TOKEN := 1;
  xsd_errors := errors;
  xsd_errors_nonempty := errors_nonempty;
  sizeof_sockmsg := 16;
  sockmsg_bytes := hdr_bytes;
  sockmsg_of_bytes := hdr_of_bytes;
  simple_strtoul := strtoul;
  sprintf_lX := print_lX;
  sscanf := scan_u
|}.

(** The bytes of a message on the ring. *)
Definition frame (ty rq tx : Z) (payload : string) : string :=
  hdr_bytes (mk_sockmsg ty rq tx (Z.of_nat (String.length payload)))
  ++ payload.

(** A quiet world: nothing queued, no watch, locks free, empty ring. *)
Definition idle : world :=
  mk_world (mk_handle [] 0 (mk_sem 1) (mk_rwsem 0 false)) [] [] (mk_sem 1)
           0 [] [] [] EmptyString EmptyString [] [].

End Xen.

(* ================================================================== *)
(** * The vocabulary of the properties *)

(** The payload made of the given strings, each with its terminator. *)
Definition payload_of (ss : list string) : string :=
  fold_right (fun s rest => with_nul s ++ rest) "" ss.

Definition all_nul_free (ss : list string) : bool := forallb nul_free ss.

(** The next [malloc] returns a buffer. *)
Definition malloc_ok (w : world) : bool := hd true (heap w).

(** [m] only takes worlds to worlds related by [R]. *)
Definition preserves {A} (R : world -> world -> Prop) (m : M A) : Prop :=
  forall w a w', m w = Done a w' -> R w w'.

(** The event was queued for a watch of the registry [ws]. *)
Definition from_registry (ws : list xenbus_watch) (ev : xs_stored_msg) : Prop :=
  match u ev with
  | watch handle _ _ => In handle ws
  | reply _ => False
  end.

(** What a turn of the Dispatcher leaves alone, and how the queues grow. *)
Record dframe (w w' : world) : Prop := mk_dframe {
  df_request_mutex : request_mutex (xs_state w') = request_mutex (xs_state w);
  df_suspend_mutex : suspend_mutex (xs_state w') = suspend_mutex (xs_state w);
  df_watches : watches w' = watches w;
  df_xb_out : xb_out w' = xb_out w;
  df_xb_wr : xb_wr w' = xb_wr w;
  df_callbacks : callbacks w' = callbacks w;
  df_xenwatch_mutex : xenwatch_mutex w' = xenwatch_mutex w;
  df_watch_events : exists added,
      watch_events w' = (watch_events w ++ added)%list
      /\ Forall (from_registry (watches w)) added
}.

(** No request touches the suspend lock, the registry, the callback log
    or the Watcher's mutex, and events are queued for registered watches
    only. *)
Record kframe (w w' : world) : Prop := mk_kframe {
  kf_suspend_mutex : suspend_mutex (xs_state w') = suspend_mutex (xs_state w);
  kf_watches : watches w' = watches w;
  kf_callbacks : callbacks w' = callbacks w;
  kf_xenwatch_mutex : xenwatch_mutex w' = xenwatch_mutex w;
  kf_watch_events : exists added,
      watch_events w' = (watch_events w ++ added)%list
      /\ Forall (from_registry (watches w)) added
}.

(** [request_mutex] can be taken. *)
Definition mutex_free (w : world) : bool :=
  0 <? count (request_mutex (xs_state w)).

(** The first [n] writes to come all succeed. *)
Definition writes_ok (n : nat) (w : world) : bool :=
  forallb (Z.eqb 0) (firstn n (xb_wr w)).

(** The error of the first of the next [n] writes that fails. *)
Definition first_failed (n : nat) (w : world) : option Z :=
  find nez (firstn n (xb_wr w)).

(** [w'] is [w] but for what was written to the ring and the write
    script. *)
Definition only_written (w w' : world) : Prop :=
  w' = set_xb_out (fun _ => xb_out w') (set_xb_wr (fun _ => xb_wr w') w).

(** [w'] is [w] but for the allocator script and the input side of the
    ring. *)
Definition only_input (w w' : world) : Prop :=
  w' = set_heap (fun _ => heap w')
         (set_xb_rd (fun _ => xb_rd w') (set_xb_in (fun _ => xb_in w') w)).

(** The bytes of the parts, as they go to the ring. *)
Definition iovec_bytes (iovec : list string) : string :=
  fold_right String.append "" iovec.

(** What the Dispatcher can still use up: ring bytes and scripted
    outcomes of reads and allocations. *)
Definition pending (w : world) : nat :=
  (String.length (xb_in w) + List.length (xb_rd w) + List.length (heap w))%nat.

(** The Dispatcher used nothing up, or something. *)
Definition no_more_pending (w w' : world) : Prop := (pending w' <= pending w)%nat.

(** The number of readers that hold the suspend lock. *)
Definition suspend_readers (w : world) : Z := readers (suspend_mutex (xs_state w)).

(** The watch is linked into the registry. *)
Definition registered (wt : xenbus_watch) (w : world) : bool :=
  existsb (same_watch wt) (watches w).

(** Nothing of the watch is left: it is not registered and no event of
    it is queued. *)
Definition forgotten (wt : xenbus_watch) (w : world) : Prop :=
  registered wt w = false /\ existsb (event_of wt) (watch_events w) = false.

Definition callback_of (wt : xenbus_watch)
  (cb : xenbus_watch * list string * Z) : bool :=
  same_watch (fst (fst cb)) wt.

(** From [w] to [w'] no callback of the watch was run. *)
Definition silent (wt : xenbus_watch) (w w' : world) : Prop :=
  exists added, callbacks w' = (callbacks w ++ added)%list
                /\ existsb (callback_of wt) added = false.

(** A step that keeps a forgotten watch forgotten and silent. *)
Definition quiet (wt : xenbus_watch) (w w' : world) : Prop :=
  forgotten wt w -> forgotten wt w' /\ silent wt w w'.

Section Vocabulary.

Context `{Platform}.

(** The fixed table read as the spec has it: the code of the first row
    with that name, and a generic code for a name that has no row. *)
Definition known_error (name : string) : bool :=
  existsb (fun e => String.eqb name (errstring e)) xsd_errors.

Definition error_code (name : string) : Z :=
  match find (fun e => String.eqb name (errstring e)) xsd_errors with
  | Some e => errnum e
  | None => EINVAL
  end.

Definition unknown_error_line (name : string) : string :=
  "XENBUS xen store gave: unknown error " ++ name.

(** The world once the request is out: the mutex taken, header and parts
    on the ring. *)
Definition sent (t ty : Z) (iovec : list string) (w : world) : world :=
  set_xb_out (fun o => o ++ sockmsg_bytes (mk_sockmsg ty 0 (u32 t) (iovec_len iovec))
                         ++ iovec_bytes iovec)
    (set_xb_wr (skipn (S (List.length iovec)))
       (upd_request_mutex (fun s => mk_sem (count s - 1)) w)).

(** [register_xenbus_watch] takes its registration back. *)
Definition rolled_back (err : Z) : bool :=
  nez err && negb (err =? - EEXIST).

(** The Dispatcher reads a message: both allocations and both reads of
    [process_msg] succeed, with header [h] and [payload]. *)
Definition dispatcher_reads (w : world) (h : xsd_sockmsg) (payload : string)
  (w4 : world) : Prop :=
  exists w1 w2 w3 hb,
    malloc w = Done true w1
    /\ xb_read sizeof_sockmsg w1 = Done (0, hb) w2
    /\ sockmsg_of_bytes hb = h
    /\ malloc w2 = Done true w3
    /\ xb_read (Z.to_nat (len h)) w3 = Done (0, payload) w4.

(** The registered watch the token names, if there is one. *)
Definition token_watch (token : string) (w : world) : option xenbus_watch :=
  find (fun i => addr i =? simple_strtoul token 16) (watches w).

(** The keys of [args] are all read and parsed: from outputs [out] in
    world [w] to outputs [out'] in world [w']. *)
Inductive gathered (t : Z) (dir : string)
  : list (string * option string * Z) -> outputs -> world -> outputs -> world -> Prop :=
| gathered_nil out w : gathered t dir [] out w out w
| gathered_raw name result rest out w p l w1 out' w' :
    xenbus_read t dir name w = Done (PTR (p, l)) w1 ->
    gathered t dir rest (store result p out) w1 out' w' ->
    gathered t dir ((name, None, result) :: rest) out w out' w'
| gathered_scan name fmt result rest out w p l w1 n stored out' w' :
    xenbus_read t dir name w = Done (PTR (p, l)) w1 ->
    sscanf (cstr p) fmt = (n, stored) ->
    n <> 0 ->
    gathered t dir rest
      (match stored with Some v => store result v out | None => out end)
      w1 out' w' ->
    gathered t dir ((name, Some fmt, result) :: rest) out w out' w'.

(** Where the Watcher is in a turn of its loop: not in one ([None]), or
    between unlinking an event under [watch_events_lock] and running its
    callback, with what its local [ent] holds. *)
Definition watcher_at : Type := option (option xs_stored_msg).

(** The Watcher is not holding an event of the watch. *)
Definition holds_none_of (wt : xenbus_watch) (at_ : watcher_at) : Prop :=
  match at_ with
  | Some (Some msg) => event_of wt msg = false
  | _ => True
  end.

(** What may happen once [unregister_xenbus_watch] has returned: turns
    of the Dispatcher, the two parts of a turn of the Watcher, requests
    to the store, and registrations and unregistrations of other
    watches. *)
Inductive later_step (wt : xenbus_watch)
  : world * watcher_at -> world * watcher_at -> Prop :=
| step_dispatcher w w' at_ :
    xenbus_thread_iter w = Done tt w' -> later_step wt (w, at_) (w', at_)
| step_take w ent w' :
    xenwatch_dequeue w = Done ent w' -> later_step wt (w, None) (w', Some ent)
| step_deliver w ent w' :
    xenwatch_deliver ent w = Done tt w' -> later_step wt (w, Some ent) (w', None)
| step_request t ty iovec r w w' at_ :
    xs_talkv t ty iovec w = Done r w' -> later_step wt (w, at_) (w', at_)
| step_register o err w w' at_ :
    same_watch o wt = false ->
    register_xenbus_watch o w = Done err w' -> later_step wt (w, at_) (w', at_)
| step_unregister o w w' at_ :
    unregister_xenbus_watch o w = Done tt w' -> later_step wt (w, at_) (w', at_).

Inductive later (wt : xenbus_watch)
  : world * watcher_at -> world * watcher_at -> Prop :=
| later_now s : later wt s s
| later_then s1 s2 s3 : later_step wt s1 s2 -> later wt s2 s3 -> later wt s1 s3.

End Vocabulary.

(* ================================================================== *)
(** * Sample worlds *)

Module Sample.

Import Xen.

(** The world a call leaves, for a call that returns. *)
Definition world_of {A} (o : outcome A) : world :=
  match o with Done _ w => w | _ => idle end.

Definition nul : string := String NUL EmptyString.

(** The ring delivers the bytes [bytes]. *)
Definition ring (bytes : string) (w : world) : world := set_xb_in (fun _ => bytes) w.

(** The store answers with the error [name]. *)
Definition error_reply (name : string) : string := frame 16 0 0 (with_nul name).

(** The second write to the ring fails with [-EIO]. *)
Definition broken_ring : world := set_xb_wr (fun _ => [0; -5]) idle.

(** A watch at address 0xBEEF on the node [/n], and an event for it. *)
Definition beef : xenbus_watch := mk_watch 48879 "/n".

Definition beef_event : string := frame 15 0 0 (with_nul "/n" ++ with_nul "BEEF").

Definition beef_stored : xs_stored_msg :=
  mk_stored (mk_sockmsg 15 0 0 8) (watch beef ["/n"; "BEEF"] 2).

Definition watching : world := set_watches (fun _ => [beef]) idle.

(** The store answers a read of [/a] with the unknown error [EWEIRD]. *)
Definition weird : world := ring (error_reply "EWEIRD") idle.

Definition weird_read : world :=
  world_of (read_reply (sent 0 XS_READ [with_nul "/a"] weird)).

(** The ring delivers an event for [beef], which is registered. *)
Definition beef_arrives : world := ring beef_event watching.

Definition beef_hdr_read : world := world_of (xb_read 16 beef_arrives).

Definition beef_read : world := world_of (xb_read 8 beef_hdr_read).

(** A transaction: the store answers the start with the id 12 and the
    end with an acknowledgement. *)
Definition transaction : world :=
  ring (frame 6 0 0 (with_nul "12") ++ frame 7 0 0 (with_nul "OK")) idle.

Definition transaction_open : world := world_of (xenbus_transaction_start transaction).

(** The store answers a directory request with an empty listing. *)
Definition empty_listing : world := ring (frame 1 0 0 "") idle.

(** No memory for the next allocation. *)
Definition no_memory : world := set_heap (fun _ => [false]) idle.

(** The store refuses the watch request with [EACCES]. *)
Definition refused : world := ring (error_reply "EACCES") idle.

Definition refused_locked : world := world_of (down_read refused).

Definition refused_answered : world :=
  world_of (xs_watch "/n" "BEEF" (set_watches (cons beef) refused_locked)).

(** The store answers a first read with the value [va] and a second one
    with the error [ENOENT]. *)
Definition two_reads : world :=
  ring (frame 2 0 0 "va" ++ error_reply "ENOENT") idle.

Definition one_read : world := world_of (xenbus_read 0 "/d" "a" two_reads).

Definition second_failed : world := world_of (xenbus_read 0 "/d" "b" one_read).

Definition two_keys : list (string * option string * Z) :=
  [("a", None, 100); ("b", None, 200)].

(** [beef] is registered and two events for it are queued; the Watcher
    is about to take the first; the ring delivers the answer to the
    unwatch request. *)
Definition racing : world :=
  set_watch_events (fun _ => [beef_stored; beef_stored])
    (ring (frame 5 0 0 (with_nul "OK")) watching).

Definition racing_taken : world := world_of (xenwatch_dequeue racing).

Definition racing_unregistered : world :=
  world_of (unregister_xenbus_watch beef racing_taken).

Definition racing_delivered : world :=
  world_of (xenwatch_deliver (Some beef_stored) racing_unregistered).

(** An event for [beef] is queued; the ring delivers the answer to the
    unwatch request and then one more event for [beef]. *)
Definition leaving : world :=
  set_watch_events (fun _ => [beef_stored])
    (ring (frame 5 0 0 (with_nul "OK") ++ beef_event) watching).

Definition leaving_locked : world := world_of (down_read leaving).

Definition leaving_answered : world :=
  world_of (xs_unwatch "/n" "BEEF" (set_watches (unlink beef) leaving_locked)).

Definition left : world := world_of (unregister_xenbus_watch beef leaving).

Definition left_later : world := world_of (xenbus_thread_iter left).

End Sample.

(* ================================================================== *)
(** * More of xenbus_xs.c *)

(** More message types of xen/io/xs_wire.h (not under src/). *)
Class Wire := {
  XS_DEBUG : Z;
  XS_WRITE : Z;
  XS_MKDIR : Z;
  XS_RM : Z
}.

(** Modelled from the spec: [down_write] and [up_write] of semaphore.h
    (not under src/), on [xs_state.suspend_mutex]: the writer waits until
    no reader and no writer holds the lock. *)
Definition down_write : M unit :=
  fun w => let s := suspend_mutex (xs_state w) in
           if writer s || (0 <? readers s) then Blocked
           else Done tt (set_xs_state (set_suspend_mutex
                           (fun s => mk_rwsem (readers s) true)) w).

Definition up_write : M unit :=
  modify (set_xs_state (set_suspend_mutex
            (fun s => mk_rwsem (readers s) false))).

Section XenbusMore.

Context `{Platform} `{Wire}.

(** [xenbus_debug_write]: four writes whose results are not looked at,
    and no reply is read.  [str] is the object the pointer points to;
    [count] bytes of it are written. *)
Definition xenbus_debug_write (str : string) (count : nat) : M unit :=
  let msg := mk_sockmsg XS_DEBUG 0 0 (u32 (6 + Z.of_nat count + 1)) in
  down the_request_mutex upd_request_mutex;;;
  _ <- xb_write (sockmsg_bytes msg);;
  _ <- xb_write (with_nul "print");;
  _ <- (if (String.length str <? count)%nat then fault
        else xb_write (memcpy count str));;
  _ <- xb_write (with_nul "");;
  up upd_request_mutex.

(** The read lock is given back: the test at the end of
    [xenbus_dev_request_and_reply], on the type of the request and on
    the type the message has at the end. *)
Definition gives_back (req_type end_type : Z) : bool :=
  (end_type =? XS_TRANSACTION_END)
  || ((req_type =? XS_TRANSACTION_START) && (end_type =? XS_ERROR)).

(** [xenbus_dev_request_and_reply]: [msg] is the header and [payload] the
    bytes that follow it in the caller's buffer.  The result is the
    pointer returned and the header as the call leaves it. *)
Definition xenbus_dev_request_and_reply (msg : xsd_sockmsg) (payload : string)
  : M (ptr string * xsd_sockmsg) :=
  let req_msg := msg in
  (if type req_msg =? XS_TRANSACTION_START then down_read else ret tt);;;
  down the_request_mutex upd_request_mutex;;;
  err <- (if (String.length payload <? Z.to_nat (len msg))%nat then fault
          else xb_write (sockmsg_bytes msg ++ memcpy (Z.to_nat (len msg)) payload));;
  r <- (if nez err then
          ret (ERR_PTR err, mk_sockmsg XS_ERROR (req_id msg) (tx_id msg) (len msg))
        else
          rr <- read_reply;;
          let '(rtype, rlen, body) := rr in
          ret (PTR body, mk_sockmsg rtype (req_id msg) (tx_id msg) rlen));;
  up upd_request_mutex;;;
  (if gives_back (type req_msg) (type (snd r)) then up_read else ret tt);;;
  ret r.

(** [xenbus_write]: the path with its terminator, then the value
    without one. *)
Definition xenbus_write (t : Z) (dir node : string) (value : string) : M Z :=
  path <- join dir node;;
  match path with
  | ERR_PTR e => ret e
  | PTR path =>
      r <- xs_talkv t XS_WRITE [with_nul path; value];;
      ret (xs_error r)
  end.

Definition xenbus_mkdir (t : Z) (dir node : string) : M Z :=
  path <- join dir node;;
  match path with
  | ERR_PTR e => ret e
  | PTR path =>
      r <- xs_single t XS_MKDIR path;;
      ret (xs_error r)
  end.

Definition xenbus_rm (t : Z) (dir node : string) : M Z :=
  path <- join dir node;;
  match path with
  | ERR_PTR e => ret e
  | PTR path =>
      r <- xs_single t XS_RM path;;
      ret (xs_error r)
  end.

Definition xs_suspend : M unit :=
  down_write;;;
  down the_request_mutex upd_request_mutex.

(** The loop of [xs_resume] over the registry: the result of [xs_watch]
    is dropped. *)
Fixpoint resubscribe (ws : list xenbus_watch) : M unit :=
  match ws with
  | [] => ret tt
  | wt :: rest =>
      _ <- xs_watch (node wt) (sprintf_lX (addr wt));;
      resubscribe rest
  end.

Definition xs_resume : M unit :=
  up upd_request_mutex;;;
  w <- get;;
  resubscribe (watches w);;;
  up_write.

(** [turns] turns of the loop of [xenwatch_thread]. *)
Fixpoint xenwatch_thread (turns : nat) : M unit :=
  match turns with
  | O => ret tt
  | S turns' => xenwatch_thread_iter;;; xenwatch_thread turns'
  end.

End XenbusMore.

Module XenWire.

#[export] Instance wire : Wire := {|
  XS_DEBUG := 0;
  XS_WRITE := 11;
  XS_MKDIR := 12;
  XS_RM := 13
|}.

End XenWire.

(* ================================================================== *)
(** * More vocabulary *)

(** The path [join] builds. *)
Definition joined (dir name : string) : string :=
  if String.eqb name "" then dir else dir ++ "/" ++ name.

(** The world after one call of [malloc]. *)
Definition after_malloc (w : world) : world :=
  match heap w with
  | [] => w
  | _ :: rest => set_heap (fun _ => rest) w
  end.

(** The number of bytes of the parts. *)
Definition iovec_size (iovec : list string) : nat :=
  String.length (iovec_bytes iovec).

Section MoreVocabulary.

Context `{Platform}.

(** What a request returns for the reply read: the negated code of the
    error named in the body, or the body and its length. *)
Definition reply_result (rtype rlen : Z) (body : string) : ptr (string * Z) :=
  if rtype =? XS_ERROR then ERR_PTR (- error_code (cstr body))
  else PTR (body, rlen).

(** The world after the reply was handed over: the mutex released and,
    for an unknown error name, the line on the console. *)
Definition handed_over (rtype : Z) (body : string) (w3 : world) : world :=
  let w4 := upd_request_mutex (fun s => mk_sem (count s + 1)) w3 in
  if rtype =? XS_ERROR then
    if known_error (cstr body) then w4
    else set_console (fun c => (c ++ [unknown_error_line (cstr body)])%list) w4
  else w4.

(** One request as it goes to the ring. *)
Definition request_bytes (t ty : Z) (iovec : list string) : string :=
  sockmsg_bytes (mk_sockmsg ty 0 (u32 t) (iovec_len iovec)) ++ iovec_bytes iovec.

(** The watch requests for the watches of a registry, in its order. *)
Fixpoint watch_requests (ws : list xenbus_watch) : string :=
  match ws with
  | [] => EmptyString
  | wt :: rest =>
      request_bytes 0 XS_WATCH [with_nul (node wt); with_nul (sprintf_lX (addr wt))]
      ++ watch_requests rest
  end.

End MoreVocabulary.

(** Replies were queued from [w] to [w'], at the end, and none was
    removed. *)
Definition reply_grows (w w' : world) : Prop :=
  exists added,
    reply_list (xs_state w') = (reply_list (xs_state w) ++ added)%list.

(** The call the Watcher makes for a queued event. *)
Definition call_of (msg : xs_stored_msg) : list (xenbus_watch * list string * Z) :=
  match u msg with
  | watch handle vec vec_size => [(handle, vec, vec_size)]
  | reply _ => []
  end.

Definition is_watch_event (msg : xs_stored_msg) : bool :=
  match u msg with watch _ _ _ => true | reply _ => false end.

(* ================================================================== *)
(** * More worlds to run the code on *)

Module Trial.

Import Xen Sample XenWire.

(** The read of [/a] that the store answers with [EWEIRD], done. *)
Definition weird_done : world := world_of (xs_talkv 0 XS_READ [with_nul "/a"] weird).

(** An event arrives, and there is memory for the header only. *)
Definition starved : world := set_heap (fun _ => [true; false]) beef_arrives.

Definition starved_hdr : world := world_of (malloc starved).

Definition starved_hdr_read : world := world_of (xb_read 16 starved_hdr).

Definition starved_body : world := world_of (malloc starved_hdr_read).

Definition no_memory_done : world := world_of (process_msg no_memory).

(** The store answers a read with the value [va]. *)
Definition answered : world := ring (frame 2 0 0 "va") idle.

Definition answered_sent : world := sent 0 XS_READ [with_nul "/d/a"] answered.

Definition answered_hdr : world := world_of (xb_read 16 answered_sent).

Definition answered_read : world := world_of (xb_read 2 answered_hdr).

(** A reply that was queued before the request is made. *)
Definition stale_reply : xs_stored_msg :=
  mk_stored (mk_sockmsg 2 0 0 3) (reply (with_nul "old")).

Definition stale : world :=
  set_xs_state (set_reply_list (fun _ => [stale_reply])) answered.

(** The store acknowledges a request of type [ty]. *)
Definition acked (ty : Z) : world := ring (frame ty 0 0 (with_nul "OK")) idle.

Definition write_acked : world :=
  world_of (read_reply (sent 0 XS_WRITE [with_nul "/d/k"; "v"] (acked 11))).

Definition mkdir_acked : world :=
  world_of (read_reply (sent 0 XS_MKDIR [with_nul "/d/k"] (acked 12))).

(** A transaction is open: the read lock is held once. *)
Definition held : world :=
  set_xs_state (set_suspend_mutex (fun _ => mk_rwsem 1 false)) idle.

(** The write of the request that ends the transaction fails. *)
Definition end_lost : world := set_xb_wr (fun _ => [-5]) held.

Definition end_request : xsd_sockmsg := mk_sockmsg 7 0 12 2.

Definition end_lost_done : world :=
  world_of (xenbus_dev_request_and_reply end_request (with_nul "T") end_lost).

(** [beef] is registered and the store acknowledges a watch request. *)
Definition resuming : world := ring (frame 4 0 0 (with_nul "OK")) watching.

Definition resuming_suspended : world := world_of (xs_suspend resuming).

Definition resumed : world := world_of (xs_resume resuming_suspended).

(** A second watch, and an event queued for each. *)
Definition cafe : xenbus_watch := mk_watch 51966 "/m".

Definition cafe_stored : xs_stored_msg :=
  mk_stored (mk_sockmsg 15 0 0 8) (watch cafe ["/m"; "CAFE"] 2).

Definition two_events : world :=
  set_watch_events (fun _ => [beef_stored; cafe_stored])
    (set_watches (fun _ => [beef; cafe]) idle).

(** The store acknowledges a watch request and then an unwatch
    request. *)
Definition coming_going : world :=
  ring (frame 4 0 0 (with_nul "OK") ++ frame 5 0 0 (with_nul "OK")) idle.

Definition come : world := world_of (register_xenbus_watch beef coming_going).

Definition gone : world := world_of (unregister_xenbus_watch beef come).

Definition beef_queued : world := world_of (xenbus_thread_iter beef_arrives).

(** The store answers a directory request with two entries. *)
Definition listing : world := ring (frame 1 0 0 (payload_of ["a"; "b"])) idle.

Definition listing_read : world :=
  world_of (read_reply (sent 0 XS_DIRECTORY [with_nul "/d"] listing)).

(** The store acknowledges the end of the open transaction. *)
Definition ending : world := ring (frame 7 0 0 (with_nul "OK")) held.

Definition ending_read : world :=
  world_of (read_reply (sent 12 XS_TRANSACTION_END [with_nul "T"] ending)).

(** An event for [beef] whose payload is the path alone: no token. *)
Definition token_less : world := ring (frame 15 0 0 (with_nul "/n")) watching.

Definition token_less_hdr : world := world_of (xb_read 16 token_less).

Definition token_less_read : world := world_of (xb_read 3 token_less_hdr).

(** The event for [beef] with its token, and memory for the message
    and its body but not for the vector. *)
Definition vector_starved : world :=
  set_heap (fun _ => [true; true; false]) beef_arrives.

Definition vector_starved_read : world :=
  set_heap (fun _ => [false]) beef_read.

Definition answered_queued : world := world_of (process_msg answered_sent).

Definition split_xy : world := world_of (split (payload_of ["x"; "y"] ++ nul) 4 idle).

End Trial.

(* ================================================================== *)
(** * Properties *)

(** ** Strings *)

Lemma append_nil_r (s : string) : s ++ "" = s.
Proof. induction s as [|c s IH]; simpl; [reflexivity | now rewrite IH]. Qed.

Lemma append_assoc (a b c : string) : (a ++ b) ++ c = a ++ (b ++ c).
Proof. induction a as [|x a IH]; simpl; [reflexivity | now rewrite IH]. Qed.

Lemma length_append (a b : string) :
  String.length (a ++ b) = (String.length a + String.length b)%nat.
Proof. induction a as [|x a IH]; simpl; [reflexivity | now rewrite IH]. Qed.

Lemma advance_append (a b : string) : advance (String.length a) (a ++ b) = b.
Proof. induction a as [|x a IH]; simpl; [reflexivity | exact IH]. Qed.

Lemma memcpy_append (a b : string) : memcpy (String.length a) (a ++ b) = a.
Proof. induction a as [|x a IH]; simpl; [reflexivity | now rewrite IH]. Qed.

Lemma strlen_with_nul (s r : string) :
  nul_free s = true -> strlen (with_nul s ++ r) = Some (String.length s).
Proof.
  unfold with_nul. induction s as [|c s IH]; simpl; intros Hs.
  - reflexivity.
  - apply andb_true_iff in Hs. destruct Hs as [Hc Hs].
    apply negb_true_iff in Hc. rewrite Hc, (IH Hs). reflexivity.
Qed.

Lemma cstr_with_nul (s r : string) :
  nul_free s = true -> cstr (with_nul s ++ r) = s.
Proof.
  unfold with_nul. induction s as [|c s IH]; simpl; intros Hs.
  - reflexivity.
  - apply andb_true_iff in Hs. destruct Hs as [Hc Hs].
    apply negb_true_iff in Hc. rewrite Hc, (IH Hs). reflexivity.
Qed.

Lemma length_with_nul (s : string) :
  String.length (with_nul s) = S (String.length s).
Proof. unfold with_nul. rewrite length_append. simpl. lia. Qed.

Lemma malloc_when_ok (w : world) :
  malloc_ok w = true -> exists w', malloc w = Done true w' /\
    xs_state w' = xs_state w /\ watches w' = watches w /\
    watch_events w' = watch_events w.
Proof.
  unfold malloc_ok, malloc. destruct (heap w) as [|b h]; simpl; intros E.
  - now exists w.
  - subst b. eexists; split; [reflexivity | now simpl].
Qed.

Section Strings.

Context `{Platform}.

(** The counting loop on a buffer that holds [pre], then the strings
    [ss] with their terminators, then anything. *)
Lemma count_strings_from_payload (ss : list string) :
  all_nul_free ss = true ->
  forall fuel pre rest num len p,
    p = String.length pre ->
    len = (p + String.length (payload_of ss))%nat ->
    (String.length (payload_of ss) <= fuel)%nat ->
    count_strings_from fuel (pre ++ payload_of ss ++ rest) len p num
    = Some (num + List.length ss)%nat.
Proof.
  induction ss as [|s ss IH]; intros Hss fuel pre rest num len p Hp Hlen Hfuel.
  - simpl in Hlen.
    assert (E : (p <? len)%nat = false) by (apply Nat.ltb_ge; lia).
    destruct fuel; simpl; rewrite E; f_equal; lia.
  - simpl in Hss. apply andb_true_iff in Hss. destruct Hss as [Hs Hss].
    simpl payload_of in *. rewrite length_append, length_with_nul in *.
    destruct fuel as [|fuel]; [lia|].
    assert (E : (p <? len)%nat = true) by (apply Nat.ltb_lt; lia).
    simpl count_strings_from. rewrite E. subst p.
    rewrite advance_append, append_assoc, (strlen_with_nul _ _ Hs).
    rewrite <- append_assoc.
    rewrite (IH Hss fuel (pre ++ with_nul s) rest (S num) len
               (String.length pre + String.length s + 1)%nat).
    + f_equal. simpl. lia.
    + rewrite length_append, length_with_nul. lia.
    + lia.
    + lia.
Qed.

Lemma split_from_payload (ss : list string) :
  all_nul_free ss = true ->
  forall fuel pre vec len p,
    p = String.length pre ->
    len = (p + String.length (payload_of ss))%nat ->
    (String.length (payload_of ss) <= fuel)%nat ->
    split_from fuel (pre ++ payload_of ss) len p vec = Some (vec ++ ss)%list.
Proof.
  induction ss as [|s ss IH]; intros Hss fuel pre vec len p Hp Hlen Hfuel.
  - simpl in Hlen.
    assert (E : (p <? len)%nat = false) by (apply Nat.ltb_ge; lia).
    destruct fuel; simpl; rewrite E; now rewrite app_nil_r.
  - simpl in Hss. apply andb_true_iff in Hss. destruct Hss as [Hs Hss].
    simpl payload_of in *. rewrite length_append, length_with_nul in *.
    destruct fuel as [|fuel]; [lia|].
    assert (E : (p <? len)%nat = true) by (apply Nat.ltb_lt; lia).
    simpl split_from. rewrite E. subst p.
    rewrite advance_append, (strlen_with_nul _ _ Hs), (cstr_with_nul _ _ Hs).
    rewrite <- append_assoc.
    rewrite (IH Hss fuel (pre ++ with_nul s) (vec ++ [s])%list len
               (String.length pre + String.length s + 1)%nat).
    + now rewrite <- app_assoc.
    + rewrite length_append, length_with_nul. lia.
    + lia.
    + lia.
Qed.

(** C8: a payload of [len] bytes made of nul-terminated strings splits
    into those strings, in order, and their number; whatever follows the
    payload in the buffer is not looked at.  So "x\0y\0z\0" of length 6
    gives ["x"; "y"; "z"] and the empty payload gives no string. *)
Theorem split_payload (ss : list string) (rest : string) (w : world) :
  all_nul_free ss = true ->
  malloc_ok w = true ->
  exists w',
    split (payload_of ss ++ rest) (String.length (payload_of ss)) w
    = Done (PTR (ss, Z.of_nat (List.length ss))) w'
    /\ count_strings (payload_of ss ++ rest) (String.length (payload_of ss))
       = Some (List.length ss).
Proof.
  intros Hss Hm.
  assert (Hc : count_strings (payload_of ss ++ rest) (String.length (payload_of ss))
               = Some (List.length ss)).
  { unfold count_strings.
    exact (count_strings_from_payload ss Hss _ "" rest 0%nat _ 0%nat
             eq_refl eq_refl (le_n _)). }
  destruct (malloc_when_ok w Hm) as (w' & Hw' & _).
  exists w'. split; [|exact Hc].
  unfold split. rewrite Hc. unfold bind. rewrite Hw'. simpl negb. cbv iota.
  rewrite memcpy_append.
  pose proof (split_from_payload ss Hss _ "" [] _ 0%nat
                eq_refl eq_refl (le_n _)) as Hs.
  simpl in Hs. rewrite Hs. reflexivity.
Qed.

(** C9: [join] yields [dir] when [name] is empty and [dir/name]
    otherwise. *)
Theorem join_path (dir name : string) (w : world) :
  malloc_ok w = true ->
  exists w',
    join dir name w
    = Done (PTR (if String.eqb name "" then dir else dir ++ "/" ++ name)) w'.
Proof.
  intros Hm. destruct (malloc_when_ok w Hm) as (w' & Hw' & _).
  exists w'. unfold join, bind. rewrite Hw'. simpl negb. cbv iota.
  unfold streq, ret. destruct (String.eqb name ""); simpl negb; cbv iota.
  - reflexivity.
  - now rewrite append_assoc.
Qed.

End Strings.

(* ================================================================== *)
(** ** Reasoning in the monad *)

Lemma bind_Done {A B} (m : M A) (k : A -> M B) (w : world) (b : B) (w' : world) :
  bind m k w = Done b w' ->
  exists a w1, m w = Done a w1 /\ k a w1 = Done b w'.
Proof.
  unfold bind. destruct (m w) as [a w1| |]; intros E; try discriminate.
  now exists a, w1.
Qed.

Lemma bind_step {A B} (m : M A) (k : A -> M B) (w : world) (a : A) (w1 : world) :
  m w = Done a w1 -> bind m k w = k a w1.
Proof. unfold bind. now intros ->. Qed.

Section Preserves.

Variable R : world -> world -> Prop.
Hypothesis R_refl : forall w, R w w.
Hypothesis R_trans : forall w1 w2 w3, R w1 w2 -> R w2 w3 -> R w1 w3.

Lemma preserves_ret {A} (a : A) : preserves R (ret a).
Proof. intros w a' w' E. inversion E. apply R_refl. Qed.

Lemma preserves_get : preserves R get.
Proof. intros w a' w' E. inversion E. apply R_refl. Qed.

Lemma preserves_block {A} : preserves R (@block A).
Proof. intros w a w' E. discriminate. Qed.

Lemma preserves_fault {A} : preserves R (@fault A).
Proof. intros w a w' E. discriminate. Qed.

Lemma preserves_bind {A B} (m : M A) (k : A -> M B) :
  preserves R m -> (forall a, preserves R (k a)) -> preserves R (bind m k).
Proof.
  intros Hm Hk w b w' E. apply bind_Done in E. destruct E as (a & w1 & E1 & E2).
  eapply R_trans; [eapply Hm | eapply Hk]; eassumption.
Qed.

Lemma preserves_modify (f : world -> world) :
  (forall w, R w (f w)) -> preserves R (modify f).
Proof. intros Hf w a w' E. inversion E. apply Hf. Qed.

End Preserves.

Lemma dframe_refl (w : world) : dframe w w.
Proof.
  constructor; try reflexivity; exists []; rewrite app_nil_r; auto.
Qed.

Lemma dframe_trans (w1 w2 w3 : world) : dframe w1 w2 -> dframe w2 w3 -> dframe w1 w3.
Proof.
  intros [a1 a2 a3 a4 a5 a6 a7 (e1 & a8 & f1)]
         [b1 b2 b3 b4 b5 b6 b7 (e2 & b8 & f2)].
  constructor; try congruence.
  exists (e1 ++ e2)%list. split.
  - rewrite b8, a8. now rewrite app_assoc.
  - apply Forall_app. split; [assumption|]. now rewrite a3 in f2.
Qed.

(** A change of the allocator script, of the ring's input or of the
    console is within the frame. *)
Ltac dframe_same :=
  constructor; simpl; try reflexivity;
  try (exists []; rewrite app_nil_r; auto).

Lemma malloc_dframe : preserves dframe malloc.
Proof.
  intros w a w' E. unfold malloc in E.
  destruct (heap w); inversion E; subst; [apply dframe_refl | dframe_same].
Qed.

Lemma xb_read_dframe (n : nat) : preserves dframe (xb_read n).
Proof.
  intros w a w' E. unfold xb_read in E.
  destruct (next_rc (xb_rd w) =? 0).
  - destruct (String.length (xb_in w) <? n)%nat; inversion E; subst. dframe_same.
  - inversion E; subst. dframe_same.
Qed.

Lemma printk_dframe (line : string) : preserves dframe (printk line).
Proof. apply preserves_modify. intros w. dframe_same. Qed.

Create HintDb dframe.
#[local] Hint Resolve dframe_refl dframe_trans malloc_dframe xb_read_dframe
  printk_dframe : dframe.

Ltac preserves_step :=
  first
    [ apply preserves_ret; exact dframe_refl
    | apply preserves_fault
    | apply preserves_block
    | apply preserves_get; exact dframe_refl
    | apply preserves_bind; [exact dframe_trans | | intros ?] ].

Section Dispatcher.

Context `{Platform}.

Lemma split_dframe (strings : string) (len : nat) : preserves dframe (split strings len).
Proof.
  unfold split. destruct (count_strings strings len); [|apply preserves_fault].
  preserves_step; [auto with dframe|].
  destruct (negb a); [preserves_step|].
  destruct (split_from _ _ _ _ _); preserves_step.
Qed.

Lemma find_watch_dframe (token : string) : preserves dframe (find_watch token).
Proof. intros w a w' E. inversion E. apply dframe_refl. Qed.

Lemma find_watch_In (token : string) (w : world) (wt : xenbus_watch) (w' : world) :
  find_watch token w = Done (Some wt) w' -> w' = w /\ In wt (watches w).
Proof.
  unfold find_watch, bind, get, ret. intros E.
  injection E as E1 E2. subst w'. split; [reflexivity|].
  apply find_some in E1. destruct E1 as [E1 _]. exact E1.
Qed.

Lemma process_msg_dframe : preserves dframe process_msg.
Proof.
  unfold process_msg.
  preserves_step; [auto with dframe|]. destruct (negb a); [preserves_step|].
  preserves_step; [auto with dframe|]. destruct (nez (fst a0)); [preserves_step|].
  preserves_step; [auto with dframe|]. destruct (negb a1); [preserves_step|].
  preserves_step; [auto with dframe|]. destruct (nez (fst a2)); [preserves_step|].
  destruct (body_overrun _); [preserves_step|].
  destruct (type _ =? XS_WATCH_EVENT).
  - preserves_step; [apply split_dframe|].
    destruct a3 as [e|[vec vec_size]]; [apply preserves_fault|].
    destruct (nth_error vec XS_WATCH_TOKEN) as [token|]; [|apply preserves_fault].
    intros w r w' E. apply bind_Done in E. destruct E as (hd & w1 & E1 & E2).
    destruct hd as [wt|].
    + apply find_watch_In in E1. destruct E1 as [-> Hin].
      inversion E2; subst. constructor; simpl; try reflexivity.
      eexists. split; [reflexivity|]. constructor; [exact Hin | constructor].
    + inversion E1; inversion E2; subst. apply dframe_refl.
  - intros w r w' E. inversion E; subst. constructor; simpl; try reflexivity.
    exists []. rewrite app_nil_r. auto.
Qed.

Lemma xenbus_thread_iter_dframe : preserves dframe xenbus_thread_iter.
Proof.
  unfold xenbus_thread_iter.
  preserves_step; [apply process_msg_dframe|].
  destruct (nez a); [apply printk_dframe | preserves_step].
Qed.

Lemma wait_event_from_dframe (fuel : nat) (cond : world -> bool) :
  preserves dframe (wait_event_from fuel cond).
Proof.
  induction fuel as [|fuel IH]; intros w a w' E; simpl in E.
  - destruct (cond w); inversion E. apply dframe_refl.
  - destruct (cond w); [inversion E; apply dframe_refl|].
    apply bind_Done in E. destruct E as (x & w1 & E1 & E2).
    eapply dframe_trans; [eapply xenbus_thread_iter_dframe | eapply IH]; eassumption.
Qed.

Lemma wait_event_dframe (cond : world -> bool) : preserves dframe (wait_event cond).
Proof. intros w a w' E. eapply wait_event_from_dframe. exact E. Qed.

(** When the wait returns, its condition holds. *)
Lemma wait_event_from_cond (fuel : nat) (cond : world -> bool) (w : world) (a : unit) (w' : world) :
  wait_event_from fuel cond w = Done a w' -> cond w' = true.
Proof.
  revert w. induction fuel as [|fuel IH]; intros w E; simpl in E.
  - destruct (cond w) eqn:C; inversion E; subst. exact C.
  - destruct (cond w) eqn:C; [inversion E; subst; exact C|].
    apply bind_Done in E. destruct E as (x & w1 & E1 & E2). eapply IH; eassumption.
Qed.

Lemma read_reply_dframe : preserves dframe read_reply.
Proof.
  unfold read_reply.
  preserves_step; [apply wait_event_dframe|].
  preserves_step; [apply preserves_get; exact dframe_refl|].
  destruct (reply_list (xs_state a0)) as [|msg rest]; [apply preserves_fault|].
  preserves_step; [apply preserves_modify; intros w; dframe_same|].
  destruct (u msg); preserves_step.
Qed.

End Dispatcher.

(* ================================================================== *)
(** ** The request/reply core *)

Lemma only_written_refl (w : world) : only_written w w.
Proof. unfold only_written. now destruct w. Qed.

Lemma only_written_trans (w1 w2 w3 : world) :
  only_written w1 w2 -> only_written w2 w3 -> only_written w1 w3.
Proof.
  unfold only_written. intros E1 E2. rewrite E2. rewrite E1 at 1.
  now destruct w1.
Qed.

Lemma xb_write_next (data : string) (w : world) :
  exists w', xb_write data w = Done (next_rc (xb_wr w)) w'
    /\ only_written w w' /\ xb_wr w' = tl (xb_wr w)
    /\ xb_out w' = (if next_rc (xb_wr w) =? 0 then xb_out w ++ data else xb_out w).
Proof.
  unfold xb_write. destruct (next_rc (xb_wr w) =? 0) eqn:E.
  - apply Z.eqb_eq in E. rewrite E. eexists. split; [reflexivity|].
    split; [|split]; try reflexivity; unfold only_written; now destruct w.
  - eexists. split; [reflexivity|].
    split; [|split]; try reflexivity; unfold only_written; now destruct w.
Qed.

Section Talk.

Context `{Platform}.

Lemma write_iovec_fails (iovec : list string) :
  forall w err,
    first_failed (List.length iovec) w = Some err ->
    exists w', write_iovec iovec w = Done err w' /\ only_written w w'.
Proof.
  unfold first_failed.
  induction iovec as [|v iovec IH]; intros w err Hf; [discriminate|].
  simpl write_iovec.
  destruct (xb_write_next v w) as (w1 & E1 & F1 & S1 & _).
  rewrite (bind_step _ _ _ _ _ E1).
  destruct (xb_wr w) as [|rc script] eqn:Ew; simpl in *.
  - discriminate.
  - destruct (nez rc) eqn:Erc.
    + inversion Hf; subst. exists w1. now split.
    + destruct (IH w1 err) as (w' & E2 & F2).
      * now rewrite S1.
      * exists w'. split; [exact E2 | eapply only_written_trans; eassumption].
Qed.

Lemma write_iovec_ok (iovec : list string) :
  forall w,
    writes_ok (List.length iovec) w = true ->
    exists w', write_iovec iovec w = Done 0 w' /\ only_written w w'
      /\ xb_wr w' = skipn (List.length iovec) (xb_wr w)
      /\ xb_out w' = xb_out w ++ iovec_bytes iovec.
Proof.
  unfold writes_ok.
  induction iovec as [|v iovec IH]; intros w Hok.
  - exists w. simpl. repeat split; [apply only_written_refl | now rewrite append_nil_r].
  - simpl write_iovec.
    destruct (xb_write_next v w) as (w1 & E1 & F1 & S1 & O1).
    rewrite (bind_step _ _ _ _ _ E1).
    assert (Hrc : next_rc (xb_wr w) = 0 /\
                  forallb (Z.eqb 0) (firstn (List.length iovec) (tl (xb_wr w))) = true).
    { destruct (xb_wr w) as [|rc script]; simpl in *.
      - split; [reflexivity|]. now rewrite firstn_nil.
      - apply andb_true_iff in Hok. destruct Hok as [Hrc Hok].
        destruct rc; try discriminate. now split. }
    destruct Hrc as [Hrc Hok']. rewrite Hrc in *. simpl nez. cbv iota. simpl in O1.
    destruct (IH w1) as (w' & E2 & F2 & S2 & O2); [now rewrite S1|].
    exists w'. split; [exact E2|]. split; [eapply only_written_trans; eassumption|].
    split.
    + rewrite S2, S1. destruct (xb_wr w); simpl; [now rewrite skipn_nil | reflexivity].
    + rewrite O2, O1. simpl. now rewrite append_assoc.
Qed.

Lemma get_error_from_lookup (name : string) (tab : list xsd_error) (w : world) :
  tab <> [] ->
  get_error_from tab name w
  = match find (fun e => String.eqb name (errstring e)) tab with
    | Some e => Done (errnum e) w
    | None => Done EINVAL (set_console (fun c => (c ++ [unknown_error_line name])%list) w)
    end.
Proof.
  induction tab as [|e tab IH]; intros Hne; [congruence|].
  simpl. unfold streq. destruct (String.eqb name (errstring e)); [reflexivity|].
  destruct tab as [|e' tab]; [reflexivity|].
  apply IH. discriminate.
Qed.

Lemma get_error_lookup (name : string) (w : world) :
  get_error name w
  = Done (error_code name)
         (if known_error name then w
          else set_console (fun c => (c ++ [unknown_error_line name])%list) w).
Proof.
  unfold get_error, error_code, known_error.
  rewrite (get_error_from_lookup name xsd_errors w xsd_errors_nonempty).
  destruct (find _ xsd_errors) as [e|] eqn:Ef.
  - replace (existsb _ xsd_errors) with true; [reflexivity|].
    symmetry. apply existsb_exists. apply find_some in Ef. now exists e.
  - replace (existsb _ xsd_errors) with false; [reflexivity|].
    symmetry. apply not_true_is_false. intros Hex.
    apply existsb_exists in Hex. destruct Hex as (e & Hin & He).
    pose proof (find_none _ _ Ef e Hin) as Hn. simpl in Hn. congruence.
Qed.

Lemma down_request_mutex (w : world) :
  mutex_free w = true ->
  down the_request_mutex upd_request_mutex w
  = Done tt (upd_request_mutex (fun s => mk_sem (count s - 1)) w).
Proof. unfold mutex_free, down, the_request_mutex. now intros ->. Qed.

Lemma release_after_take (w w' : world) :
  xs_state w' = xs_state (upd_request_mutex (fun s => mk_sem (count s - 1)) w) ->
  request_mutex (xs_state (upd_request_mutex (fun s => mk_sem (count s + 1)) w'))
  = request_mutex (xs_state w).
Proof.
  intros E. simpl. rewrite E. simpl. destruct (request_mutex (xs_state w)) as [c].
  simpl. f_equal. lia.
Qed.

(** C3: when a transport write of [xs_talkv] fails, of the header or of
    a payload part, the call returns that error with the request mutex
    released; it has read nothing, and the reply list is as it was. *)
Theorem talk_write_fails (t ty : Z) (iovec : list string) (w : world) (err : Z) :
  mutex_free w = true ->
  first_failed (S (List.length iovec)) w = Some err ->
  exists w',
    xs_talkv t ty iovec w = Done (ERR_PTR err) w'
    /\ request_mutex (xs_state w') = request_mutex (xs_state w)
    /\ reply_list (xs_state w') = reply_list (xs_state w)
    /\ xb_in w' = xb_in w /\ xb_rd w' = xb_rd w.
Proof.
  intros Hfree Hfail. unfold xs_talkv.
  rewrite (bind_step _ _ _ _ _ (down_request_mutex w Hfree)).
  set (w0 := upd_request_mutex _ w).
  destruct (xb_write_next (sockmsg_bytes (mk_sockmsg ty 0 (u32 t) (iovec_len iovec))) w0)
    as (w1 & E1 & F1 & S1 & _).
  rewrite (bind_step _ _ _ _ _ E1).
  assert (Hw0 : xb_wr w0 = xb_wr w) by reflexivity.
  unfold first_failed in Hfail. rewrite Hw0 in *.
  assert (Hdone : forall w2, only_written w0 w2 ->
            let w' := upd_request_mutex (fun s => mk_sem (count s + 1)) w2 in
            request_mutex (xs_state w') = request_mutex (xs_state w)
            /\ reply_list (xs_state w') = reply_list (xs_state w)
            /\ xb_in w' = xb_in w /\ xb_rd w' = xb_rd w).
  { intros w2 F2. unfold only_written in F2. split.
    - apply release_after_take. rewrite F2. reflexivity.
    - rewrite F2. simpl. repeat split; reflexivity. }
  destruct (xb_wr w) as [|rc script] eqn:Ew; [discriminate|].
  unfold next_rc in *. simpl in Hfail, S1. destruct (nez rc) eqn:Erc.
  - inversion Hfail; subst err.
    eexists. split; [reflexivity|]. apply Hdone. exact F1.
  - destruct (write_iovec_fails iovec w1 err) as (w2 & E2 & F2).
    { unfold first_failed. now rewrite S1. }
    rewrite (bind_step _ _ _ _ _ E2).
    assert (Herr : nez err = true).
    { apply find_some in Hfail. tauto. }
    rewrite Herr. eexists. split; [reflexivity|].
    apply Hdone. eapply only_written_trans; eassumption.
Qed.

Lemma sent_after_writes (t ty : Z) (iovec : list string) (w w2 : world) :
  only_written (upd_request_mutex (fun s => mk_sem (count s - 1)) w) w2 ->
  xb_wr w2 = skipn (List.length iovec) (tl (xb_wr w)) ->
  xb_out w2 = (xb_out w ++ sockmsg_bytes (mk_sockmsg ty 0 (u32 t) (iovec_len iovec)))
              ++ iovec_bytes iovec ->
  w2 = sent t ty iovec w.
Proof.
  unfold only_written. intros F S O. rewrite F, S, O.
  destruct w as [st ws evs xm wq hp wr rd bin bout con cbs].
  unfold sent, set_xb_out, set_xb_wr, upd_request_mutex, set_xs_state. simpl.
  f_equal.
  - destruct wr; simpl; [now rewrite skipn_nil | reflexivity].
  - apply append_assoc.
Qed.

(** With the mutex free and the writes succeeding, [xs_talkv] puts the
    header and the parts on the ring and goes on to wait for the reply. *)
Lemma xs_talkv_sent (t ty : Z) (iovec : list string) (w : world) :
  mutex_free w = true ->
  writes_ok (S (List.length iovec)) w = true ->
  xs_talkv t ty iovec w
  = (r <- read_reply;;
     up upd_request_mutex;;;
     let '(rtype, rlen, body) := r in
     if rtype =? XS_ERROR then
       err <- get_error (cstr body);;
       ret (ERR_PTR (- err))
     else ret (PTR (body, rlen))) (sent t ty iovec w).
Proof.
  intros Hfree Hok. unfold xs_talkv.
  rewrite (bind_step _ _ _ _ _ (down_request_mutex w Hfree)).
  set (w0 := upd_request_mutex _ w).
  assert (Hw0 : xb_wr w0 = xb_wr w) by reflexivity.
  set (hb := sockmsg_bytes _).
  destruct (xb_write_next hb w0) as (w1 & E1 & F1 & S1 & O1).
  rewrite (bind_step _ _ _ _ _ E1).
  assert (Hrc : next_rc (xb_wr w0) = 0 /\ writes_ok (List.length iovec) w1 = true).
  { unfold writes_ok in *. rewrite S1, Hw0.
    destruct (xb_wr w) as [|rc script]; simpl in *.
    - split; [reflexivity|]. now rewrite firstn_nil.
    - apply andb_true_iff in Hok. destruct Hok as [Hrc Hok].
      destruct rc; try discriminate. now split. }
  destruct Hrc as [Hrc Hok1]. rewrite Hrc in *.
  change (nez 0) with false. cbv iota.
  destruct (write_iovec_ok iovec w1 Hok1) as (w2 & E2 & F2 & S2 & O2).
  rewrite (bind_step _ _ _ _ _ E2). change (nez 0) with false. cbv iota.
  f_equal. apply sent_after_writes.
  - eapply only_written_trans; eassumption.
  - now rewrite S2, S1, Hw0.
  - rewrite O2, O1. reflexivity.
Qed.

(** C2: when the reply read is of type [XS_ERROR], [xs_talkv] fails with
    the code the table gives for the name in the body (negated, as errors
    are returned), with the request mutex released; a name without a row
    gets the generic code [EINVAL] and one line on the console. *)
Theorem talk_error_reply (t ty : Z) (iovec : list string) (w : world)
  (rlen : Z) (body : string) (w3 : world) :
  mutex_free w = true ->
  writes_ok (S (List.length iovec)) w = true ->
  read_reply (sent t ty iovec w) = Done (XS_ERROR, rlen, body) w3 ->
  exists w',
    xs_talkv t ty iovec w = Done (ERR_PTR (- error_code (cstr body))) w'
    /\ request_mutex (xs_state w') = request_mutex (xs_state w)
    /\ reply_list (xs_state w') = reply_list (xs_state w3)
    /\ (if known_error (cstr body)
        then console w' = console w3
             /\ In (mk_xsd_error (error_code (cstr body)) (cstr body)) xsd_errors
        else console w' = (console w3 ++ [unknown_error_line (cstr body)])%list
             /\ error_code (cstr body) = EINVAL).
Proof.
  intros Hfree Hok Hrd.
  rewrite (xs_talkv_sent t ty iovec w Hfree Hok).
  rewrite (bind_step _ _ _ _ _ Hrd).
  unfold up at 1. unfold modify at 1. unfold bind at 1.
  rewrite Z.eqb_refl.
  set (w4 := upd_request_mutex _ w3).
  unfold bind. rewrite get_error_lookup. unfold ret.
  eexists. split; [reflexivity|].
  pose proof (read_reply_dframe _ _ _ Hrd) as F.
  assert (Hm : request_mutex (xs_state w4) = request_mutex (xs_state w)).
  { subst w4. simpl. rewrite (df_request_mutex _ _ F). simpl.
    destruct (request_mutex (xs_state w)) as [c]. simpl. f_equal. lia. }
  unfold known_error, error_code.
  destruct (find _ xsd_errors) as [e|] eqn:Ef.
  - replace (existsb _ xsd_errors) with true.
    + repeat split; try assumption; try reflexivity.
      apply find_some in Ef. destruct Ef as [Hin He].
      apply String.eqb_eq in He. rewrite He. now destruct e.
    + symmetry. apply existsb_exists. apply find_some in Ef. now exists e.
  - replace (existsb _ xsd_errors) with false.
    + repeat split; try assumption; reflexivity.
    + symmetry. apply not_true_is_false. intros Hex.
      apply existsb_exists in Hex. destruct Hex as (e & Hin & He).
      pose proof (find_none _ _ Ef e Hin) as Hn. simpl in Hn. congruence.
Qed.

End Talk.

(* ================================================================== *)
(** ** What a call into the store leaves alone *)

Lemma kframe_refl (w : world) : kframe w w.
Proof. constructor; try reflexivity; exists []; rewrite app_nil_r; auto. Qed.

Lemma kframe_trans (w1 w2 w3 : world) : kframe w1 w2 -> kframe w2 w3 -> kframe w1 w3.
Proof.
  intros [a1 a2 a3 a4 (e1 & a5 & f1)] [b1 b2 b3 b4 (e2 & b5 & f2)].
  constructor; try congruence.
  exists (e1 ++ e2)%list. split.
  - rewrite b5, a5. now rewrite app_assoc.
  - apply Forall_app. split; [assumption|]. now rewrite a2 in f2.
Qed.

Lemma dframe_kframe (w w' : world) : dframe w w' -> kframe w w'.
Proof. intros [a1 a2 a3 a4 a5 a6 a7 a8]. constructor; assumption. Qed.

Lemma preserves_dframe_kframe {A} (m : M A) : preserves dframe m -> preserves kframe m.
Proof. intros Hm w a w' E. apply dframe_kframe. eapply Hm. exact E. Qed.

Ltac kframe_same :=
  constructor; simpl; try reflexivity;
  try (exists []; rewrite app_nil_r; auto).

Lemma down_request_kframe : preserves kframe (down the_request_mutex upd_request_mutex).
Proof.
  intros w a w' E. unfold down in E.
  destruct (0 <? count (the_request_mutex w)); inversion E; subst. kframe_same.
Qed.

Lemma up_request_kframe : preserves kframe (up upd_request_mutex).
Proof. apply preserves_modify. intros w. kframe_same. Qed.

Lemma xb_write_kframe (data : string) : preserves kframe (xb_write data).
Proof.
  intros w a w' E. unfold xb_write in E.
  destruct (next_rc (xb_wr w) =? 0); inversion E; subst; kframe_same.
Qed.

Lemma malloc_kframe : preserves kframe malloc.
Proof. apply preserves_dframe_kframe, malloc_dframe. Qed.

Lemma printk_kframe (line : string) : preserves kframe (printk line).
Proof. apply preserves_dframe_kframe, printk_dframe. Qed.

Create HintDb kframe.
#[local] Hint Resolve down_request_kframe up_request_kframe xb_write_kframe
  malloc_kframe printk_kframe : kframe.

(** Walk through a computation made of steps that keep [kframe]. *)
Ltac kframe_walk :=
  repeat first
    [ apply (preserves_ret _ kframe_refl)
    | apply preserves_fault
    | apply preserves_block
    | apply (preserves_get _ kframe_refl)
    | solve [auto with kframe]
    | apply (preserves_bind _ kframe_trans); [ | intros ? ]
    | match goal with
      | |- preserves _ (match ?x with _ => _ end) => destruct x
      end ].

Section Calls.

Context `{Platform}.

Lemma read_reply_kframe : preserves kframe read_reply.
Proof. apply preserves_dframe_kframe, read_reply_dframe. Qed.

Lemma split_kframe (strings : string) (len : nat) : preserves kframe (split strings len).
Proof. apply preserves_dframe_kframe, split_dframe. Qed.

Lemma get_error_kframe (name : string) : preserves kframe (get_error name).
Proof.
  intros w a w' E. rewrite get_error_lookup in E. inversion E.
  destruct (known_error name); [apply kframe_refl | kframe_same].
Qed.

Lemma write_iovec_kframe (iovec : list string) : preserves kframe (write_iovec iovec).
Proof. induction iovec as [|v iovec IH]; simpl; kframe_walk. Qed.

#[local] Hint Resolve read_reply_kframe split_kframe get_error_kframe
  write_iovec_kframe : kframe.

Lemma xs_talkv_kframe (t ty : Z) (iovec : list string) :
  preserves kframe (xs_talkv t ty iovec).
Proof. unfold xs_talkv. kframe_walk. Qed.

Lemma xs_single_kframe (t ty : Z) (s : string) : preserves kframe (xs_single t ty s).
Proof. apply xs_talkv_kframe. Qed.

Lemma join_kframe (dir name : string) : preserves kframe (join dir name).
Proof. unfold join. kframe_walk. Qed.

#[local] Hint Resolve xs_talkv_kframe xs_single_kframe join_kframe : kframe.

Lemma xenbus_read_kframe (t : Z) (dir name : string) :
  preserves kframe (xenbus_read t dir name).
Proof. unfold xenbus_read. kframe_walk. Qed.

Lemma xs_watch_kframe (path token : string) : preserves kframe (xs_watch path token).
Proof. unfold xs_watch. kframe_walk. Qed.

Lemma xs_unwatch_kframe (path token : string) : preserves kframe (xs_unwatch path token).
Proof. unfold xs_unwatch. kframe_walk. Qed.

End Calls.

(* ================================================================== *)
(** ** The key/value calls and the suspend lock *)

Lemma down_read_Done (w w0 : world) :
  down_read w = Done tt w0 ->
  suspend_readers w0 = suspend_readers w + 1 /\ watches w0 = watches w
  /\ w0 = set_xs_state (set_suspend_mutex
            (fun s => mk_rwsem (readers s + 1) (writer s))) w.
Proof.
  unfold down_read. destruct (writer (suspend_mutex (xs_state w))); [discriminate|].
  intros E. inversion E. repeat split.
Qed.

Section KeyValue.

Context `{Platform}.

(** C10: [xenbus_exists] returns 0 or 1 and no error code: 0 when
    [xenbus_directory] fails, whatever the error, and so when the buffer
    for the path cannot be allocated; 1 when it succeeds, whatever the
    listing. *)
Theorem exists_zero_or_one (t : Z) (dir node : string) (w : world) :
  (forall r w', xenbus_exists t dir node w = Done r w' ->
     (r = 0 \/ r = 1)
     /\ exists d, xenbus_directory t dir node w = Done d w'
                  /\ (r = 0 <-> IS_ERR d = true))
  /\ (forall d w', xenbus_directory t dir node w = Done d w' ->
        xenbus_exists t dir node w = Done (if IS_ERR d then 0 else 1) w')
  /\ (malloc_ok w = false ->
        exists e w', xenbus_directory t dir node w = Done (ERR_PTR e) w'
                     /\ xenbus_exists t dir node w = Done 0 w').
Proof.
  assert (Hdir : forall d w', xenbus_directory t dir node w = Done d w' ->
            xenbus_exists t dir node w = Done (if IS_ERR d then 0 else 1) w').
  { intros d w' E. unfold xenbus_exists. rewrite (bind_step _ _ _ _ _ E).
    now destruct (IS_ERR d). }
  split; [|split].
  - intros r w' E. unfold xenbus_exists in E. apply bind_Done in E.
    destruct E as (d & w1 & E1 & E2).
    destruct (IS_ERR d) eqn:Ed; inversion E2; subst.
    + split; [now left|]. exists d. rewrite Ed. tauto.
    + split; [now right|]. exists d. rewrite Ed.
      split; [exact E1|]. split; intros; discriminate.
  - exact Hdir.
  - intros Hm.
    assert (Hj : exists w', join dir node w = Done (ERR_PTR (- ENOMEM)) w').
    { unfold join, bind, malloc. unfold malloc_ok in Hm.
      destruct (heap w) as [|b hp]; simpl in Hm; [discriminate|]. subst b.
      eexists. reflexivity. }
    destruct Hj as (w' & Hj). exists (- ENOMEM), w'.
    assert (Hd : xenbus_directory t dir node w = Done (ERR_PTR (- ENOMEM)) w').
    { unfold xenbus_directory. now rewrite (bind_step _ _ _ _ _ Hj). }
    split; [exact Hd|]. exact (Hdir _ _ Hd).
Qed.


End KeyValue.

(* ================================================================== *)
(** ** The watch registry *)

Lemma same_watch_refl (wt : xenbus_watch) : same_watch wt wt = true.
Proof. unfold same_watch. apply Z.eqb_refl. Qed.

Section Registry.

Context `{Platform}.

Lemma xs_talkv_out (t ty : Z) (iovec : list string) (w : world)
  (r : ptr (string * Z)) (w' : world) :
  mutex_free w = true ->
  writes_ok (S (List.length iovec)) w = true ->
  xs_talkv t ty iovec w = Done r w' ->
  xb_out w' = xb_out (sent t ty iovec w).
Proof.
  intros Hfree Hok E. rewrite (xs_talkv_sent t ty iovec w Hfree Hok) in E.
  apply bind_Done in E. destruct E as ([[rtype rlen] body] & w3 & E1 & E2).
  rewrite <- (df_xb_out _ _ (read_reply_dframe _ _ _ E1)).
  apply bind_Done in E2. destruct E2 as ([] & w4 & E2 & E3).
  inversion E2; subst w4. clear E2.
  destruct (rtype =? XS_ERROR).
  - unfold bind in E3. rewrite get_error_lookup in E3. inversion E3.
    now destruct (known_error (cstr body)).
  - now inversion E3.
Qed.

(** C6: [register_xenbus_watch] links the watch into the registry and
    asks the store to watch its node under its token; when that request
    fails with anything but [-EEXIST] it unlinks the watch again.  After
    such a failure the watch is not registered; after success or
    [-EEXIST] it is. *)
Theorem register_rollback (wt : xenbus_watch) (w w0 : world) (err : Z) (w2 : world) :
  registered wt w = false ->
  down_read w = Done tt w0 ->
  xs_watch (node wt) (sprintf_lX (addr wt)) (set_watches (cons wt) w0) = Done err w2 ->
  exists w',
    register_xenbus_watch wt w = Done err w'
    /\ watches w' = (if rolled_back err then watches w else wt :: watches w)
    /\ registered wt w' = negb (rolled_back err)
    /\ suspend_readers w' = suspend_readers w
    /\ (mutex_free w = true -> writes_ok 3 w = true ->
        xb_out w' =
        xb_out w
        ++ sockmsg_bytes (mk_sockmsg XS_WATCH 0 0
             (iovec_len [with_nul (node wt); with_nul (sprintf_lX (addr wt))]))
        ++ with_nul (node wt) ++ with_nul (sprintf_lX (addr wt))).
Proof.
  intros Hnew Hd Hw. unfold register_xenbus_watch.
  destruct (down_read_Done _ _ Hd) as (Hr & Hws & Hw0).
  rewrite (bind_step _ _ _ _ _ Hd).
  assert (Hadd : list_add_watch wt w0 = Done tt (set_watches (cons wt) w0)).
  { unfold list_add_watch. unfold registered in Hnew. now rewrite Hws, Hnew. }
  rewrite (bind_step _ _ _ _ _ Hadd), (bind_step _ _ _ _ _ Hw).
  pose proof (xs_watch_kframe _ _ _ _ _ Hw) as K.
  pose proof (kf_watches _ _ K) as Kw. simpl in Kw. rewrite Hws in Kw.
  pose proof (kf_suspend_mutex _ _ K) as Ks. simpl in Ks.
  assert (Hout : mutex_free w = true -> writes_ok 3 w = true ->
            xb_out w2 =
            xb_out w
            ++ sockmsg_bytes (mk_sockmsg XS_WATCH 0 0
                 (iovec_len [with_nul (node wt); with_nul (sprintf_lX (addr wt))]))
            ++ with_nul (node wt) ++ with_nul (sprintf_lX (addr wt))).
  { intros Hfree Hok. unfold xs_watch in Hw. apply bind_Done in Hw.
    destruct Hw as (r & w3 & Hw & Hret). inversion Hret; subst w3.
    assert (Hfree' : mutex_free (set_watches (cons wt) w0) = true)
      by (rewrite Hw0; exact Hfree).
    assert (Hok' : writes_ok (S (List.length [with_nul (node wt);
                                with_nul (sprintf_lX (addr wt))]))
                     (set_watches (cons wt) w0) = true)
      by (rewrite Hw0; exact Hok).
    rewrite (xs_talkv_out _ _ _ _ _ _ Hfree' Hok' Hw).
    rewrite Hw0. simpl. now rewrite append_nil_r. }
  unfold rolled_back, registered.
  destruct (nez err && negb (err =? - EEXIST)) eqn:Eroll.
  - assert (Hdel : list_del_watch wt w2 = Done tt (set_watches (unlink wt) w2)).
    { unfold list_del_watch. rewrite Kw. simpl. now rewrite same_watch_refl. }
    rewrite (bind_step _ _ _ _ _ Hdel).
    eexists. split; [reflexivity|]. simpl. rewrite Kw. simpl.
    rewrite same_watch_refl. repeat split; try assumption.
    unfold suspend_readers in *. simpl. rewrite Ks. lia.
  - eexists. split; [reflexivity|]. simpl. rewrite Kw. simpl.
    rewrite same_watch_refl. repeat split; try assumption.
    unfold suspend_readers in *. simpl. rewrite Ks. lia.
Qed.

End Registry.

(* ================================================================== *)
(** ** The Dispatcher *)

Lemma only_input_refl (w : world) : only_input w w.
Proof. unfold only_input. now destruct w. Qed.

Lemma only_input_trans (w1 w2 w3 : world) :
  only_input w1 w2 -> only_input w2 w3 -> only_input w1 w3.
Proof.
  unfold only_input. intros E1 E2. rewrite E2. rewrite E1 at 1. now destruct w1.
Qed.

Lemma malloc_only_input : preserves only_input malloc.
Proof.
  intros w a w' E. unfold malloc in E.
  destruct (heap w) eqn:Eh; inversion E; subst.
  - apply only_input_refl.
  - unfold only_input. now destruct w.
Qed.

Lemma xb_read_only_input (n : nat) : preserves only_input (xb_read n).
Proof.
  intros w a w' E. unfold xb_read in E.
  destruct (next_rc (xb_rd w) =? 0).
  - destruct (String.length (xb_in w) <? n)%nat; inversion E; subst.
    unfold only_input. now destruct w.
  - inversion E; subst. unfold only_input. now destruct w.
Qed.

Section Routing.

Context `{Platform}.

Lemma split_only_input (strings : string) (len : nat) :
  preserves only_input (split strings len).
Proof.
  unfold split. destruct (count_strings strings len); [|apply preserves_fault].
  apply (preserves_bind _ only_input_trans); [apply malloc_only_input|].
  intros r. destruct (negb r); [apply (preserves_ret _ only_input_refl)|].
  destruct (split_from _ _ _ _ _);
    [apply (preserves_ret _ only_input_refl) | apply preserves_fault].
Qed.

Lemma process_msg_read (w : world) (h : xsd_sockmsg) (payload : string) (w4 : world) :
  dispatcher_reads w h payload w4 ->
  body_overrun h = false ->
  only_input w w4 /\
  process_msg w =
  (let body := payload ++ String NUL EmptyString in
   if type h =? XS_WATCH_EVENT then
     v <- split body (Z.to_nat (len h));;
     match v with
     | ERR_PTR _ => fault
     | PTR (vec, vec_size) =>
         match nth_error vec XS_WATCH_TOKEN with
         | None => fault
         | Some token =>
             hd <- find_watch token;;
             match hd with
             | Some wt =>
                 modify (set_watch_events (fun q =>
                    (q ++ [mk_stored h (watch wt vec vec_size)])%list));;;
                 modify (set_watch_events_waitq S);;;
                 ret 0
             | None => ret 0
             end
         end
     end
   else
     modify (set_xs_state (set_reply_list (fun q =>
        (q ++ [mk_stored h (reply body)])%list)));;;
     modify (set_xs_state (set_reply_waitq S));;;
     ret 0) w4.
Proof.
  intros (w1 & w2 & w3 & hb & E1 & E2 & Eh & E3 & E4) Hfit. split.
  - eapply only_input_trans; [eapply malloc_only_input; exact E1|].
    eapply only_input_trans; [eapply xb_read_only_input; exact E2|].
    eapply only_input_trans; [eapply malloc_only_input; exact E3|].
    eapply xb_read_only_input; exact E4.
  - unfold process_msg.
    rewrite (bind_step _ _ _ _ _ E1). change (negb true) with false. cbv iota.
    rewrite (bind_step _ _ _ _ _ E2). cbn [fst snd].
    change (nez 0) with false. cbv iota. rewrite Eh.
    rewrite (bind_step _ _ _ _ _ E3). change (negb true) with false. cbv iota.
    rewrite (bind_step _ _ _ _ _ E4). cbn [fst snd].
    change (nez 0) with false. cbv iota. rewrite Hfit. reflexivity.
Qed.

(** When [len + 1] wraps, the read has written past the buffer. *)
Lemma process_msg_overruns (w : world) (h : xsd_sockmsg) (payload : string)
  (w4 : world) :
  dispatcher_reads w h payload w4 ->
  body_overrun h = true ->
  process_msg w = Fault.
Proof.
  intros (w1 & w2 & w3 & hb & E1 & E2 & Eh & E3 & E4) Hover.
  unfold process_msg.
  rewrite (bind_step _ _ _ _ _ E1). change (negb true) with false. cbv iota.
  rewrite (bind_step _ _ _ _ _ E2). cbn [fst snd].
  change (nez 0) with false. cbv iota. rewrite Eh.
  rewrite (bind_step _ _ _ _ _ E3). change (negb true) with false. cbv iota.
  rewrite (bind_step _ _ _ _ _ E4). cbn [fst snd].
  change (nez 0) with false. cbv iota. rewrite Hover. reflexivity.
Qed.

(** X21: a message that the Dispatcher reads into a buffer that holds
    it goes one of two ways by its type.  A watch event whose payload
    [split] turns into a vector with a token, and whose token names no
    registered watch, is dropped: no queue, wait queue, console or
    callback log changes.  One whose token names a registered watch is
    appended to [watch_events] and [watch_events_waitq] is woken.  A
    message of any other type is appended to the reply list and
    [reply_waitq] is woken. *)
Theorem dispatch_routes (w : world) (h : xsd_sockmsg) (payload : string) (w4 : world) :
  dispatcher_reads w h payload w4 ->
  body_overrun h = false ->
  if type h =? XS_WATCH_EVENT then
    forall vec vec_size w5 token,
      split (payload ++ String NUL EmptyString) (Z.to_nat (len h)) w4
      = Done (PTR (vec, vec_size)) w5 ->
      nth_error vec XS_WATCH_TOKEN = Some token ->
      match token_watch token w with
      | None =>
          process_msg w = Done 0 w5
          /\ watch_events w5 = watch_events w
          /\ watch_events_waitq w5 = watch_events_waitq w
          /\ xs_state w5 = xs_state w
          /\ console w5 = console w
          /\ callbacks w5 = callbacks w
      | Some wt =>
          exists w',
            process_msg w = Done 0 w'
            /\ watch_events w' =
               (watch_events w ++ [mk_stored h (watch wt vec vec_size)])%list
            /\ watch_events_waitq w' = S (watch_events_waitq w)
            /\ xs_state w' = xs_state w
            /\ callbacks w' = callbacks w
      end
  else
    exists w',
      process_msg w = Done 0 w'
      /\ reply_list (xs_state w') =
         (reply_list (xs_state w)
          ++ [mk_stored h (reply (payload ++ String NUL EmptyString))])%list
      /\ reply_waitq (xs_state w') = S (reply_waitq (xs_state w))
      /\ watch_events w' = watch_events w
      /\ watch_events_waitq w' = watch_events_waitq w
      /\ callbacks w' = callbacks w.
Proof.
  intros Hrd Hfit. destruct (process_msg_read _ _ _ _ Hrd Hfit) as (F & E).
  rewrite E. clear E. cbv zeta.
  destruct (type h =? XS_WATCH_EVENT).
  - intros vec vec_size w5 token Hs Ht.
    rewrite (bind_step _ _ _ _ _ Hs). rewrite Ht.
    pose proof (split_only_input _ _ _ _ _ Hs) as F5.
    pose proof (only_input_trans _ _ _ F F5) as F'.
    unfold only_input in F'.
    unfold find_watch, bind, get, ret, modify, token_watch.
    replace (watches w5) with (watches w) by (rewrite F'; reflexivity).
    destruct (find _ (watches w)) as [wt|].
    + eexists. split; [reflexivity|]. rewrite F'. simpl. repeat split.
    + split; [reflexivity|]. rewrite F'. simpl. repeat split.
  - unfold bind, modify, ret. eexists. split; [reflexivity|].
    unfold only_input in F. rewrite F. simpl. repeat split.
Qed.

End Routing.

(* ================================================================== *)
(** ** Gather *)

Section Gather.

Context `{Platform}.

Lemma gathered_then (t : Z) (dir : string) pre out w out1 w1 :
  gathered t dir pre out w out1 w1 ->
  forall rest,
    xenbus_gather_from t dir (pre ++ rest) 0 out w
    = xenbus_gather_from t dir rest 0 out1 w1.
Proof.
  induction 1 as [out w
                 | name result rest' out w p l w1 out' w' Hrd Hg IH
                 | name fmt result rest' out w p l w1 n stored out' w' Hrd Hs Hn Hg IH];
    intros rest.
  - reflexivity.
  - simpl app. simpl xenbus_gather_from. change (nez 0) with false. cbv iota.
    rewrite (bind_step _ _ _ _ _ Hrd). apply IH.
  - simpl app. simpl xenbus_gather_from. change (nez 0) with false. cbv iota.
    rewrite (bind_step _ _ _ _ _ Hrd). rewrite Hs.
    apply Z.eqb_neq in Hn. rewrite Hn. apply IH.
Qed.

Lemma gathered_keeps (t : Z) (dir : string) pre out w out1 w1 :
  gathered t dir pre out w out1 w1 ->
  (exists added, out1 = (added ++ out)%list)
  /\ forall name result, In (name, None, result) pre ->
       exists p, In (result, p) out1.
Proof.
  induction 1 as [out w
                 | name result rest' out w p l w1 out' w' Hrd Hg IH
                 | name fmt result rest' out w p l w1 n stored out' w' Hrd Hs Hn Hg IH].
  - split; [now exists [] | intros ? ? []].
  - destruct IH as ((added & Ha) & IH). split.
    + exists (added ++ [(result, p)])%list. rewrite Ha. unfold store.
      now rewrite <- app_assoc.
    + intros name' result' [E|Hin].
      * inversion E; subst. exists p. apply in_or_app. right. now left.
      * exact (IH _ _ Hin).
  - destruct IH as ((added & Ha) & IH). split.
    + destruct stored as [v|].
      * exists (added ++ [(result, v)])%list. rewrite Ha. unfold store.
        now rewrite <- app_assoc.
      * now exists added.
    + intros name' result' [E|Hin]; [discriminate | exact (IH _ _ Hin)].
Qed.

(** C5, as the code has it: the reads go in order and stop at the first
    read or parse that fails, and the call returns that error; the
    outputs written for the keys before it stay as written. *)
Theorem gather_stops_keeps (t : Z) (dir : string)
  (pre : list (string * option string * Z)) (name : string)
  (fmt : option string) (result : Z) (rest : list (string * option string * Z))
  (out : outputs) (w : world) (out1 : outputs) (w1 : world) :
  gathered t dir pre out w out1 w1 ->
  (forall e w2,
     xenbus_read t dir name w1 = Done (ERR_PTR e) w2 ->
     xenbus_gather t dir (pre ++ (name, fmt, result) :: rest) out w
     = Done (e, out1) w2)
  /\ (forall p l w2 f stored,
        xenbus_read t dir name w1 = Done (PTR (p, l)) w2 ->
        fmt = Some f ->
        sscanf (cstr p) f = (0, stored) ->
        EINVAL <> 0 ->
        xenbus_gather t dir (pre ++ (name, fmt, result) :: rest) out w
        = Done (- EINVAL,
                match stored with Some v => store result v out1 | None => out1 end) w2)
  /\ (exists added, out1 = (added ++ out)%list)
  /\ (forall name' result', In (name', None, result') pre ->
        exists p, In (result', p) out1).
Proof.
  intros Hg. split; [|split].
  - intros e w2 Hrd. unfold xenbus_gather. rewrite (gathered_then _ _ _ _ _ _ _ Hg).
    simpl. change (nez 0) with false. cbv iota.
    now rewrite (bind_step _ _ _ _ _ Hrd).
  - intros p l w2 f stored Hrd -> Hs Hne. unfold xenbus_gather.
    rewrite (gathered_then _ _ _ _ _ _ _ Hg).
    simpl. change (nez 0) with false. cbv iota.
    rewrite (bind_step _ _ _ _ _ Hrd). rewrite Hs. rewrite Z.eqb_refl.
    assert (Hn : nez (- EINVAL) = true).
    { unfold nez. apply negb_true_iff, Z.eqb_neq. lia. }
    destruct rest as [|[[name2 fmt2] result2] rest]; simpl; now rewrite Hn.
  - exact (gathered_keeps _ _ _ _ _ _ _ Hg).
Qed.

End Gather.

(* ================================================================== *)
(** ** Unregistering a watch *)

Lemma silent_refl (wt : xenbus_watch) (w : world) : silent wt w w.
Proof. exists []. now rewrite app_nil_r. Qed.

Lemma silent_same (wt : xenbus_watch) (w w' : world) :
  callbacks w' = callbacks w -> silent wt w w'.
Proof. intros E. exists []. now rewrite app_nil_r. Qed.

Lemma silent_trans (wt : xenbus_watch) (w1 w2 w3 : world) :
  silent wt w1 w2 -> silent wt w2 w3 -> silent wt w1 w3.
Proof.
  intros (a1 & E1 & H1) (a2 & E2 & H2). exists (a1 ++ a2)%list. split.
  - rewrite E2, E1. now rewrite app_assoc.
  - rewrite existsb_app, H1, H2. reflexivity.
Qed.

Lemma quiet_refl (wt : xenbus_watch) (w : world) : quiet wt w w.
Proof. intros Hf. split; [exact Hf | apply silent_refl]. Qed.

Lemma quiet_trans (wt : xenbus_watch) (w1 w2 w3 : world) :
  quiet wt w1 w2 -> quiet wt w2 w3 -> quiet wt w1 w3.
Proof.
  intros Q1 Q2 Hf. destruct (Q1 Hf) as (Hf2 & S1). destruct (Q2 Hf2) as (Hf3 & S2).
  split; [exact Hf3 | eapply silent_trans; eassumption].
Qed.

Lemma same_watch_sym (a b : xenbus_watch) : same_watch a b = same_watch b a.
Proof. unfold same_watch. apply Z.eqb_sym. Qed.

Lemma from_registry_other (wt : xenbus_watch) (ws : list xenbus_watch)
  (ev : xs_stored_msg) :
  existsb (same_watch wt) ws = false ->
  from_registry ws ev -> event_of wt ev = false.
Proof.
  unfold from_registry, event_of. intros Hreg Hev.
  destruct (u ev) as [body|handle vec n]; [reflexivity|].
  destruct (same_watch handle wt) eqn:Es; [|reflexivity].
  assert (Hex : existsb (same_watch wt) ws = true).
  { apply existsb_exists. exists handle. split; [exact Hev|].
    now rewrite same_watch_sym. }
  congruence.
Qed.

Lemma kframe_quiet (wt : xenbus_watch) (w w' : world) : kframe w w' -> quiet wt w w'.
Proof.
  intros [_ Kw Kc _ (added & Ke & Hadd)] (Hreg & Hev). split; [split|].
  - unfold registered in *. now rewrite Kw.
  - rewrite Ke, existsb_app, Hev. simpl.
    apply not_true_is_false. intros Hex. apply existsb_exists in Hex.
    destruct Hex as (ev & Hin & Hof).
    rewrite Forall_forall in Hadd.
    now rewrite (from_registry_other wt _ ev Hreg (Hadd ev Hin)) in Hof.
  - now apply silent_same.
Qed.

Lemma preserves_kframe_quiet {A} (wt : xenbus_watch) (m : M A) :
  preserves kframe m -> preserves (quiet wt) m.
Proof. intros Hm w a w' E. apply kframe_quiet. eapply Hm. exact E. Qed.

Lemma unlink_registered (wt o : xenbus_watch) (ws : list xenbus_watch) :
  existsb (same_watch wt) ws = false ->
  existsb (same_watch wt) (unlink o ws) = false.
Proof.
  induction ws as [|x ws IH]; simpl; intros Hreg; [reflexivity|].
  apply orb_false_iff in Hreg. destruct Hreg as [Hx Hws].
  destruct (same_watch x o); [exact Hws|]. simpl. now rewrite Hx, IH.
Qed.

Lemma unlink_self (wt : xenbus_watch) (ws : list xenbus_watch) :
  NoDup (map addr ws) ->
  existsb (same_watch wt) (unlink wt ws) = false.
Proof.
  induction ws as [|x ws IH]; simpl; intros Hnd; [reflexivity|].
  inversion Hnd as [|a l Hnotin Hnd']; subst.
  destruct (same_watch x wt) eqn:Ex.
  - apply not_true_is_false. intros Hex. apply existsb_exists in Hex.
    destruct Hex as (y & Hin & Hy). apply Hnotin.
    unfold same_watch in *. apply Z.eqb_eq in Ex, Hy. rewrite Ex, Hy.
    now apply in_map.
  - simpl. rewrite same_watch_sym, Ex. simpl. now apply IH.
Qed.

Lemma filter_purges (wt : xenbus_watch) (q : list xs_stored_msg) :
  existsb (event_of wt) (filter (fun msg => negb (event_of wt msg)) q) = false.
Proof.
  induction q as [|ev q IH]; simpl; [reflexivity|].
  destruct (event_of wt ev) eqn:E; simpl; [exact IH | now rewrite E].
Qed.

Lemma filter_keeps_none (wt o : xenbus_watch) (q : list xs_stored_msg) :
  existsb (event_of wt) q = false ->
  existsb (event_of wt) (filter (fun msg => negb (event_of o msg)) q) = false.
Proof.
  induction q as [|ev q IH]; simpl; intros Hq; [reflexivity|].
  apply orb_false_iff in Hq. destruct Hq as [Hev Hq].
  destruct (negb (event_of o ev)); simpl; [now rewrite Hev, IH | now apply IH].
Qed.

Lemma down_read_kframe_but_lock (wt : xenbus_watch) : preserves (quiet wt) down_read.
Proof.
  intros w a w' E. unfold down_read in E.
  destruct (writer (suspend_mutex (xs_state w))); inversion E; subst.
  intros Hf. split; [exact Hf | now apply silent_same].
Qed.

Lemma up_read_quiet (wt : xenbus_watch) : preserves (quiet wt) up_read.
Proof.
  apply preserves_modify. intros w Hf. split; [exact Hf | now apply silent_same].
Qed.

Lemma list_del_watch_quiet (wt o : xenbus_watch) : preserves (quiet wt) (list_del_watch o).
Proof.
  intros w a w' E. unfold list_del_watch in E.
  destruct (existsb (same_watch o) (watches w)); inversion E; subst.
  intros (Hreg & Hev). split; [split|].
  - unfold registered in *. simpl. now apply unlink_registered.
  - exact Hev.
  - now apply silent_same.
Qed.

Lemma list_add_watch_quiet (wt o : xenbus_watch) :
  same_watch o wt = false -> preserves (quiet wt) (list_add_watch o).
Proof.
  intros Ho w a w' E. unfold list_add_watch in E.
  destruct (existsb (same_watch o) (watches w)); inversion E; subst.
  intros (Hreg & Hev). split; [split|].
  - unfold registered in *. simpl. now rewrite same_watch_sym, Ho, Hreg.
  - exact Hev.
  - now apply silent_same.
Qed.

Lemma purge_quiet (wt o : xenbus_watch) :
  preserves (quiet wt)
    (modify (set_watch_events (filter (fun msg => negb (event_of o msg))))).
Proof.
  apply preserves_modify. intros w (Hreg & Hev). split; [split|].
  - exact Hreg.
  - simpl. now apply filter_keeps_none.
  - now apply silent_same.
Qed.

Section Unregister.

Context `{Platform}.

Lemma xs_watch_quiet (wt : xenbus_watch) (path token : string) :
  preserves (quiet wt) (xs_watch path token).
Proof. apply preserves_kframe_quiet, xs_watch_kframe. Qed.

Lemma xs_unwatch_quiet (wt : xenbus_watch) (path token : string) :
  preserves (quiet wt) (xs_unwatch path token).
Proof. apply preserves_kframe_quiet, xs_unwatch_kframe. Qed.

Lemma printk_quiet (wt : xenbus_watch) (line : string) : preserves (quiet wt) (printk line).
Proof. apply preserves_kframe_quiet, printk_kframe. Qed.

Lemma register_quiet (wt o : xenbus_watch) :
  same_watch o wt = false -> preserves (quiet wt) (register_xenbus_watch o).
Proof.
  intros Ho. unfold register_xenbus_watch.
  apply (preserves_bind _ (quiet_trans wt)); [apply down_read_kframe_but_lock|intros _].
  apply (preserves_bind _ (quiet_trans wt)); [now apply list_add_watch_quiet|intros _].
  apply (preserves_bind _ (quiet_trans wt)); [apply xs_watch_quiet|intros err].
  apply (preserves_bind _ (quiet_trans wt)).
  - destruct (nez err && negb (err =? - EEXIST));
      [apply list_del_watch_quiet | apply (preserves_ret _ (quiet_refl wt))].
  - intros _.
    apply (preserves_bind _ (quiet_trans wt)); [apply up_read_quiet|intros _].
    apply (preserves_ret _ (quiet_refl wt)).
Qed.

Lemma unregister_quiet (wt o : xenbus_watch) :
  preserves (quiet wt) (unregister_xenbus_watch o).
Proof.
  unfold unregister_xenbus_watch.
  apply (preserves_bind _ (quiet_trans wt)); [apply down_read_kframe_but_lock|intros _].
  apply (preserves_bind _ (quiet_trans wt)); [apply list_del_watch_quiet|intros _].
  apply (preserves_bind _ (quiet_trans wt)); [apply xs_unwatch_quiet|intros err].
  apply (preserves_bind _ (quiet_trans wt)).
  - destruct (nez err); [apply printk_quiet | apply (preserves_ret _ (quiet_refl wt))].
  - intros _.
    apply (preserves_bind _ (quiet_trans wt)); [apply up_read_quiet|intros _].
    apply purge_quiet.
Qed.

(** The event the Watcher takes from the queue of a world that has
    forgotten the watch is not one of the watch. *)
Lemma xenwatch_dequeue_other (wt : xenbus_watch) (w : world)
  (ent : option xs_stored_msg) (w1 : world) :
  forgotten wt w ->
  xenwatch_dequeue w = Done ent w1 ->
  forgotten wt w1 /\ callbacks w1 = callbacks w
  /\ match ent with Some msg => event_of wt msg = false | None => True end.
Proof.
  intros Hf E. unfold xenwatch_dequeue in E.
  apply bind_Done in E. destruct E as ([] & wa & Ewait & E).
  pose proof (dframe_kframe _ _ (wait_event_dframe _ _ _ _ Ewait)) as K.
  destruct (kframe_quiet wt _ _ K Hf) as ((Hreg & Hev) & _).
  pose proof (kf_callbacks _ _ K) as Kc.
  apply bind_Done in E. destruct E as ([] & wb & Edown & E).
  unfold down in Edown. destruct (0 <? count (xenwatch_mutex wa)); [|discriminate].
  inversion Edown; subst wb. clear Edown.
  apply bind_Done in E. destruct E as (wc & wd & Eget & E).
  inversion Eget; subst wc wd. clear Eget. simpl in E.
  destruct (watch_events wa) as [|ev rest] eqn:Eq.
  - inversion E; subst. repeat split; try assumption. simpl. now rewrite Eq.
  - inversion E; subst. simpl in Hev. apply orb_false_iff in Hev.
    destruct Hev as [Hev Hrest]. repeat split; assumption.
Qed.

Lemma xenwatch_deliver_other (wt : xenbus_watch) (ent : option xs_stored_msg)
  (w1 w' : world) :
  match ent with Some msg => event_of wt msg = false | None => True end ->
  xenwatch_deliver ent w1 = Done tt w' ->
  quiet wt w1 w'.
Proof.
  intros Hent E (Hreg & Hev). unfold xenwatch_deliver in E.
  apply bind_Done in E. destruct E as ([] & wa & E1 & E2).
  inversion E2; subst w'. clear E2.
  destruct ent as [msg|].
  - unfold event_of in Hent. destruct (u msg) as [body|handle vec n]; [discriminate|].
    inversion E1; subst wa. split; [split; assumption|].
    exists [(handle, vec, n)]. split; [reflexivity|].
    simpl. unfold callback_of. simpl. now rewrite Hent.
  - inversion E1; subst wa. split; [split; assumption | now apply silent_same].
Qed.

Lemma xenwatch_thread_iter_quiet (wt : xenbus_watch) :
  preserves (quiet wt) xenwatch_thread_iter.
Proof.
  intros w [] w' E Hf. unfold xenwatch_thread_iter in E.
  apply bind_Done in E. destruct E as (ent & w1 & E1 & E2).
  destruct (xenwatch_dequeue_other wt _ _ _ Hf E1) as (Hf1 & Hc & Hent).
  destruct (xenwatch_deliver_other wt _ _ _ Hent E2 Hf1) as (Hf' & S).
  split; [exact Hf'|]. eapply silent_trans; [apply silent_same; exact Hc | exact S].
Qed.

Lemma later_step_keeps (wt : xenbus_watch) (s s' : world * watcher_at) :
  later_step wt s s' ->
  forgotten wt (fst s) -> holds_none_of wt (snd s) ->
  forgotten wt (fst s') /\ holds_none_of wt (snd s') /\ silent wt (fst s) (fst s').
Proof.
  assert (Hq : forall (w w' : world) (at_ : watcher_at),
            quiet wt w w' -> forgotten wt w -> holds_none_of wt at_ ->
            forgotten wt w' /\ holds_none_of wt at_ /\ silent wt w w').
  { intros w w' at_ Q Hf Hh. destruct (Q Hf) as (Hf' & S). auto. }
  intros [w w' at_ E|w ent w' E|w ent w' E|t ty iovec r w w' at_ E
         |o err w w' at_ Ho E|o w w' at_ E]; simpl.
  - apply Hq. apply kframe_quiet, dframe_kframe.
    eapply xenbus_thread_iter_dframe. exact E.
  - intros Hf _. destruct (xenwatch_dequeue_other wt _ _ _ Hf E) as (Hf' & Hc & Hent).
    split; [exact Hf'|]. split; [|now apply silent_same].
    destruct ent; [exact Hent | exact I].
  - intros Hf Hh.
    assert (Hent : match ent with
                   | Some msg => event_of wt msg = false
                   | None => True
                   end) by (destruct ent; [exact Hh | exact I]).
    destruct (xenwatch_deliver_other wt _ _ _ Hent E Hf) as (Hf' & S).
    split; [exact Hf'|]. split; [exact I | exact S].
  - apply Hq. apply kframe_quiet. eapply xs_talkv_kframe. exact E.
  - apply Hq. eapply register_quiet; eassumption.
  - apply Hq. eapply unregister_quiet. exact E.
Qed.

Lemma later_keeps (wt : xenbus_watch) (s s' : world * watcher_at) :
  later wt s s' ->
  forgotten wt (fst s) -> holds_none_of wt (snd s) ->
  forgotten wt (fst s') /\ holds_none_of wt (snd s') /\ silent wt (fst s) (fst s').
Proof.
  induction 1 as [s|s1 s2 s3 Hs _ IH]; intros Hf Hh.
  - split; [exact Hf|]. split; [exact Hh | apply silent_refl].
  - destruct (later_step_keeps _ _ _ Hs Hf Hh) as (Hf2 & Hh2 & S12).
    destruct (IH Hf2 Hh2) as (Hf3 & Hh3 & S23).
    split; [exact Hf3|]. split; [exact Hh3 | eapply silent_trans; eassumption].
Qed.

(** X22: [unregister_xenbus_watch] unlinks the watch and purges its
    queued events, so that when it has returned the watch is not
    registered and no event of it is queued.  If the Watcher is not then
    holding an event of the watch that it unlinked before the purge, no
    callback of the watch is run from then on, whatever the Dispatcher,
    the Watcher and other callers do and in whatever order. *)
Theorem unregister_forgets (wt : xenbus_watch) (w w0 : world) (err : Z) (w2 : world) :
  NoDup (map addr (watches w)) ->
  registered wt w = true ->
  down_read w = Done tt w0 ->
  xs_unwatch (node wt) (sprintf_lX (addr wt)) (set_watches (unlink wt) w0)
  = Done err w2 ->
  exists w',
    unregister_xenbus_watch wt w = Done tt w'
    /\ registered wt w' = false
    /\ existsb (event_of wt) (watch_events w') = false
    /\ callbacks w' = callbacks w
    /\ forall at_ s'',
         holds_none_of wt at_ ->
         later wt (w', at_) s'' ->
         exists added,
           callbacks (fst s'') = (callbacks w' ++ added)%list
           /\ existsb (callback_of wt) added = false.
Proof.
  intros Hnd Hreg Hd Hu. unfold unregister_xenbus_watch.
  destruct (down_read_Done _ _ Hd) as (_ & Hws & Hw0).
  rewrite (bind_step _ _ _ _ _ Hd).
  assert (Hdel : list_del_watch wt w0 = Done tt (set_watches (unlink wt) w0)).
  { unfold list_del_watch. unfold registered in Hreg. now rewrite Hws, Hreg. }
  rewrite (bind_step _ _ _ _ _ Hdel), (bind_step _ _ _ _ _ Hu).
  pose proof (xs_unwatch_kframe _ _ _ _ _ Hu) as K.
  pose proof (kf_watches _ _ K) as Kw. simpl in Kw. rewrite Hws in Kw.
  pose proof (kf_callbacks _ _ K) as Kc. simpl in Kc.
  assert (Hc0 : callbacks w0 = callbacks w) by (rewrite Hw0; reflexivity).
  assert (Hgone : existsb (same_watch wt) (watches w2) = false).
  { rewrite Kw. now apply unlink_self. }
  assert (Hfinal : forall w3, watches w3 = watches w2 -> callbacks w3 = callbacks w2 ->
            let w' := set_watch_events (filter (fun msg => negb (event_of wt msg)))
                        (set_xs_state (set_suspend_mutex
                           (fun s => mk_rwsem (readers s - 1) (writer s))) w3) in
            registered wt w' = false
            /\ existsb (event_of wt) (watch_events w') = false
            /\ callbacks w' = callbacks w
            /\ forall at_ s'',
                 holds_none_of wt at_ ->
                 later wt (w', at_) s'' ->
                 exists added,
                   callbacks (fst s'') = (callbacks w' ++ added)%list
                   /\ existsb (callback_of wt) added = false).
  { intros w3 E3 C3 w'.
    assert (Hr : registered wt w' = false).
    { unfold registered. subst w'. simpl. now rewrite E3. }
    assert (He : existsb (event_of wt) (watch_events w') = false).
    { subst w'. simpl. apply filter_purges. }
    repeat split; try assumption.
    - subst w'. simpl. congruence.
    - intros at_ s'' Hh Hl.
      destruct (later_keeps _ _ _ Hl (conj Hr He) Hh) as (_ & _ & S). exact S. }
  destruct (nez err).
  - unfold printk at 1. unfold modify at 1. unfold bind at 1.
    unfold up_read, modify, bind.
    eexists. split; [reflexivity|]. apply Hfinal; reflexivity.
  - unfold ret at 1. unfold bind at 1. unfold up_read, modify, bind.
    eexists. split; [reflexivity|]. apply Hfinal; reflexivity.
Qed.

End Unregister.

(* ================================================================== *)
(** ** The loops have fuel enough *)

Lemma length_advance (n : nat) (s : string) :
  String.length (advance n s) = (String.length s - n)%nat.
Proof.
  revert s. induction n as [|n IH]; intros s; simpl.
  - lia.
  - destruct s as [|c s]; simpl; [reflexivity | apply IH].
Qed.

Lemma no_more_pending_refl (w : world) : no_more_pending w w.
Proof. unfold no_more_pending. lia. Qed.

Lemma no_more_pending_trans (w1 w2 w3 : world) :
  no_more_pending w1 w2 -> no_more_pending w2 w3 -> no_more_pending w1 w3.
Proof. unfold no_more_pending. lia. Qed.

Lemma malloc_pending : preserves no_more_pending malloc.
Proof.
  intros w a w' E. unfold malloc in E. unfold no_more_pending, pending.
  destruct (heap w) eqn:Eh; inversion E; subst; simpl; rewrite ?Eh; simpl; lia.
Qed.

Lemma xb_read_pending (n : nat) : preserves no_more_pending (xb_read n).
Proof.
  intros w a w' E. unfold xb_read in E. unfold no_more_pending, pending.
  destruct (next_rc (xb_rd w) =? 0).
  - destruct (String.length (xb_in w) <? n)%nat; inversion E; subst. simpl.
    rewrite length_advance. destruct (xb_rd w); simpl; lia.
  - inversion E; subst. simpl. destruct (xb_rd w); simpl; lia.
Qed.

Section Fuel.

Context `{Platform}.

(** More fuel than the bytes left to scan changes nothing: the loops of
    [count_strings] and [split] never stop for lack of fuel. *)
Lemma count_strings_from_fuel (strings : string) (len : nat) :
  forall fuel extra p num,
    (len - p <= fuel)%nat ->
    count_strings_from (fuel + extra) strings len p num
    = count_strings_from fuel strings len p num.
Proof.
  induction fuel as [|fuel IH]; intros extra p num Hf.
  - assert (E : (p <? len)%nat = false) by (apply Nat.ltb_ge; lia).
    destruct extra; simpl; now rewrite E.
  - simpl. destruct (p <? len)%nat eqn:E; [|reflexivity].
    destruct (strlen (advance p strings)) as [n|]; [|reflexivity].
    apply IH. lia.
Qed.

Lemma split_from_fuel (strings : string) (len : nat) :
  forall fuel extra p vec,
    (len - p <= fuel)%nat ->
    split_from (fuel + extra) strings len p vec
    = split_from fuel strings len p vec.
Proof.
  induction fuel as [|fuel IH]; intros extra p vec Hf.
  - assert (E : (p <? len)%nat = false) by (apply Nat.ltb_ge; lia).
    destruct extra; simpl; now rewrite E.
  - simpl. destruct (p <? len)%nat eqn:E; [|reflexivity].
    destruct (strlen (advance p strings)) as [n|]; [|reflexivity].
    apply IH. lia.
Qed.

Lemma split_pending (strings : string) (len : nat) :
  preserves no_more_pending (split strings len).
Proof.
  unfold split. destruct (count_strings strings len); [|apply preserves_fault].
  apply (preserves_bind _ no_more_pending_trans); [apply malloc_pending|].
  intros r. destruct (negb r); [apply (preserves_ret _ no_more_pending_refl)|].
  destruct (split_from _ _ _ _ _);
    [apply (preserves_ret _ no_more_pending_refl) | apply preserves_fault].
Qed.

(** A turn of [process_msg] that returns has used up a ring byte or a
    scripted outcome, the header being at least a byte long. *)
Lemma process_msg_consumes (w : world) (r : Z) (w' : world) :
  (0 < sizeof_sockmsg)%nat ->
  process_msg w = Done r w' ->
  (pending w' < pending w)%nat.
Proof.
  intros Hsz E. unfold process_msg in E.
  apply bind_Done in E. destruct E as (msg & w1 & E1 & E).
  assert (H1 : (pending w1 <= pending w)%nat
               /\ (msg = false -> (pending w1 < pending w)%nat)).
  { unfold malloc in E1. unfold pending.
    destruct (heap w) eqn:Eh; inversion E1; subst; simpl; rewrite ?Eh; simpl.
    - split; [lia | discriminate].
    - split; intros; lia. }
  destruct H1 as (Hle1 & Hlt1).
  destruct msg; simpl in E; [|inversion E; subst; now apply Hlt1].
  apply bind_Done in E. destruct E as (rd & w2 & E2 & E).
  assert (H2 : (pending w2 < pending w1)%nat).
  { unfold xb_read in E2. unfold pending.
    destruct (next_rc (xb_rd w1) =? 0) eqn:Erc.
    - destruct (String.length (xb_in w1) <? sizeof_sockmsg)%nat eqn:El;
        inversion E2; subst. simpl. rewrite length_advance.
      apply Nat.ltb_ge in El. destruct (xb_rd w1); simpl; lia.
    - inversion E2; subst. simpl.
      destruct (xb_rd w1) as [|rc script]; [discriminate|]. simpl. lia. }
  assert (Hrest : forall k : M Z, preserves no_more_pending k ->
            k w2 = Done r w' -> (pending w' < pending w)%nat).
  { intros k Hk Ek. pose proof (Hk _ _ _ Ek) as Hle. unfold no_more_pending in Hle. lia. }
  destruct (nez (fst rd)); [inversion E; subst; lia|].
  revert E. apply Hrest.
  apply (preserves_bind _ no_more_pending_trans); [apply malloc_pending|].
  intros b. destruct (negb b); [apply (preserves_ret _ no_more_pending_refl)|].
  apply (preserves_bind _ no_more_pending_trans); [apply xb_read_pending|].
  intros rd'. destruct (nez (fst rd')); [apply (preserves_ret _ no_more_pending_refl)|].
  destruct (body_overrun _); [apply preserves_fault|].
  destruct (type _ =? XS_WATCH_EVENT).
  - apply (preserves_bind _ no_more_pending_trans); [apply split_pending|].
    intros v. destruct v as [e|[vec vec_size]]; [apply preserves_fault|].
    destruct (nth_error vec XS_WATCH_TOKEN); [|apply preserves_fault].
    intros wa x wb Ex. unfold find_watch, bind, get, ret, modify in Ex.
    destruct (find _ (watches wa)); inversion Ex; subst;
      unfold no_more_pending, pending; simpl; lia.
  - intros wa x wb Ex. inversion Ex; subst.
    unfold no_more_pending, pending; simpl; lia.
Qed.

Lemma xenbus_thread_iter_consumes (w w' : world) :
  (0 < sizeof_sockmsg)%nat ->
  xenbus_thread_iter w = Done tt w' ->
  (pending w' < pending w)%nat.
Proof.
  intros Hsz E. unfold xenbus_thread_iter in E.
  apply bind_Done in E. destruct E as (err & w1 & E1 & E2).
  pose proof (process_msg_consumes _ _ _ Hsz E1) as Hlt.
  destruct (nez err); inversion E2; subst; unfold pending in *; simpl in *; lia.
Qed.

(** With more fuel than there is for the Dispatcher to use up, the wait
    gives the same result: [wait_event] reports [Blocked] only when the
    Dispatcher itself waits for the ring. *)
Lemma wait_event_from_fuel (cond : world -> bool) :
  (0 < sizeof_sockmsg)%nat ->
  forall fuel extra w,
    (pending w < fuel)%nat ->
    wait_event_from (fuel + extra) cond w = wait_event_from fuel cond w.
Proof.
  intros Hsz. induction fuel as [|fuel IH]; intros extra w Hf; [lia|].
  simpl. destruct (cond w); [reflexivity|].
  unfold bind. destruct (xenbus_thread_iter w) as [[] w1| |] eqn:E; try reflexivity.
  apply IH. pose proof (xenbus_thread_iter_consumes _ _ Hsz E). lia.
Qed.

Lemma wait_event_fuel (cond : world -> bool) (extra : nat) (w : world) :
  (0 < sizeof_sockmsg)%nat ->
  wait_event_from (S (pending w) + extra) cond w = wait_event cond w.
Proof.
  intros Hsz. unfold wait_event. fold (pending w).
  apply wait_event_from_fuel; [exact Hsz | lia].
Qed.

End Fuel.

(* ================================================================== *)
(** * The properties at work *)

Section Examples.

Import Xen Sample.

(** C8 on the payload "x\0y\0z\0", followed by the terminator that
    [process_msg] appends. *)
Lemma split_payload_xyz :
  all_nul_free ["x"; "y"; "z"] = true
  /\ malloc_ok idle = true
  /\ String.length (payload_of ["x"; "y"; "z"]) = 6%nat
  /\ exists w',
       split (payload_of ["x"; "y"; "z"] ++ nul) 6 idle
       = Done (PTR (["x"; "y"; "z"], 3)) w'.
Proof.
  split; [reflexivity|]. split; [reflexivity|]. split; [reflexivity|].
  destruct (split_payload (H := platform) ["x"; "y"; "z"] nul idle eq_refl eq_refl)
    as (w' & E & _).
  exists w'. exact E.
Defined.

(** C9 on the two paths of the spec. *)
Lemma join_path_a_b :
  malloc_ok idle = true
  /\ (exists w', join "/a/b" "" idle = Done (PTR "/a/b") w')
  /\ (exists w', join "/a/b" "c" idle = Done (PTR "/a/b/c") w').
Proof.
  split; [reflexivity|]. split.
  - exact (join_path (H := platform) "/a/b" "" idle eq_refl).
  - exact (join_path (H := platform) "/a/b" "c" idle eq_refl).
Defined.

(** C3 when the write of the payload part fails. *)
Lemma talk_write_fails_eio :
  mutex_free broken_ring = true
  /\ first_failed 2 broken_ring = Some (-5)
  /\ exists w',
       xs_talkv 0 XS_READ [with_nul "/a"] broken_ring = Done (ERR_PTR (-5)) w'
       /\ request_mutex (xs_state w') = mk_sem 1
       /\ reply_list (xs_state w') = [].
Proof.
  split; [reflexivity|]. split; [reflexivity|].
  destruct (talk_write_fails (H := platform) 0 XS_READ [with_nul "/a"] broken_ring (-5)
              eq_refl eq_refl) as (w' & E & Hm & Hr & _).
  exists w'. split; [exact E|]. split; [exact Hm | exact Hr].
Defined.

(** C2 on a name the table does not have. *)
Lemma talk_error_reply_eweird :
  mutex_free weird = true
  /\ writes_ok 2 weird = true
  /\ read_reply (sent 0 XS_READ [with_nul "/a"] weird)
     = Done (XS_ERROR, 7, with_nul "EWEIRD" ++ nul) weird_read
  /\ exists w',
       xs_talkv 0 XS_READ [with_nul "/a"] weird = Done (ERR_PTR (- EINVAL)) w'
       /\ request_mutex (xs_state w') = mk_sem 1
       /\ console w' = ["XENBUS xen store gave: unknown error EWEIRD"].
Proof.
  assert (H1 : mutex_free weird = true) by (vm_compute; reflexivity).
  assert (H2 : writes_ok 2 weird = true) by (vm_compute; reflexivity).
  assert (H3 : read_reply (sent 0 XS_READ [with_nul "/a"] weird)
               = Done (XS_ERROR, 7, with_nul "EWEIRD" ++ nul) weird_read)
    by (vm_compute; reflexivity).
  split; [exact H1|]. split; [exact H2|]. split; [exact H3|].
  destruct (talk_error_reply (H := platform) 0 XS_READ [with_nul "/a"] weird 7
              (with_nul "EWEIRD" ++ nul) weird_read H1 H2 H3)
    as (w' & E & Hm & _ & Hc).
  exists w'. split; [exact E|]. split; [exact Hm|].
  exact (proj1 Hc).
Defined.

(** X21 on an event for a registered watch. *)
Lemma dispatch_routes_beef :
  dispatcher_reads beef_arrives (mk_sockmsg 15 0 0 8)
    (with_nul "/n" ++ with_nul "BEEF") beef_read
  /\ exists w',
       process_msg beef_arrives = Done 0 w'
       /\ watch_events w' = [beef_stored]
       /\ watch_events_waitq w' = 1%nat
       /\ reply_list (xs_state w') = [].
Proof.
  assert (Hrd : dispatcher_reads beef_arrives (mk_sockmsg 15 0 0 8)
                  (with_nul "/n" ++ with_nul "BEEF") beef_read).
  { exists beef_arrives, beef_hdr_read, beef_hdr_read,
      (hdr_bytes (mk_sockmsg 15 0 0 8)).
    repeat apply conj; vm_compute; reflexivity. }
  split; [exact Hrd|].
  assert (Hfit : body_overrun (mk_sockmsg 15 0 0 8) = false)
    by (vm_compute; reflexivity).
  pose proof (dispatch_routes (H := platform) _ _ _ _ Hrd Hfit) as R.
  change (type (mk_sockmsg 15 0 0 8) =? XS_WATCH_EVENT) with true in R.
  cbv iota in R.
  assert (Hs : split ((with_nul "/n" ++ with_nul "BEEF") ++ String NUL EmptyString)
                 (Z.to_nat (len (mk_sockmsg 15 0 0 8))) beef_read
               = Done (PTR (["/n"; "BEEF"], 2)) beef_read)
    by (vm_compute; reflexivity).
  specialize (R ["/n"; "BEEF"] 2 beef_read "BEEF" Hs eq_refl).
  change (token_watch "BEEF" beef_arrives) with (Some beef) in R.
  cbv iota in R. destruct R as (w' & E & He & Hq & Hx & _).
  exists w'. split; [exact E|]. split; [exact He|]. split; [exact Hq|].
  rewrite Hx. reflexivity.
Defined.


(** C10 on an empty listing and on a failed allocation. *)
Lemma exists_zero_or_one_cases :
  (exists w', xenbus_exists 0 "/a" "b" empty_listing = Done 1 w')
  /\ malloc_ok no_memory = false
  /\ (exists w', xenbus_exists 0 "/a" "b" no_memory = Done 0 w').
Proof.
  split; [|split].
  - assert (Hd : xenbus_directory 0 "/a" "b" empty_listing
                 = Done (PTR ([], 0))
                     (world_of (xenbus_directory 0 "/a" "b" empty_listing)))
      by (vm_compute; reflexivity).
    eexists.
    exact (proj1 (proj2 (exists_zero_or_one (H := platform) 0 "/a" "b" empty_listing))
             _ _ Hd).
  - reflexivity.
  - destruct (proj2 (proj2 (exists_zero_or_one (H := platform) 0 "/a" "b" no_memory))
                eq_refl) as (e & w' & _ & E).
    exists w'. exact E.
Defined.

(** C6 on a request the store refuses. *)
Lemma register_rollback_refused :
  registered beef refused = false
  /\ down_read refused = Done tt refused_locked
  /\ xs_watch "/n" "BEEF" (set_watches (cons beef) refused_locked)
     = Done (-13) refused_answered
  /\ exists w',
       register_xenbus_watch beef refused = Done (-13) w'
       /\ registered beef w' = false
       /\ suspend_readers w' = suspend_readers refused.
Proof.
  assert (H1 : registered beef refused = false) by (vm_compute; reflexivity).
  assert (H2 : down_read refused = Done tt refused_locked) by (vm_compute; reflexivity).
  assert (H3 : xs_watch (node beef) (sprintf_lX (addr beef))
                 (set_watches (cons beef) refused_locked)
               = Done (-13) refused_answered) by (vm_compute; reflexivity).
  split; [exact H1|]. split; [exact H2|]. split; [exact H3|].
  destruct (register_rollback (H := platform) beef refused refused_locked (-13)
              refused_answered H1 H2 H3) as (w' & E & _ & Hr & Hs & _).
  exists w'. split; [exact E|]. split; [exact Hr | exact Hs].
Defined.

(** Against C5 as the spec has it: the second read fails and the value
    of the first key is in the caller's output all the same. *)
Lemma gather_keeps_partial :
  xenbus_gather 0 "/d" two_keys [] two_reads
  = Done (-2, [(100, "va" ++ nul)]) second_failed
  /\ load 100 [(100, "va" ++ nul)] = Some ("va" ++ nul).
Proof. apply conj; vm_compute; reflexivity. Qed.

(** C5 as the code has it, on the same call. *)
Lemma gather_stops_keeps_two_keys :
  gathered 0 "/d" [("a", None, 100)] [] two_reads [(100, "va" ++ nul)] one_read
  /\ xenbus_read 0 "/d" "b" one_read = Done (ERR_PTR (-2)) second_failed
  /\ xenbus_gather 0 "/d" ([("a", None, 100)] ++ ("b", None, 200) :: []) [] two_reads
     = Done (-2, [(100, "va" ++ nul)]) second_failed.
Proof.
  assert (Hg : gathered 0 "/d" [("a", None, 100)] [] two_reads
                 [(100, "va" ++ nul)] one_read).
  { apply (gathered_raw 0 "/d" "a" 100 [] [] two_reads ("va" ++ nul) 2 one_read).
    - vm_compute; reflexivity.
    - apply gathered_nil. }
  assert (Hr : xenbus_read 0 "/d" "b" one_read = Done (ERR_PTR (-2)) second_failed)
    by (vm_compute; reflexivity).
  split; [exact Hg|]. split; [exact Hr|].
  exact (proj1 (gather_stops_keeps (H := platform) 0 "/d" [("a", None, 100)] "b" None 200 []
                  [] two_reads [(100, "va" ++ nul)] one_read Hg) _ _ Hr).
Defined.

(** C7: the callback of a watch runs after [unregister_xenbus_watch]
    has returned.  Two events for [beef] are queued.  The Watcher takes
    [xenwatch_mutex] and unlinks the first; the second is still queued
    when [beef] is unregistered.  [unregister_xenbus_watch] does not
    take [xenwatch_mutex]: it returns with [beef] unlinked and the
    second event purged, and then the Watcher runs the callback of
    [beef] with the event it holds. *)
Theorem callback_after_unregister :
  existsb (event_of beef) (watch_events racing) = true
  /\ xenwatch_dequeue racing = Done (Some beef_stored) racing_taken
  /\ count (xenwatch_mutex racing_taken) = 0
  /\ watch_events racing_taken = [beef_stored]
  /\ unregister_xenbus_watch beef racing_taken = Done tt racing_unregistered
  /\ registered beef racing_unregistered = false
  /\ watch_events racing_unregistered = []
  /\ callbacks racing_unregistered = []
  /\ xenwatch_deliver (Some beef_stored) racing_unregistered = Done tt racing_delivered
  /\ callbacks racing_delivered = [(beef, ["/n"; "BEEF"], 2)]
  /\ later_step beef (racing_unregistered, Some (Some beef_stored))
       (racing_delivered, None).
Proof.
  repeat apply conj;
    [ vm_compute; reflexivity | vm_compute; reflexivity | vm_compute; reflexivity
    | vm_compute; reflexivity | vm_compute; reflexivity | vm_compute; reflexivity
    | vm_compute; reflexivity | vm_compute; reflexivity | vm_compute; reflexivity
    | vm_compute; reflexivity | ].
  apply step_deliver. vm_compute; reflexivity.
Qed.

(** X22 when an event of the watch is queued as it is unregistered, and
    another arrives afterwards. *)
Lemma unregister_forgets_beef :
  NoDup (map addr (watches leaving))
  /\ registered beef leaving = true
  /\ existsb (event_of beef) (watch_events leaving) = true
  /\ down_read leaving = Done tt leaving_locked
  /\ xs_unwatch "/n" "BEEF" (set_watches (unlink beef) leaving_locked)
     = Done 0 leaving_answered
  /\ unregister_xenbus_watch beef leaving = Done tt left
  /\ registered beef left = false
  /\ existsb (event_of beef) (watch_events left) = false
  /\ xenbus_thread_iter left = Done tt left_later
  /\ later beef (left, None) (left_later, None)
  /\ exists added,
       callbacks left_later = (callbacks left ++ added)%list
       /\ existsb (callback_of beef) added = false.
Proof.
  assert (H1 : NoDup (map addr (watches leaving))).
  { simpl. constructor; [intros [] | constructor]. }
  assert (H2 : registered beef leaving = true) by (vm_compute; reflexivity).
  assert (H3 : down_read leaving = Done tt leaving_locked) by (vm_compute; reflexivity).
  assert (H4 : xs_unwatch (node beef) (sprintf_lX (addr beef))
                 (set_watches (unlink beef) leaving_locked)
               = Done 0 leaving_answered) by (vm_compute; reflexivity).
  assert (H5 : unregister_xenbus_watch beef leaving = Done tt left)
    by (vm_compute; reflexivity).
  assert (H6 : xenbus_thread_iter left = Done tt left_later)
    by (vm_compute; reflexivity).
  destruct (unregister_forgets (H := platform) beef leaving leaving_locked 0
              leaving_answered H1 H2 H3 H4) as (w' & E & Hr & He & _ & Hl).
  rewrite H5 in E. injection E as E. subst w'.
  split; [exact H1|]. split; [exact H2|]. split; [vm_compute; reflexivity|].
  split; [exact H3|]. split; [exact H4|]. split; [exact H5|].
  assert (H7 : later beef (left, None) (left_later, None)).
  { eapply later_then; [apply step_dispatcher; exact H6 | apply later_now]. }
  split; [exact Hr|]. split; [exact He|]. split; [exact H6|]. split; [exact H7|].
  exact (Hl None (left_later, None) I H7).
Defined.

End Examples.

(* ================================================================== *)
(** * Further properties *)

(** ** The request mutex and the reply hand-over *)

Lemma xb_write_state (data : string) (w : world) (err : Z) (w' : world) :
  xb_write data w = Done err w' ->
  xs_state w' = xs_state w /\ xb_in w' = xb_in w /\ xb_rd w' = xb_rd w
  /\ heap w' = heap w.
Proof.
  unfold xb_write. destruct (next_rc (xb_wr w) =? 0); intros E; inversion E;
    repeat split.
Qed.

Section TalkMore.

Context `{Platform}.

Lemma write_iovec_state (iovec : list string) :
  forall w err w',
    write_iovec iovec w = Done err w' ->
    xs_state w' = xs_state w /\ xb_in w' = xb_in w /\ xb_rd w' = xb_rd w
    /\ heap w' = heap w.
Proof.
  induction iovec as [|v iovec IH]; intros w err w' E; simpl in E.
  - inversion E. repeat split.
  - apply bind_Done in E. destruct E as (e & w1 & E1 & E2).
    destruct (xb_write_state _ _ _ _ E1) as (S1 & I1 & R1 & H1).
    destruct (nez e).
    + inversion E2; subst. repeat split; assumption.
    + destruct (IH _ _ _ E2) as (S2 & I2 & R2 & H2).
      repeat split; congruence.
Qed.

Lemma up_after_down (w w2 : world) :
  (0 <? count (the_request_mutex w)) = true ->
  request_mutex (xs_state w2)
  = request_mutex (xs_state (upd_request_mutex (fun s => mk_sem (count s - 1)) w)) ->
  request_mutex (xs_state (upd_request_mutex (fun s => mk_sem (count s + 1)) w2))
  = request_mutex (xs_state w).
Proof.
  intros _ E. simpl. rewrite E. simpl.
  destruct (request_mutex (xs_state w)) as [c]. simpl. f_equal. lia.
Qed.

Lemma xs_talkv_request_mutex (t ty : Z) (iovec : list string) (w : world)
  (r : ptr (string * Z)) (w' : world) :
  xs_talkv t ty iovec w = Done r w' ->
  request_mutex (xs_state w') = request_mutex (xs_state w).
Proof.
  intros E. unfold xs_talkv in E.
  apply bind_Done in E. destruct E as ([] & w0 & Ed & E).
  unfold down in Ed. destruct (0 <? count (the_request_mutex w)) eqn:Ec; [|discriminate].
  inversion Ed; subst w0. clear Ed.
  apply bind_Done in E. destruct E as (e1 & w1 & E1 & E).
  destruct (xb_write_state _ _ _ _ E1) as (S1 & _).
  destruct (nez e1).
  - apply bind_Done in E. destruct E as ([] & w2 & Eu & E).
    inversion Eu; subst w2. inversion E; subst.
    apply (up_after_down _ _ Ec). now rewrite S1.
  - apply bind_Done in E. destruct E as (e2 & w2 & E2 & E).
    destruct (write_iovec_state _ _ _ _ E2) as (S2 & _).
    destruct (nez e2).
    + apply bind_Done in E. destruct E as ([] & w3 & Eu & E).
      inversion Eu; subst w3. inversion E; subst.
      apply (up_after_down _ _ Ec). now rewrite S2, S1.
    + apply bind_Done in E. destruct E as ([[rtype rlen] body] & w3 & E3 & E).
      pose proof (df_request_mutex _ _ (read_reply_dframe _ _ _ E3)) as S3.
      apply bind_Done in E. destruct E as ([] & w4 & Eu & E).
      inversion Eu; subst w4.
      assert (Hm : request_mutex (xs_state w') =
                   request_mutex (xs_state
                     (upd_request_mutex (fun s => mk_sem (count s + 1)) w3))).
      { destruct (rtype =? XS_ERROR).
        - unfold bind in E. rewrite get_error_lookup in E. inversion E.
          now destruct (known_error (cstr body)).
        - now inversion E. }
      rewrite Hm. apply (up_after_down _ _ Ec). now rewrite S3, S2, S1.
Qed.

(** X1: a call to [xs_talkv] that returns, with a reply or with any
    error, has given the request mutex back, and has not touched the
    suspend lock, the registry or the callback log. *)
Theorem talk_returns_clean (t ty : Z) (iovec : list string) (w : world)
  (r : ptr (string * Z)) (w' : world) :
  xs_talkv t ty iovec w = Done r w' ->
  request_mutex (xs_state w') = request_mutex (xs_state w)
  /\ suspend_mutex (xs_state w') = suspend_mutex (xs_state w)
  /\ watches w' = watches w
  /\ callbacks w' = callbacks w
  /\ xenwatch_mutex w' = xenwatch_mutex w.
Proof.
  intros E. pose proof (xs_talkv_kframe _ _ _ _ _ _ E) as [K1 K2 K3 K4 _].
  split; [exact (xs_talkv_request_mutex _ _ _ _ _ _ E)|].
  repeat split; assumption.
Qed.

(** The reply on the success path. *)
Lemma xs_talkv_reply (t ty : Z) (iovec : list string) (w : world)
  (rtype rlen : Z) (body : string) (w3 : world) :
  mutex_free w = true ->
  writes_ok (S (List.length iovec)) w = true ->
  read_reply (sent t ty iovec w) = Done (rtype, rlen, body) w3 ->
  (rtype =? XS_ERROR) = false ->
  xs_talkv t ty iovec w
  = Done (PTR (body, rlen)) (upd_request_mutex (fun s => mk_sem (count s + 1)) w3).
Proof.
  intros Hfree Hok Hrd Hty.
  rewrite (xs_talkv_sent t ty iovec w Hfree Hok).
  rewrite (bind_step _ _ _ _ _ Hrd).
  unfold up, modify, bind. rewrite Hty. reflexivity.
Qed.

(** The two reads of the Dispatcher, in terms of the ring. *)
Lemma dispatcher_reads_cut (w : world) (h : xsd_sockmsg) (payload : string)
  (w4 : world) :
  dispatcher_reads w h payload w4 ->
  h = sockmsg_of_bytes (memcpy sizeof_sockmsg (xb_in w))
  /\ payload = memcpy (Z.to_nat (len h)) (advance sizeof_sockmsg (xb_in w))
  /\ xb_in w4 = advance (Z.to_nat (len h)) (advance sizeof_sockmsg (xb_in w))
  /\ (sizeof_sockmsg + Z.to_nat (len h) <= String.length (xb_in w))%nat.
Proof.
  intros (w1 & w2 & w3 & hb & E1 & E2 & Eh & E3 & E4).
  assert (I1 : xb_in w1 = xb_in w).
  { unfold malloc in E1. destruct (heap w); inversion E1; reflexivity. }
  unfold xb_read in E2.
  destruct (next_rc (xb_rd w1) =? 0) eqn:R1;
    [|injection E2 as Hz _ _; rewrite Hz in R1; discriminate].
  destruct (String.length (xb_in w1) <? sizeof_sockmsg)%nat eqn:L1; [discriminate|].
  inversion E2; subst hb w2. clear E2.
  assert (I3 : xb_in w3 = advance sizeof_sockmsg (xb_in w)).
  { unfold malloc in E3. simpl in E3.
    destruct (heap w1); inversion E3; simpl; now rewrite I1. }
  unfold xb_read in E4.
  destruct (next_rc (xb_rd w3) =? 0) eqn:R3;
    [|injection E4 as Hz _ _; rewrite Hz in R3; discriminate].
  destruct (String.length (xb_in w3) <? Z.to_nat (len h))%nat eqn:L3; [discriminate|].
  inversion E4; subst payload w4. clear E4. simpl.
  rewrite I3, I1 in *. apply Nat.ltb_ge in L1, L3.
  rewrite length_advance in L3.
  repeat split; try (symmetry; assumption); try reflexivity. lia.
Qed.

(** X3: when [process_msg] returns an error, it has queued nothing,
    woken nobody and logged nothing: only the allocator script and the
    input side of the ring have moved. *)
Theorem process_msg_error_queues (w : world) (r : Z) (w' : world) :
  process_msg w = Done r w' ->
  r <> 0 ->
  only_input w w'.
Proof.
  intros E Hr. unfold process_msg in E.
  apply bind_Done in E. destruct E as (msg & w1 & E1 & E).
  pose proof (malloc_only_input _ _ _ E1) as F1.
  destruct (negb msg); [inversion E; subst; exact F1|].
  apply bind_Done in E. destruct E as (rd & w2 & E2 & E).
  pose proof (only_input_trans _ _ _ F1 (xb_read_only_input _ _ _ _ E2)) as F2.
  destruct (nez (fst rd)); [inversion E; subst; exact F2|].
  apply bind_Done in E. destruct E as (body & w3 & E3 & E).
  pose proof (only_input_trans _ _ _ F2 (malloc_only_input _ _ _ E3)) as F3.
  destruct (negb body); [inversion E; subst; exact F3|].
  apply bind_Done in E. destruct E as (rd' & w4 & E4 & E).
  pose proof (only_input_trans _ _ _ F3 (xb_read_only_input _ _ _ _ E4)) as F4.
  destruct (nez (fst rd')); [inversion E; subst; exact F4|].
  destruct (body_overrun _); [discriminate|].
  destruct (type _ =? XS_WATCH_EVENT).
  - apply bind_Done in E. destruct E as (v & w5 & E5 & E).
    destruct v as [e|[vec vec_size]]; [discriminate|].
    destruct (nth_error vec XS_WATCH_TOKEN); [|discriminate].
    apply bind_Done in E. destruct E as (hd & w6 & E6 & E).
    destruct hd; inversion E; subst; congruence.
  - inversion E; subst. congruence.
Qed.

(** X4: when the buffer for the body cannot be allocated, [process_msg]
    returns [-ENOMEM] having taken the header from the ring and not the
    payload: the payload's bytes are what the next header is read
    from. *)
Theorem process_msg_body_no_memory (w w1 w2 w3 : world) (hb : string) :
  malloc w = Done true w1 ->
  xb_read sizeof_sockmsg w1 = Done (0, hb) w2 ->
  malloc w2 = Done false w3 ->
  process_msg w = Done (- ENOMEM) w3
  /\ xb_in w3 = advance sizeof_sockmsg (xb_in w)
  /\ xs_state w3 = xs_state w
  /\ watch_events w3 = watch_events w.
Proof.
  intros E1 E2 E3. split.
  - unfold process_msg.
    rewrite (bind_step _ _ _ _ _ E1). change (negb true) with false. cbv iota.
    rewrite (bind_step _ _ _ _ _ E2). cbn [fst snd].
    change (nez 0) with false. cbv iota.
    rewrite (bind_step _ _ _ _ _ E3). reflexivity.
  - assert (I1 : xb_in w1 = xb_in w /\ xs_state w1 = xs_state w
                 /\ watch_events w1 = watch_events w).
    { unfold malloc in E1. destruct (heap w); inversion E1; repeat split. }
    destruct I1 as (I1 & S1 & Q1).
    unfold xb_read in E2.
    destruct (next_rc (xb_rd w1) =? 0) eqn:R1;
      [|injection E2 as Hz _ _; rewrite Hz in R1; discriminate].
    destruct (String.length (xb_in w1) <? sizeof_sockmsg)%nat; [discriminate|].
    inversion E2; subst hb w2. clear E2.
    unfold malloc in E3. simpl in E3.
    destruct (heap w1); inversion E3; subst; simpl; rewrite I1, S1, Q1;
      repeat split.
Qed.

End TalkMore.

Section Handover.

Context `{Platform}.

Lemma wait_event_now (cond : world -> bool) (w : world) :
  cond w = true -> wait_event cond w = Done tt w.
Proof. unfold wait_event. simpl. now intros ->. Qed.

Lemma wait_event_from_now (fuel : nat) (cond : world -> bool) (w : world) :
  cond w = true -> wait_event_from fuel cond w = Done tt w.
Proof. destruct fuel; simpl; now intros ->. Qed.

Lemma read_reply_queued (s : world) (msg : xs_stored_msg) (rest : list xs_stored_msg)
  (body : string) :
  reply_list (xs_state s) = msg :: rest ->
  u msg = reply body ->
  read_reply s
  = Done (type (hdr msg), len (hdr msg), body)
         (set_xs_state (set_reply_list (fun _ => rest)) s).
Proof.
  intros Hq Hu. unfold read_reply.
  assert (Hc : negb (list_empty (reply_list (xs_state s))) = true)
    by (rewrite Hq; reflexivity).
  rewrite (bind_step _ _ _ _ _
             (wait_event_now (fun w => negb (list_empty (reply_list (xs_state w)))) s Hc)).
  unfold bind, get, modify, ret. rewrite Hq, Hu. reflexivity.
Qed.

Lemma read_reply_delivered (s : world) (h : xsd_sockmsg) (payload : string)
  (w4 : world) :
  reply_list (xs_state s) = [] ->
  dispatcher_reads s h payload w4 ->
  body_overrun h = false ->
  (type h =? XS_WATCH_EVENT) = false ->
  read_reply s
  = Done (type h, len h, payload ++ String NUL EmptyString)
         (set_xs_state (set_reply_list (fun _ => []))
            (set_xs_state (set_reply_waitq S)
               (set_xs_state (set_reply_list (fun q =>
                  (q ++ [mk_stored h (reply (payload ++ String NUL EmptyString))])%list))
                  w4))).
Proof.
  intros Hq Hrd Hfit Hty.
  destruct (process_msg_read _ _ _ _ Hrd Hfit) as (F & Ep).
  cbv zeta in Ep. rewrite Hty in Ep.
  assert (Hq4 : reply_list (xs_state w4) = []).
  { unfold only_input in F. rewrite F. simpl. exact Hq. }
  set (w5 := set_xs_state (set_reply_waitq S)
               (set_xs_state (set_reply_list (fun q =>
                  (q ++ [mk_stored h (reply (payload ++ String NUL EmptyString))])%list))
                  w4)).
  assert (Ep5 : process_msg s = Done 0 w5) by (rewrite Ep; reflexivity).
  assert (Hit : xenbus_thread_iter s = Done tt w5).
  { unfold xenbus_thread_iter. rewrite (bind_step _ _ _ _ _ Ep5). reflexivity. }
  assert (Hq5 : reply_list (xs_state w5)
                = [mk_stored h (reply (payload ++ String NUL EmptyString))]).
  { subst w5. simpl. now rewrite Hq4. }
  assert (Hw : wait_event (fun w => negb (list_empty (reply_list (xs_state w)))) s
               = Done tt w5).
  { unfold wait_event. simpl wait_event_from. rewrite Hq. simpl negb. cbv iota.
    rewrite (bind_step _ _ _ _ _ Hit).
    apply wait_event_from_now. now rewrite Hq5. }
  unfold read_reply. rewrite (bind_step _ _ _ _ _ Hw).
  unfold bind, get, modify, ret. rewrite Hq5. reflexivity.
Qed.

(** X5: a request and its reply, end to end.  The mutex is free, the
    writes succeed and no reply is queued; while the caller waits the
    Dispatcher reads one message that is neither a watch event nor an
    error, and whose length plus one does not wrap in 32 bits, so that
    the buffer holds it.  Then [xs_talkv] returns that message's payload, with a NUL
    after it that the store did not send, and the header's length; the
    reply list is empty again and the mutex free. *)
Theorem talk_round_trip (t ty : Z) (iovec : list string) (w : world)
  (h : xsd_sockmsg) (payload : string) (w4 : world) :
  mutex_free w = true ->
  writes_ok (S (List.length iovec)) w = true ->
  reply_list (xs_state w) = [] ->
  dispatcher_reads (sent t ty iovec w) h payload w4 ->
  body_overrun h = false ->
  (type h =? XS_WATCH_EVENT) = false ->
  (type h =? XS_ERROR) = false ->
  exists w',
    xs_talkv t ty iovec w = Done (PTR (payload ++ String NUL EmptyString, len h)) w'
    /\ reply_list (xs_state w') = []
    /\ request_mutex (xs_state w') = request_mutex (xs_state w)
    /\ reply_waitq (xs_state w') = S (reply_waitq (xs_state w))
    /\ xb_in w' = xb_in w4.
Proof.
  intros Hfree Hok Hq Hrd Hfit Hwe Herr.
  pose proof (read_reply_delivered (sent t ty iovec w) h payload w4 Hq Hrd Hfit Hwe) as Er.
  pose proof (xs_talkv_reply t ty iovec w _ _ _ _ Hfree Hok Er Herr) as Et.
  eexists. split; [exact Et|].
  destruct (process_msg_read _ _ _ _ Hrd Hfit) as (F & _). unfold only_input in F.
  split; [reflexivity|]. split; [exact (xs_talkv_request_mutex _ _ _ _ _ _ Et)|].
  split; [|reflexivity].
  cbn [reply_waitq xs_state upd_request_mutex set_xs_state set_request_mutex
       set_reply_list set_reply_waitq].
  rewrite F. reflexivity.
Qed.

(** X6: [xs_talkv] does not match a reply to its request.  If a reply is
    already queued when the request is made, the call writes its request
    and returns that reply, whatever its ids, without reading the ring;
    the replies queued behind it stay queued. *)
Theorem talk_takes_queued_reply (t ty : Z) (iovec : list string) (w : world)
  (msg : xs_stored_msg) (rest : list xs_stored_msg) (body : string) :
  mutex_free w = true ->
  writes_ok (S (List.length iovec)) w = true ->
  reply_list (xs_state w) = msg :: rest ->
  u msg = reply body ->
  (type (hdr msg) =? XS_ERROR) = false ->
  exists w',
    xs_talkv t ty iovec w = Done (PTR (body, len (hdr msg))) w'
    /\ reply_list (xs_state w') = rest
    /\ xb_in w' = xb_in w /\ xb_rd w' = xb_rd w
    /\ xb_out w' = xb_out (sent t ty iovec w).
Proof.
  intros Hfree Hok Hq Hu Herr.
  pose proof (read_reply_queued (sent t ty iovec w) msg rest body Hq Hu) as Er.
  pose proof (xs_talkv_reply t ty iovec w _ _ _ _ Hfree Hok Er Herr) as Et.
  eexists. split; [exact Et|]. repeat split.
Qed.

End Handover.

(* ================================================================== *)
(** ** The calls built on the request *)

Lemma u32_small (z : Z) : 0 <= z < 2 ^ 32 -> u32 z = z.
Proof. intros Hz. unfold u32. now apply Z.mod_small. Qed.

Lemma iovec_len_size (iovec : list string) :
  iovec_len iovec = u32 (Z.of_nat (iovec_size iovec)).
Proof.
  unfold iovec_len, iovec_size.
  assert (G : forall acc,
            fold_left (fun l v => u32 (l + Z.of_nat (String.length v))) iovec (u32 acc)
            = u32 (acc + Z.of_nat (String.length (iovec_bytes iovec)))).
  { induction iovec as [|v iovec IH]; intros acc; simpl.
    - now rewrite Z.add_0_r.
    - replace (u32 (u32 acc + Z.of_nat (String.length v)))
        with (u32 (acc + Z.of_nat (String.length v)))
        by (unfold u32; now rewrite Zplus_mod_idemp_l).
      rewrite IH. rewrite length_append. f_equal. lia. }
  specialize (G 0). change (u32 0) with 0 in G. exact G.
Qed.

Lemma writes_ok_step (n : nat) (w w1 : world) :
  writes_ok (S n) w = true ->
  xb_wr w1 = tl (xb_wr w) ->
  next_rc (xb_wr w) = 0 /\ writes_ok n w1 = true.
Proof.
  unfold writes_ok. intros Hok E. rewrite E.
  destruct (xb_wr w) as [|rc script]; simpl in *.
  - split; [reflexivity|]. now rewrite firstn_nil.
  - apply andb_true_iff in Hok. destruct Hok as [Hrc Hok].
    destruct rc; try discriminate. now split.
Qed.

Lemma malloc_after (w : world) : malloc w = Done (malloc_ok w) (after_malloc w).
Proof. unfold malloc, malloc_ok, after_malloc. now destruct (heap w). Qed.

Lemma after_malloc_frame (w : world) :
  only_input w (after_malloc w)
  /\ xs_state (after_malloc w) = xs_state w
  /\ xb_wr (after_malloc w) = xb_wr w
  /\ xb_out (after_malloc w) = xb_out w
  /\ xb_in (after_malloc w) = xb_in w.
Proof.
  unfold after_malloc, only_input. destruct w as [a b c d e hp g h i j k l].
  destruct hp; simpl; repeat split.
Qed.

Section PathCalls.

Context `{Platform} `{Wire}.

Lemma join_after (dir name : string) (w : world) :
  join dir name w
  = Done (if malloc_ok w then PTR (joined dir name) else ERR_PTR (- ENOMEM))
         (after_malloc w).
Proof.
  unfold join, joined. rewrite (bind_step _ _ _ _ _ (malloc_after w)).
  destruct (malloc_ok w); simpl negb; cbv iota; [|reflexivity].
  unfold ret, streq. destruct (String.eqb name ""); simpl; [reflexivity|].
  now rewrite append_assoc.
Qed.

(** Every reply, error or not. *)
Lemma xs_talkv_result (t ty : Z) (iovec : list string) (w : world)
  (rtype rlen : Z) (body : string) (w3 : world) :
  mutex_free w = true ->
  writes_ok (S (List.length iovec)) w = true ->
  read_reply (sent t ty iovec w) = Done (rtype, rlen, body) w3 ->
  xs_talkv t ty iovec w = Done (reply_result rtype rlen body) (handed_over rtype body w3).
Proof.
  intros Hfree Hok Hrd.
  rewrite (xs_talkv_sent t ty iovec w Hfree Hok).
  rewrite (bind_step _ _ _ _ _ Hrd).
  unfold up at 1. unfold modify at 1. unfold bind at 1.
  unfold reply_result, handed_over. cbv zeta.
  destruct (rtype =? XS_ERROR); [|reflexivity].
  unfold bind. rewrite get_error_lookup. unfold ret.
  now destruct (known_error (cstr body)).
Qed.

Lemma handed_over_out (rtype : Z) (body : string) (w3 : world) :
  xb_out (handed_over rtype body w3) = xb_out w3.
Proof.
  unfold handed_over. cbv zeta.
  destruct (rtype =? XS_ERROR); [destruct (known_error (cstr body))|]; reflexivity.
Qed.

Lemma sent_out (t ty : Z) (iovec : list string) (w : world) :
  xb_out (sent t ty iovec w) = xb_out w ++ request_bytes t ty iovec.
Proof. reflexivity. Qed.

(** X7: [xenbus_write] sends one request of type [XS_WRITE] whose
    payload is the joined path with its terminator followed by the value
    without one, and whose length field counts exactly these bytes
    (modulo 2^32); it returns 0 for any reply that is not an error and
    the negated code of the error otherwise. *)
Theorem write_frame (t : Z) (dir node value : string) (w : world)
  (rtype rlen : Z) (body : string) (w3 : world) :
  malloc_ok w = true ->
  mutex_free w = true ->
  writes_ok 3 w = true ->
  read_reply (sent t XS_WRITE [with_nul (joined dir node); value] (after_malloc w))
  = Done (rtype, rlen, body) w3 ->
  exists w',
    xenbus_write t dir node value w
    = Done (if rtype =? XS_ERROR then - error_code (cstr body) else 0) w'
    /\ xb_out w' =
       xb_out w
       ++ sockmsg_bytes (mk_sockmsg XS_WRITE 0 (u32 t)
            (u32 (Z.of_nat (String.length (joined dir node) + 1 + String.length value))))
       ++ with_nul (joined dir node) ++ value.
Proof.
  intros Hm Hfree Hok Hrd.
  destruct (after_malloc_frame w) as (_ & Hs & Hwr & Hout & _).
  assert (Hfree' : mutex_free (after_malloc w) = true)
    by (unfold mutex_free; now rewrite Hs).
  assert (Hok' : writes_ok (S (List.length [with_nul (joined dir node); value]))
                   (after_malloc w) = true)
    by (unfold writes_ok; now rewrite Hwr).
  pose proof (xs_talkv_result _ _ _ _ _ _ _ _ Hfree' Hok' Hrd) as Et.
  exists (handed_over rtype body w3). split.
  - unfold xenbus_write. rewrite (bind_step _ _ _ _ _ (join_after dir node w)).
    rewrite Hm. rewrite (bind_step _ _ _ _ _ Et).
    unfold reply_result, ret. now destruct (rtype =? XS_ERROR).
  - rewrite handed_over_out.
    rewrite (df_xb_out _ _ (read_reply_dframe _ _ _ Hrd)).
    rewrite sent_out, Hout. unfold request_bytes.
    rewrite iovec_len_size. unfold iovec_size. simpl iovec_bytes.
    rewrite append_nil_r, length_append, length_with_nul.
    replace (S (String.length (joined dir node)) + String.length value)%nat
      with (String.length (joined dir node) + 1 + String.length value)%nat by lia.
    reflexivity.
Qed.

(** X8: [xenbus_mkdir] and [xenbus_rm] send one request whose payload is
    the joined path with its terminator and need an acknowledgement
    only: whatever the body of a reply that is not an error, they return
    0; for an error they return its negated code. *)
Theorem mkdir_rm_acknowledged (t : Z) (dir node : string) (w : world) :
  malloc_ok w = true ->
  mutex_free w = true ->
  writes_ok 2 w = true ->
  (forall rtype rlen body w3,
     read_reply (sent t XS_MKDIR [with_nul (joined dir node)] (after_malloc w))
     = Done (rtype, rlen, body) w3 ->
     exists w',
       xenbus_mkdir t dir node w
       = Done (if rtype =? XS_ERROR then - error_code (cstr body) else 0) w'
       /\ xb_out w' =
          xb_out w ++ request_bytes t XS_MKDIR [with_nul (joined dir node)])
  /\ (forall rtype rlen body w3,
        read_reply (sent t XS_RM [with_nul (joined dir node)] (after_malloc w))
        = Done (rtype, rlen, body) w3 ->
        exists w',
          xenbus_rm t dir node w
          = Done (if rtype =? XS_ERROR then - error_code (cstr body) else 0) w'
          /\ xb_out w' =
             xb_out w ++ request_bytes t XS_RM [with_nul (joined dir node)]).
Proof.
  intros Hm Hfree Hok.
  destruct (after_malloc_frame w) as (_ & Hs & Hwr & Hout & _).
  assert (Hfree' : mutex_free (after_malloc w) = true)
    by (unfold mutex_free; now rewrite Hs).
  assert (Hok' : writes_ok (S (List.length [with_nul (joined dir node)]))
                   (after_malloc w) = true)
    by (unfold writes_ok; now rewrite Hwr).
  split; intros rtype rlen body w3 Hrd;
    pose proof (xs_talkv_result _ _ _ _ _ _ _ _ Hfree' Hok' Hrd) as Et;
    exists (handed_over rtype body w3); split.
  - unfold xenbus_mkdir, xs_single.
    rewrite (bind_step _ _ _ _ _ (join_after dir node w)).
    rewrite Hm. rewrite (bind_step _ _ _ _ _ Et).
    unfold reply_result, ret. now destruct (rtype =? XS_ERROR).
  - rewrite handed_over_out.
    rewrite (df_xb_out _ _ (read_reply_dframe _ _ _ Hrd)).
    now rewrite sent_out, Hout.
  - unfold xenbus_rm, xs_single.
    rewrite (bind_step _ _ _ _ _ (join_after dir node w)).
    rewrite Hm. rewrite (bind_step _ _ _ _ _ Et).
    unfold reply_result, ret. now destruct (rtype =? XS_ERROR).
  - rewrite handed_over_out.
    rewrite (df_xb_out _ _ (read_reply_dframe _ _ _ Hrd)).
    now rewrite sent_out, Hout.
Qed.

(** X9: when the buffer for the path cannot be allocated, [xenbus_read],
    [xenbus_write], [xenbus_mkdir] and [xenbus_rm] fail with [-ENOMEM]
    before anything else happens: no lock is taken, nothing is written
    to the ring and no reply is read. *)
Theorem no_memory_no_request (t : Z) (dir node value : string) (w : world) :
  malloc_ok w = false ->
  only_input w (after_malloc w)
  /\ xb_in (after_malloc w) = xb_in w
  /\ xenbus_read t dir node w = Done (ERR_PTR (- ENOMEM)) (after_malloc w)
  /\ xenbus_write t dir node value w = Done (- ENOMEM) (after_malloc w)
  /\ xenbus_mkdir t dir node w = Done (- ENOMEM) (after_malloc w)
  /\ xenbus_rm t dir node w = Done (- ENOMEM) (after_malloc w).
Proof.
  intros Hm. destruct (after_malloc_frame w) as (F & _ & _ & _ & Hin).
  split; [exact F|]. split; [exact Hin|].
  pose proof (join_after dir node w) as Ej. rewrite Hm in Ej.
  unfold xenbus_read, xenbus_write, xenbus_mkdir, xenbus_rm.
  rewrite !(bind_step _ _ _ _ _ Ej). repeat split.
Qed.

End PathCalls.

(* ================================================================== *)
(** ** The emergency write and the raw request *)

Lemma length_memcpy (n : nat) (s : string) :
  (n <= String.length s)%nat -> String.length (memcpy n s) = n.
Proof.
  revert s. induction n as [|n IH]; intros s Hn; simpl; [reflexivity|].
  destruct s as [|c s]; simpl in *; [lia|]. rewrite IH; [reflexivity | lia].
Qed.

Lemma up_down_state (w w4 : world) :
  xs_state w4 = xs_state (upd_request_mutex (fun s => mk_sem (count s - 1)) w) ->
  xs_state (upd_request_mutex (fun s => mk_sem (count s + 1)) w4) = xs_state w.
Proof.
  destruct w as [st b c d e f g h i j k l]. destruct st as [rl rw rm sm].
  destruct rm as [n]. destruct w4 as [st4 b4 c4 d4 e4 f4 g4 h4 i4 j4 k4 l4].
  unfold upd_request_mutex, set_xs_state, set_request_mutex. simpl. intros ->. simpl. do 2 f_equal. lia.
Qed.

Lemma xb_write_ok (data : string) (w : world) :
  next_rc (xb_wr w) = 0 ->
  exists w', xb_write data w = Done 0 w'
    /\ xb_wr w' = tl (xb_wr w) /\ xb_out w' = xb_out w ++ data.
Proof.
  intros Hrc. destruct (xb_write_next data w) as (w' & E & _ & Hwr & Hout).
  rewrite Hrc in *. exists w'. now repeat split.
Qed.

Section Emergency.

Context `{Platform} `{Wire}.

(** X10: [xenbus_debug_write] never waits for a reply and never looks at
    what its writes return: with the request mutex free it returns,
    whatever the four writes report, with the mutex given back, the
    queues as they were and nothing read from the ring.  When the writes
    succeed, the ring has received the header, the word print with its
    terminator, [count] bytes of [str] and one more terminator, and the
    header's length field counts exactly the bytes after the header. *)
Theorem debug_write_no_reply (str : string) (n : nat) (w : world) :
  mutex_free w = true ->
  (n <= String.length str)%nat ->
  exists w',
    xenbus_debug_write str n w = Done tt w'
    /\ xs_state w' = xs_state w
    /\ xb_in w' = xb_in w
    /\ xb_rd w' = xb_rd w
    /\ xb_wr w' = skipn 4 (xb_wr w)
    /\ (writes_ok 4 w = true ->
        xb_out w' =
        xb_out w
        ++ sockmsg_bytes (mk_sockmsg XS_DEBUG 0 0 (u32 (6 + Z.of_nat n + 1)))
        ++ with_nul "print" ++ memcpy n str ++ with_nul "")
    /\ (6 + Z.of_nat n + 1 < 2 ^ 32 ->
        u32 (6 + Z.of_nat n + 1)
        = Z.of_nat (String.length
                      (with_nul "print" ++ memcpy n str ++ with_nul ""))).
Proof.
  intros Hfree Hcount.
  pose (w0 := upd_request_mutex (fun s => mk_sem (count s - 1)) w).
  assert (Hlt : (String.length str <? n)%nat = false)
    by (apply Nat.ltb_ge; exact Hcount).
  unfold xenbus_debug_write. cbv zeta.
  rewrite (bind_step _ _ _ _ _ (down_request_mutex w Hfree)).
  fold w0. rewrite Hlt.
  destruct (xb_write_next (sockmsg_bytes (mk_sockmsg XS_DEBUG 0 0
              (u32 (6 + Z.of_nat n + 1)))) w0) as (w1 & E1 & _ & W1 & O1).
  destruct (xb_write_next (with_nul "print") w1) as (w2 & E2 & _ & W2 & O2).
  destruct (xb_write_next (memcpy n str) w2) as (w3 & E3 & _ & W3 & O3).
  destruct (xb_write_next (with_nul "") w3) as (w4 & E4 & _ & W4 & O4).
  rewrite (bind_step _ _ _ _ _ E1), (bind_step _ _ _ _ _ E2),
    (bind_step _ _ _ _ _ E3), (bind_step _ _ _ _ _ E4).
  destruct (xb_write_state _ _ _ _ E1) as (S1 & I1 & R1 & _).
  destruct (xb_write_state _ _ _ _ E2) as (S2 & I2 & R2 & _).
  destruct (xb_write_state _ _ _ _ E3) as (S3 & I3 & R3 & _).
  destruct (xb_write_state _ _ _ _ E4) as (S4 & I4 & R4 & _).
  eexists. split; [reflexivity|].
  split; [apply up_down_state; fold w0; congruence|].
  split; [simpl; rewrite I4, I3, I2, I1; reflexivity|].
  split; [simpl; rewrite R4, R3, R2, R1; reflexivity|].
  split.
  { simpl. rewrite W4, W3, W2, W1.
    change (xb_wr w0) with (xb_wr w). now destruct (xb_wr w) as [|a [|b [|c [|d l]]]]. }
  split.
  - intros Hok.
    assert (Hok0 : writes_ok 4 w0 = true) by exact Hok.
    destruct (writes_ok_step _ _ _ Hok0 W1) as [N1 Hok1].
    destruct (writes_ok_step _ _ _ Hok1 W2) as [N2 Hok2].
    destruct (writes_ok_step _ _ _ Hok2 W3) as [N3 Hok3].
    destruct (writes_ok_step _ _ _ Hok3 W4) as [N4 _].
    rewrite N1 in O1. rewrite N2 in O2. rewrite N3 in O3. rewrite N4 in O4.
    simpl in O1, O2, O3, O4 |- *.
    rewrite O4, O3, O2, O1. change (xb_out w0) with (xb_out w).
    now rewrite !append_assoc.
  - intros Hsmall. rewrite u32_small by lia.
    rewrite !length_append, length_memcpy by exact Hcount.
    simpl String.length. lia.
Qed.

(** X11: [xenbus_dev_request_and_reply] gives the request mutex back on
    every path on which it returns, and its account of the read lock is
    this: a transaction start takes it, and it is given back when the
    header ends with the type of a transaction end, or when a
    transaction start ends as an error.  A write that fails turns the
    header into an error and returns the error of the write, so a
    request other than a transaction start whose write fails leaves the
    read lock as it was, a transaction end included. *)
Theorem dev_request_read_lock (msg : xsd_sockmsg) (payload : string) (w : world)
  (r : ptr string) (msg' : xsd_sockmsg) (w' : world) :
  xenbus_dev_request_and_reply msg payload w = Done (r, msg') w' ->
  request_mutex (xs_state w') = request_mutex (xs_state w)
  /\ suspend_readers w' =
     suspend_readers w
     + (if type msg =? XS_TRANSACTION_START then 1 else 0)
     - (if gives_back (type msg) (type msg') then 1 else 0)
  /\ watches w' = watches w
  /\ req_id msg' = req_id msg /\ tx_id msg' = tx_id msg
  /\ (IS_ERR r = true ->
      type msg' = XS_ERROR /\ len msg' = len msg
      /\ r = ERR_PTR (next_rc (xb_wr w)) /\ xb_out w' = xb_out w
      /\ xb_in w' = xb_in w)
  /\ (IS_ERR r = true -> type msg <> XS_TRANSACTION_START ->
      XS_ERROR <> XS_TRANSACTION_END ->
      suspend_readers w' = suspend_readers w).
Proof.
  intros E. unfold xenbus_dev_request_and_reply in E. cbv zeta in E.
  apply bind_Done in E. destruct E as ([] & w0 & E0 & E).
  apply bind_Done in E. destruct E as ([] & w1 & E1 & E).
  apply bind_Done in E. destruct E as (err & w2 & E2 & E).
  apply bind_Done in E. destruct E as ([r0 m0] & w3 & E3 & E).
  apply bind_Done in E. destruct E as ([] & w4 & E4 & E).
  apply bind_Done in E. destruct E as ([] & w5 & E5 & E).
  inversion E. subst r0 m0 w5. clear E.
  assert (P0 : request_mutex (xs_state w0) = request_mutex (xs_state w)
               /\ suspend_readers w0 =
                  suspend_readers w
                  + (if type msg =? XS_TRANSACTION_START then 1 else 0)
               /\ watches w0 = watches w /\ xb_wr w0 = xb_wr w
               /\ xb_out w0 = xb_out w /\ xb_in w0 = xb_in w).
  { destruct (type msg =? XS_TRANSACTION_START).
    - destruct (down_read_Done _ _ E0) as (Hr & Hw & ->). rewrite Hr.
      repeat split.
    - inversion E0. subst w0. repeat split. lia. }
  destruct P0 as (M0 & R0 & W0 & Wr0 & O0 & I0).
  unfold down in E1. destruct (0 <? count (the_request_mutex w0)) eqn:Hc; [|discriminate].
  injection E1 as E1.
  destruct (String.length payload <? Z.to_nat (len msg))%nat; [discriminate|].
  destruct (xb_write_next (sockmsg_bytes msg ++ memcpy (Z.to_nat (len msg)) payload) w1)
    as (w2' & E2' & _ & _ & O2).
  rewrite E2 in E2'. injection E2' as Herr Hw2. subst w2'.
  destruct (xb_write_state _ _ _ _ E2) as (S2 & I2 & _ & _).
  unfold up, modify in E4. injection E4 as E4.
  assert (P3 : request_mutex (xs_state w3) = request_mutex (xs_state w2)
               /\ suspend_mutex (xs_state w3) = suspend_mutex (xs_state w2)
               /\ watches w3 = watches w2
               /\ req_id msg' = req_id msg /\ tx_id msg' = tx_id msg
               /\ (IS_ERR r = true ->
                   type msg' = XS_ERROR /\ len msg' = len msg
                   /\ r = ERR_PTR err /\ nez err = true /\ w3 = w2)).
  { destruct (nez err) eqn:Hnz.
    - inversion E3. subst. repeat split.
    - apply bind_Done in E3. destruct E3 as ([[rtype rlen] body] & w3' & Er & E3).
      inversion E3. subst. pose proof (read_reply_dframe _ _ _ Er) as F.
      split; [exact (df_request_mutex _ _ F)|].
      split; [exact (df_suspend_mutex _ _ F)|].
      split; [exact (df_watches _ _ F)|].
      repeat split; discriminate. }
  destruct P3 as (M3 & Su3 & W3 & Hreq & Htx & Herrs).
  assert (M4 : request_mutex (xs_state w4) = request_mutex (xs_state w)).
  { rewrite <- M0. subst w4. apply up_after_down; [exact Hc|].
    rewrite M3, S2, <- E1. reflexivity. }
  assert (R4 : suspend_readers w4 =
               suspend_readers w
               + (if type msg =? XS_TRANSACTION_START then 1 else 0)).
  { rewrite <- R0. subst w4. unfold suspend_readers. simpl.
    rewrite Su3, S2, <- E1. reflexivity. }
  assert (W4 : watches w4 = watches w).
  { rewrite <- W0. subst w4. simpl. rewrite W3.
    destruct (xb_write_next
                (sockmsg_bytes msg ++ memcpy (Z.to_nat (len msg)) payload) w1)
      as (w2' & E2' & Ow & _ & _).
    rewrite E2 in E2'. injection E2' as _ Hw2. subst w2'. rewrite Ow, <- E1. reflexivity. }
  assert (P5 : request_mutex (xs_state w') = request_mutex (xs_state w4)
               /\ suspend_readers w' =
                  suspend_readers w4
                  - (if gives_back (type msg) (type msg') then 1 else 0)
               /\ watches w' = watches w4 /\ xb_out w' = xb_out w4
               /\ xb_in w' = xb_in w4).
  { change (snd (r, msg')) with msg' in E5.
    destruct (gives_back (type msg) (type msg')).
    - unfold up_read, modify in E5. injection E5 as E5. subst w'. repeat split.
    - unfold ret in E5. injection E5 as E5. subst w'. repeat split. lia. }
  destruct P5 as (M5 & R5 & W5 & O5 & I5).
  split; [congruence|].
  split; [rewrite R5, R4; reflexivity|].
  split; [congruence|].
  split; [exact Hreq|]. split; [exact Htx|].
  split.
  - intros Hr. destruct (Herrs Hr) as (Ht & Hl & Hp & Hnz & Hw3).
    split; [exact Ht|]. split; [exact Hl|].
    assert (Hne : (next_rc (xb_wr w1) =? 0) = false).
    { rewrite <- Herr. unfold nez in Hnz. now apply negb_true_iff in Hnz. }
    rewrite Hne in O2.
    split; [rewrite Hp, Herr, <- E1, <- Wr0; reflexivity|].
    split.
    + rewrite O5. subst w4. simpl. rewrite Hw3, O2, <- E1. exact O0.
    + rewrite I5. subst w4. simpl. rewrite Hw3, I2, <- E1. exact I0.
  - intros Hr Hns Hne. destruct (Herrs Hr) as (Ht & _).
    rewrite R5, R4. unfold gives_back. rewrite Ht.
    apply Z.eqb_neq in Hns. apply Z.eqb_neq in Hne. rewrite Hns, Hne.
    simpl. lia.
Qed.

End Emergency.

(* ================================================================== *)
(** ** Suspend and resume *)

Lemma firstn_add_skipn {A} (a b : nat) (l : list A) :
  firstn (a + b) l = (firstn a l ++ firstn b (skipn a l))%list.
Proof.
  revert l. induction a as [|a IH]; intros l; [reflexivity|].
  destruct l as [|x l]; simpl.
  - now rewrite firstn_nil.
  - now rewrite IH.
Qed.

Lemma writes_ok_skip (a b : nat) (w w1 : world) :
  writes_ok (a + b) w = true ->
  xb_wr w1 = skipn a (xb_wr w) ->
  writes_ok a w = true /\ writes_ok b w1 = true.
Proof.
  unfold writes_ok. intros Hok E. rewrite E.
  rewrite firstn_add_skipn, forallb_app in Hok.
  now apply andb_true_iff in Hok.
Qed.

Section Suspend.

Context `{Platform} `{Wire}.

Lemma xs_suspend_Done (w w' : world) :
  xs_suspend w = Done tt w' ->
  writer (suspend_mutex (xs_state w)) = false
  /\ (0 <? suspend_readers w) = false
  /\ mutex_free w = true
  /\ w' = upd_request_mutex (fun s => mk_sem (count s - 1))
            (set_xs_state (set_suspend_mutex (fun s => mk_rwsem (readers s) true)) w).
Proof.
  unfold xs_suspend, bind, down_write, down, suspend_readers, mutex_free,
    the_request_mutex.
  cbv zeta.
  destruct (writer (suspend_mutex (xs_state w))); [discriminate|].
  destruct (0 <? readers (suspend_mutex (xs_state w))); [discriminate|].
  simpl orb. cbv iota. simpl.
  destruct (0 <? count (request_mutex (xs_state w))); [|discriminate].
  intros E. injection E as E. now subst w'.
Qed.

(** X12: [xs_suspend] returns only when no transaction is open, and
    holds the suspend lock as the writer and the request mutex from then
    on.  With the request mutex a binary one, every request made after
    it waits: [xs_talkv], [xenbus_transaction_start], registering and
    unregistering a watch, the emergency write and the raw request.
    Neither the registry nor the ring is touched. *)
Theorem suspend_excludes (w w' : world) :
  xs_suspend w = Done tt w' ->
  count (request_mutex (xs_state w)) = 1 ->
  suspend_readers w <= 0
  /\ suspend_readers w' = suspend_readers w
  /\ writer (suspend_mutex (xs_state w')) = true
  /\ watches w' = watches w
  /\ xb_out w' = xb_out w
  /\ xb_in w' = xb_in w
  /\ (forall t ty iovec, xs_talkv t ty iovec w' = Blocked)
  /\ xenbus_transaction_start w' = Blocked
  /\ (forall wt, register_xenbus_watch wt w' = Blocked)
  /\ (forall wt, unregister_xenbus_watch wt w' = Blocked)
  /\ (forall str n, xenbus_debug_write str n w' = Blocked)
  /\ (forall msg payload, xenbus_dev_request_and_reply msg payload w' = Blocked).
Proof.
  intros E Hone. destruct (xs_suspend_Done _ _ E) as (Hw & Hr & _ & ->).
  assert (Hd : down the_request_mutex upd_request_mutex
                 (upd_request_mutex (fun s => mk_sem (count s - 1))
                    (set_xs_state
                       (set_suspend_mutex (fun s => mk_rwsem (readers s) true)) w))
               = Blocked).
  { unfold down, the_request_mutex. simpl. now rewrite Hone. }
  assert (Hrd : down_read
                  (upd_request_mutex (fun s => mk_sem (count s - 1))
                     (set_xs_state
                        (set_suspend_mutex (fun s => mk_rwsem (readers s) true)) w))
                = Blocked) by reflexivity.
  split; [apply Z.ltb_ge; exact Hr|].
  do 5 (split; [reflexivity|]).
  split; [intros t ty iovec; unfold xs_talkv, bind; now rewrite Hd|].
  split; [unfold xenbus_transaction_start, bind; now rewrite Hrd|].
  split; [intros wt; unfold register_xenbus_watch, bind; now rewrite Hrd|].
  split; [intros wt; unfold unregister_xenbus_watch, bind; now rewrite Hrd|].
  split; [intros str n; unfold xenbus_debug_write, bind; now rewrite Hd|].
  intros msg payload. unfold xenbus_dev_request_and_reply. cbv zeta.
  destruct (type msg =? XS_TRANSACTION_START).
  - unfold bind at 1. now rewrite Hrd.
  - unfold bind at 1. unfold ret at 1. unfold bind at 1. now rewrite Hd.
Qed.

Lemma xs_talkv_wr (t ty : Z) (iovec : list string) (w : world)
  (r : ptr (string * Z)) (w' : world) :
  mutex_free w = true ->
  writes_ok (S (List.length iovec)) w = true ->
  xs_talkv t ty iovec w = Done r w' ->
  xb_wr w' = skipn (S (List.length iovec)) (xb_wr w).
Proof.
  intros Hfree Hok E. rewrite (xs_talkv_sent t ty iovec w Hfree Hok) in E.
  apply bind_Done in E. destruct E as ([[rtype rlen] body] & w3 & E1 & E2).
  change (skipn (S (List.length iovec)) (xb_wr w)) with (xb_wr (sent t ty iovec w)).
  rewrite <- (df_xb_wr _ _ (read_reply_dframe _ _ _ E1)).
  apply bind_Done in E2. destruct E2 as ([] & w4 & E2 & E3).
  inversion E2; subst w4. clear E2.
  destruct (rtype =? XS_ERROR).
  - unfold bind in E3. rewrite get_error_lookup in E3. inversion E3.
    now destruct (known_error (cstr body)).
  - now inversion E3.
Qed.

Lemma resubscribe_kframe (ws : list xenbus_watch) : preserves kframe (resubscribe ws).
Proof.
  induction ws as [|wt ws IH]; simpl.
  - apply preserves_ret. exact kframe_refl.
  - apply preserves_bind; [exact kframe_trans | apply xs_watch_kframe |].
    intros _. exact IH.
Qed.

Lemma xs_watch_request_mutex (path token : string) (w : world) (err : Z) (w' : world) :
  xs_watch path token w = Done err w' ->
  request_mutex (xs_state w') = request_mutex (xs_state w).
Proof.
  unfold xs_watch. intros E. apply bind_Done in E.
  destruct E as (r & w1 & E1 & E2). inversion E2. subst.
  exact (xs_talkv_request_mutex _ _ _ _ _ _ E1).
Qed.

Lemma resubscribe_sends (ws : list xenbus_watch) (w w' : world) :
  resubscribe ws w = Done tt w' ->
  request_mutex (xs_state w') = request_mutex (xs_state w)
  /\ (mutex_free w = true ->
      writes_ok (3 * List.length ws) w = true ->
      xb_out w' = xb_out w ++ watch_requests ws).
Proof.
  revert w. induction ws as [|wt ws IH]; intros w E.
  - inversion E. subst. split; [reflexivity|]. intros _ _. simpl.
    now rewrite append_nil_r.
  - simpl in E. apply bind_Done in E. destruct E as (err & w1 & E1 & E2).
    destruct (IH _ E2) as (M2 & O2).
    pose proof (xs_watch_request_mutex _ _ _ _ _ E1) as M1.
    split; [congruence|].
    intros Hfree Hok.
    unfold xs_watch in E1. apply bind_Done in E1.
    destruct E1 as (r & w1' & Et & Er). inversion Er. subst w1'. clear Er.
    replace (3 * List.length (wt :: ws))%nat
      with (3 + 3 * List.length ws)%nat in Hok by (simpl; lia).
    assert (Hok3 : writes_ok 3 w = true).
    { unfold writes_ok in *. rewrite firstn_add_skipn, forallb_app in Hok.
      now apply andb_true_iff in Hok. }
    pose proof (xs_talkv_wr 0 XS_WATCH
                  [with_nul (node wt); with_nul (sprintf_lX (addr wt))]
                  _ _ _ Hfree Hok3 Et) as Wr.
    pose proof (xs_talkv_out 0 XS_WATCH
                  [with_nul (node wt); with_nul (sprintf_lX (addr wt))]
                  _ _ _ Hfree Hok3 Et) as Out.
    destruct (writes_ok_skip _ _ _ _ Hok Wr) as (_ & Hok').
    assert (Hfree' : mutex_free w1 = true) by (unfold mutex_free; now rewrite M1).
    rewrite (O2 Hfree' Hok'), Out, sent_out. simpl watch_requests.
    now rewrite !append_assoc.
Qed.

(** X13: [xs_resume] undoes [xs_suspend]: when both have returned, the
    request mutex and the suspend lock are as they were before the
    suspend, and the registry and the callback log are unchanged.  In
    between it asks the store again for every watch of the registry, in
    the registry's order, under the token that spells the watch's
    address, whatever the store answers; it does so with [xs_watch]
    itself, while the suspend lock is still held as the writer. *)
Theorem resume_resubscribes (w ws w' : world) :
  xs_suspend w = Done tt ws ->
  xs_resume ws = Done tt w' ->
  request_mutex (xs_state w') = request_mutex (xs_state w)
  /\ suspend_mutex (xs_state w') = suspend_mutex (xs_state w)
  /\ watches w' = watches w
  /\ callbacks w' = callbacks w
  /\ (writes_ok (3 * List.length (watches w)) w = true ->
      xb_out w' = xb_out w ++ watch_requests (watches w)).
Proof.
  intros Es Er. destruct (xs_suspend_Done _ _ Es) as (Hw & _ & Hfree & Hws).
  unfold xs_resume in Er.
  apply bind_Done in Er. destruct Er as ([] & w1 & E1 & Er).
  apply bind_Done in Er. destruct Er as (wg & w1' & Eg & Er).
  inversion Eg. subst wg w1'. clear Eg.
  apply bind_Done in Er. destruct Er as ([] & w2 & E2 & E3).
  unfold up, modify in E1. injection E1 as E1.
  unfold up_write, modify in E3. injection E3 as E3.
  assert (S1 : xs_state w1
               = set_suspend_mutex (fun s => mk_rwsem (readers s) true) (xs_state w)).
  { rewrite <- E1.
    apply (up_down_state
             (set_xs_state (set_suspend_mutex (fun s => mk_rwsem (readers s) true)) w)
             ws).
    now rewrite Hws. }
  assert (W1 : watches w1 = watches w) by (rewrite <- E1, Hws; reflexivity).
  assert (C1 : callbacks w1 = callbacks w) by (rewrite <- E1, Hws; reflexivity).
  assert (O1 : xb_out w1 = xb_out w) by (rewrite <- E1, Hws; reflexivity).
  assert (Wr1 : xb_wr w1 = xb_wr w) by (rewrite <- E1, Hws; reflexivity).
  pose proof (resubscribe_kframe _ _ _ _ E2) as K.
  destruct (resubscribe_sends _ _ _ E2) as (M2 & O2).
  split.
  { rewrite <- E3. simpl. rewrite M2, S1. reflexivity. }
  split.
  { rewrite <- E3. simpl. rewrite (kf_suspend_mutex _ _ K), S1. simpl.
    destruct (suspend_mutex (xs_state w)) as [r wr]. simpl in Hw. now subst wr. }
  split; [rewrite <- E3; simpl; rewrite (kf_watches _ _ K); exact W1|].
  split; [rewrite <- E3; simpl; rewrite (kf_callbacks _ _ K); exact C1|].
  intros Hok. rewrite <- E3. simpl. rewrite W1 in O2. rewrite O2, O1.
  - reflexivity.
  - unfold mutex_free. rewrite S1. exact Hfree.
  - unfold writes_ok. rewrite Wr1. exact Hok.
Qed.

End Suspend.

(* ================================================================== *)
(** ** The Watcher's loop *)

Section WatcherLoop.

Context `{Platform} `{Wire}.

Lemma xenwatch_thread_iter_takes (w : world) (ev : xs_stored_msg)
  (q : list xs_stored_msg) :
  watch_events w = ev :: q ->
  is_watch_event ev = true ->
  (0 <? count (xenwatch_mutex w)) = true ->
  exists w1,
    xenwatch_thread_iter w = Done tt w1
    /\ callbacks w1 = (callbacks w ++ call_of ev)%list
    /\ watch_events w1 = q
    /\ xenwatch_mutex w1 = xenwatch_mutex w
    /\ xs_state w1 = xs_state w
    /\ watches w1 = watches w
    /\ xb_in w1 = xb_in w /\ xb_rd w1 = xb_rd w /\ heap w1 = heap w
    /\ xb_out w1 = xb_out w.
Proof.
  intros Hq Hev Hfree.
  assert (Hc : (fun s => negb (list_empty (watch_events s))) w = true)
    by (cbv beta; now rewrite Hq).
  assert (Hd : down xenwatch_mutex set_xenwatch_mutex w
               = Done tt (set_xenwatch_mutex (fun s => mk_sem (count s - 1)) w))
    by (unfold down; now rewrite Hfree).
  assert (Hdq : xenwatch_dequeue w
                = Done (Some ev)
                    (set_watch_events (fun _ => q)
                       (set_xenwatch_mutex (fun s => mk_sem (count s - 1)) w))).
  { unfold xenwatch_dequeue.
    rewrite (bind_step _ _ _ _ _
               (wait_event_now (fun s => negb (list_empty (watch_events s))) w Hc)).
    rewrite (bind_step _ _ _ _ _ Hd). unfold bind at 1. unfold get.
    change (watch_events (set_xenwatch_mutex (fun s => mk_sem (count s - 1)) w))
      with (watch_events w).
    rewrite Hq. reflexivity. }
  unfold xenwatch_thread_iter. rewrite (bind_step _ _ _ _ _ Hdq).
  unfold xenwatch_deliver, call_of. unfold is_watch_event in Hev.
  destruct (u ev) as [body|handle vec vec_size]; [discriminate|].
  unfold bind, modify, up. eexists. split; [reflexivity|].
  simpl. repeat split.
  destruct (xenwatch_mutex w) as [c]. simpl. f_equal. lia.
Qed.

(** X14: the Watcher delivers queued events oldest first.  With [n]
    events queued and its mutex free, [n] turns of the loop of
    [xenwatch_thread] run the callbacks of the first [n] events in the
    order of the queue, each with the vector and the count stored with
    the event, and leave the rest queued; the Watcher's mutex is free
    again, and neither the ring nor the reply queue is touched. *)
Theorem watcher_delivers_in_order (n : nat) (w : world) :
  (n <= List.length (watch_events w))%nat ->
  forallb is_watch_event (firstn n (watch_events w)) = true ->
  (0 <? count (xenwatch_mutex w)) = true ->
  exists w',
    xenwatch_thread n w = Done tt w'
    /\ callbacks w' = (callbacks w ++ flat_map call_of (firstn n (watch_events w)))%list
    /\ watch_events w' = skipn n (watch_events w)
    /\ xenwatch_mutex w' = xenwatch_mutex w
    /\ xs_state w' = xs_state w
    /\ watches w' = watches w
    /\ xb_in w' = xb_in w
    /\ xb_out w' = xb_out w.
Proof.
  revert w. induction n as [|n IH]; intros w Hn Hev Hfree.
  - exists w. simpl. rewrite app_nil_r. repeat split.
  - destruct (watch_events w) as [|ev q] eqn:Hq; [simpl in Hn; lia|].
    simpl in Hev. apply andb_true_iff in Hev. destruct Hev as [Hev Hrest].
    destruct (xenwatch_thread_iter_takes w ev q Hq Hev Hfree)
      as (w1 & E1 & C1 & Q1 & M1 & S1 & W1 & I1 & _ & _ & O1).
    destruct (IH w1) as (w' & E' & C' & Q' & M' & S' & W' & I' & O').
    + rewrite Q1. simpl in Hn. lia.
    + now rewrite Q1.
    + now rewrite M1.
    + exists w'. simpl xenwatch_thread. rewrite (bind_step _ _ _ _ _ E1).
      split; [exact E'|].
      split; [rewrite C', C1, Q1; simpl; now rewrite <- app_assoc|].
      split; [rewrite Q', Q1; reflexivity|].
      repeat split; congruence.
Qed.

End WatcherLoop.

(* ================================================================== *)
(** ** A watch through its life, and the Dispatcher's reach *)

Lemma xs_unwatch_request_mutex `{Platform} (path token : string) (w : world)
  (err : Z) (w' : world) :
  xs_unwatch path token w = Done err w' ->
  request_mutex (xs_state w') = request_mutex (xs_state w).
Proof.
  unfold xs_unwatch. intros E. apply bind_Done in E.
  destruct E as (r & w1 & E1 & E2). inversion E2. subst.
  exact (xs_talkv_request_mutex _ _ _ _ _ _ E1).
Qed.

Lemma readers_back (s : rw_semaphore) :
  mk_rwsem (readers s + 1 - 1) (writer s) = s.
Proof. destruct s as [r wr]. simpl. f_equal. lia. Qed.

Section WatchLife.

Context `{Platform}.

Lemma register_Done (wt : xenbus_watch) (w : world) (err : Z) (w1 : world) :
  register_xenbus_watch wt w = Done err w1 ->
  registered wt w = false
  /\ watches w1 = (if rolled_back err then unlink wt (wt :: watches w)
                   else wt :: watches w)
  /\ suspend_mutex (xs_state w1) = suspend_mutex (xs_state w)
  /\ request_mutex (xs_state w1) = request_mutex (xs_state w)
  /\ callbacks w1 = callbacks w.
Proof.
  intros E. unfold register_xenbus_watch in E. cbv zeta in E.
  apply bind_Done in E. destruct E as ([] & w0 & Ed & E).
  apply bind_Done in E. destruct E as ([] & wa & Ea & E).
  apply bind_Done in E. destruct E as (e & w2 & Ew & E).
  apply bind_Done in E. destruct E as ([] & w3 & Er & E).
  apply bind_Done in E. destruct E as ([] & w4 & Eu & E).
  injection E as He Hw. subst e w4.
  destruct (down_read_Done _ _ Ed) as (_ & _ & ->).
  unfold list_add_watch in Ea. simpl watches in Ea.
  destruct (existsb (same_watch wt) (watches w)) eqn:Hreg; [discriminate|].
  injection Ea as Ea. subst wa.
  pose proof (xs_watch_kframe _ _ _ _ _ Ew) as K.
  assert (M2 : request_mutex (xs_state w2) = request_mutex (xs_state w)).
  { unfold xs_watch in Ew. apply bind_Done in Ew.
    destruct Ew as (r & w2' & Et & Ez). inversion Ez. subst.
    exact (xs_talkv_request_mutex _ _ _ _ _ _ Et). }
  pose proof (kf_watches _ _ K) as Kw. simpl in Kw.
  pose proof (kf_suspend_mutex _ _ K) as Ks. simpl in Ks.
  pose proof (kf_callbacks _ _ K) as Kc. simpl in Kc.
  unfold up_read, modify in Eu. injection Eu as Eu. subst w1.
  split; [exact Hreg|]. unfold rolled_back.
  destruct (nez err && negb (err =? - EEXIST)).
  - unfold list_del_watch in Er. rewrite Kw in Er. simpl existsb in Er.
    rewrite same_watch_refl in Er. simpl in Er. injection Er as Er. subst w3.
    simpl. rewrite Kw, Ks, M2, Kc. simpl. rewrite same_watch_refl.
    repeat split. apply readers_back.
  - injection Er as Er. subst w3. simpl. rewrite Kw, Ks, M2, Kc. simpl.
    repeat split. apply readers_back.
Qed.

(** X15: a watch that was registered, with success or with [-EEXIST],
    and is then unregistered leaves things as they were before the
    registration: the registry, the suspend lock, the request mutex and
    the callback log are unchanged, and no event of the watch is
    queued, whatever the store answered to either request. *)
Theorem register_then_unregister (wt : xenbus_watch) (w : world) (err : Z)
  (w1 w2 : world) :
  register_xenbus_watch wt w = Done err w1 ->
  rolled_back err = false ->
  unregister_xenbus_watch wt w1 = Done tt w2 ->
  watches w2 = watches w
  /\ suspend_mutex (xs_state w2) = suspend_mutex (xs_state w)
  /\ request_mutex (xs_state w2) = request_mutex (xs_state w)
  /\ callbacks w2 = callbacks w
  /\ existsb (event_of wt) (watch_events w2) = false.
Proof.
  intros Er Hkept Eu.
  destruct (register_Done _ _ _ _ Er) as (Hnew & W1 & S1 & M1 & C1).
  rewrite Hkept in W1.
  unfold unregister_xenbus_watch in Eu. cbv zeta in Eu.
  apply bind_Done in Eu. destruct Eu as ([] & w0 & Ed & E).
  apply bind_Done in E. destruct E as ([] & wa & Ea & E).
  apply bind_Done in E. destruct E as (e & w3 & Ew & E).
  apply bind_Done in E. destruct E as ([] & w4 & Ep & E).
  apply bind_Done in E. destruct E as ([] & w5 & Eup & E).
  destruct (down_read_Done _ _ Ed) as (_ & _ & ->).
  unfold list_del_watch in Ea. simpl watches in Ea. rewrite W1 in Ea.
  simpl existsb in Ea. rewrite same_watch_refl in Ea. simpl in Ea.
  injection Ea as Ea. subst wa.
  pose proof (xs_unwatch_kframe _ _ _ _ _ Ew) as K.
  pose proof (xs_unwatch_request_mutex _ _ _ _ _ Ew) as M3. simpl in M3.
  pose proof (kf_watches _ _ K) as Kw. simpl in Kw.
  rewrite W1 in Kw. simpl in Kw. rewrite same_watch_refl in Kw.
  pose proof (kf_suspend_mutex _ _ K) as Ks. simpl in Ks.
  pose proof (kf_callbacks _ _ K) as Kc. simpl in Kc.
  assert (P4 : watches w4 = watches w3 /\ xs_state w4 = xs_state w3
               /\ callbacks w4 = callbacks w3).
  { destruct (nez e).
    - unfold printk, modify in Ep. injection Ep as Ep. subst w4. repeat split.
    - injection Ep as Ep. subst w4. repeat split. }
  destruct P4 as (W4 & S4 & C4).
  unfold up_read, modify in Eup. injection Eup as Eup. subst w5.
  unfold modify in E. injection E as E. subst w2. simpl.
  rewrite W4, S4, C4, Kw, Ks, M3, Kc, S1, M1, C1.
  split; [reflexivity|].
  split; [exact (readers_back (suspend_mutex (xs_state w)))|].
  split; [reflexivity|].
  split; [reflexivity|].
  apply filter_purges.
Qed.

Lemma reply_grows_refl (w : world) : reply_grows w w.
Proof. exists []. now rewrite app_nil_r. Qed.

Lemma reply_grows_trans (w1 w2 w3 : world) :
  reply_grows w1 w2 -> reply_grows w2 w3 -> reply_grows w1 w3.
Proof.
  intros (a & Ha) (b & Hb). exists (a ++ b)%list.
  now rewrite Hb, Ha, app_assoc.
Qed.

Ltac grows_same := exists []; simpl; now rewrite app_nil_r.

Ltac grows_step :=
  first
    [ apply preserves_ret; exact reply_grows_refl
    | apply preserves_fault
    | apply preserves_block
    | apply preserves_get; exact reply_grows_refl
    | apply preserves_modify; intros ?; grows_same
    | apply preserves_bind; [exact reply_grows_trans | | intros ?] ].

Lemma malloc_grows : preserves reply_grows malloc.
Proof.
  intros w a w' E. unfold malloc in E.
  destruct (heap w); inversion E; subst; grows_same.
Qed.

Lemma xb_read_grows (n : nat) : preserves reply_grows (xb_read n).
Proof.
  intros w a w' E. unfold xb_read in E.
  destruct (next_rc (xb_rd w) =? 0).
  - destruct (String.length (xb_in w) <? n)%nat; inversion E; subst;
      grows_same.
  - inversion E; subst. grows_same.
Qed.

Lemma split_grows (strings : string) (len : nat) :
  preserves reply_grows (split strings len).
Proof.
  unfold split. destruct (count_strings strings len); [|apply preserves_fault].
  grows_step; [apply malloc_grows|].
  destruct (negb a); [grows_step|].
  destruct (split_from _ _ _ _ _); grows_step.
Qed.

Lemma process_msg_grows : preserves reply_grows process_msg.
Proof.
  unfold process_msg.
  grows_step; [apply malloc_grows|]. destruct (negb a); [grows_step|].
  grows_step; [apply xb_read_grows|]. destruct (nez (fst a0)); [grows_step|].
  grows_step; [apply malloc_grows|]. destruct (negb a1); [grows_step|].
  grows_step; [apply xb_read_grows|]. destruct (nez (fst a2)); [grows_step|].
  destruct (body_overrun _); [grows_step|].
  destruct (type _ =? XS_WATCH_EVENT).
  - grows_step; [apply split_grows|].
    destruct a3 as [e|[vec vec_size]]; [apply preserves_fault|].
    destruct (nth_error vec XS_WATCH_TOKEN) as [token|]; [|apply preserves_fault].
    intros w r w' E. apply bind_Done in E. destruct E as (hd & w1 & E1 & E2).
    inversion E1. subst w1.
    destruct hd as [wt|]; inversion E2; subst; grows_same.
  - intros w r w' E. inversion E; subst. eexists. reflexivity.
Qed.

Lemma xenbus_thread_iter_grows : preserves reply_grows xenbus_thread_iter.
Proof.
  unfold xenbus_thread_iter.
  grows_step; [apply process_msg_grows|].
  destruct (nez a); [|grows_step].
  apply preserves_modify. intros w. grows_same.
Qed.

(** X16: the Dispatcher only queues.  A turn of the loop of
    [xenbus_thread] that returns has written nothing to the ring, has
    left the request mutex, the suspend lock, the Watcher's mutex, the
    registry and the callback log alone, has removed no queued reply
    and no queued event, and has queued events for watches of the
    registry only. *)
Theorem dispatcher_only_queues (w w' : world) :
  xenbus_thread_iter w = Done tt w' ->
  xb_out w' = xb_out w
  /\ xb_wr w' = xb_wr w
  /\ request_mutex (xs_state w') = request_mutex (xs_state w)
  /\ suspend_mutex (xs_state w') = suspend_mutex (xs_state w)
  /\ xenwatch_mutex w' = xenwatch_mutex w
  /\ watches w' = watches w
  /\ callbacks w' = callbacks w
  /\ (exists added,
        watch_events w' = (watch_events w ++ added)%list
        /\ Forall (from_registry (watches w)) added)
  /\ (exists added,
        reply_list (xs_state w') = (reply_list (xs_state w) ++ added)%list).
Proof.
  intros E. pose proof (xenbus_thread_iter_dframe _ _ _ E) as F.
  destruct F as [F1 F2 F3 F4 F5 F6 F7 F8].
  pose proof (xenbus_thread_iter_grows _ _ _ E) as G.
  repeat (split; [assumption|]). exact G.
Qed.

End WatchLife.

(* ================================================================== *)
(** ** What [split] returns, read backwards *)

Lemma strlen_cut (s : string) :
  forall n, strlen s = Some n ->
    s = with_nul (cstr s) ++ advance (S n) s
    /\ nul_free (cstr s) = true
    /\ String.length (cstr s) = n.
Proof.
  induction s as [|c s IH]; intros n E; simpl in E; [discriminate|].
  simpl cstr. destruct (Ascii.eqb c NUL) eqn:Ec.
  - apply Ascii.eqb_eq in Ec. subst c. injection E as <-. simpl. now repeat split.
  - destruct (strlen s) as [m|]; [|discriminate]. injection E as <-.
    destruct (IH m eq_refl) as (Hs & Hn & Hl).
    simpl. rewrite Ec. simpl. repeat split.
    + f_equal. destruct s as [|d s]; [discriminate Hs|]. exact Hs.
    + exact Hn.
    + now rewrite Hl.
Qed.

Lemma payload_of_app (vec : list string) (c : string) :
  payload_of (vec ++ [c]) = payload_of vec ++ with_nul c.
Proof.
  induction vec as [|v vec IH]; simpl.
  - now rewrite append_nil_r.
  - now rewrite IH, append_assoc.
Qed.

Lemma payload_of_ends (vec : list string) :
  payload_of vec = "" \/ exists pre, payload_of vec = with_nul pre.
Proof.
  induction vec as [|v vec IH]; [now left|]. right. simpl.
  destruct IH as [E|(pre & E)]; rewrite E.
  - exists v. now rewrite append_nil_r.
  - exists (with_nul v ++ pre). unfold with_nul. now rewrite !append_assoc.
Qed.

Lemma length_memcpy_le (n : nat) (s : string) :
  (String.length (memcpy n s) <= n)%nat.
Proof.
  revert s. induction n as [|n IH]; intros s; simpl; [lia|].
  destruct s as [|c s]; simpl; [lia|]. specialize (IH s). lia.
Qed.

Lemma length_zero_nil (s : string) : String.length s = 0%nat -> s = "".
Proof. destruct s; [reflexivity | discriminate]. Qed.

Lemma split_from_whole (fuel : nat) :
  forall pre rest vec out len,
    split_from fuel (pre ++ rest) len (String.length pre) vec = Some out ->
    payload_of vec = pre ->
    all_nul_free vec = true ->
    (String.length (pre ++ rest) <= len)%nat ->
    payload_of out = pre ++ rest
    /\ all_nul_free out = true
    /\ String.length (pre ++ rest) = len.
Proof.
  induction fuel as [|fuel IH]; intros pre rest vec out len E Hp Hv Hlen.
  - simpl in E. destruct (String.length pre <? len)%nat eqn:Hlt; [discriminate|].
    apply Nat.ltb_ge in Hlt. injection E as <-.
    rewrite length_append in Hlen.
    assert (Hr : rest = "") by (apply length_zero_nil; lia).
    subst rest. rewrite append_nil_r in *. repeat split; [exact Hp | exact Hv | lia].
  - simpl in E. destruct (String.length pre <? len)%nat eqn:Hlt.
    + rewrite advance_append in E.
      destruct (strlen rest) as [n|] eqn:Es; [|discriminate].
      destruct (strlen_cut rest n Es) as (Hr & Hn & Hl).
      set (c := cstr rest) in *. set (rest' := advance (S n) rest) in *.
      assert (Hs : pre ++ rest = (pre ++ with_nul c) ++ rest')
        by (rewrite Hr at 1; now rewrite append_assoc).
      assert (Hpos : (String.length pre + n + 1)%nat
                     = String.length (pre ++ with_nul c))
        by (rewrite length_append, length_with_nul, Hl; lia).
      rewrite Hpos, Hs in E. rewrite Hs in Hlen. rewrite Hs.
      apply (IH _ _ _ _ _ E).
      * rewrite payload_of_app. now rewrite Hp.
      * unfold all_nul_free in *. rewrite forallb_app, Hv. simpl. now rewrite Hn.
      * exact Hlen.
    + apply Nat.ltb_ge in Hlt. injection E as <-.
      rewrite length_append in Hlen.
      assert (Hr : rest = "") by (apply length_zero_nil; lia).
      subst rest. rewrite append_nil_r in *. repeat split; [exact Hp | exact Hv | lia].
Qed.

Lemma append_last_inj (a b : string) (x y : ascii) :
  a ++ String x EmptyString = b ++ String y EmptyString -> y = x.
Proof.
  revert b. induction a as [|c a IH]; intros b E.
  - destruct b as [|d b]; simpl in E.
    + now injection E.
    + injection E as _ E. destruct b; discriminate.
  - destruct b as [|d b]; simpl in E.
    + injection E as _ E. destruct a; discriminate.
    + injection E as _ E. exact (IH _ E).
Qed.

Section SplitBack.

Context `{Platform}.

(** X17: [split] loses nothing and invents nothing.  When it returns a
    vector, the strings of the vector, each followed by its terminator
    and put one after the other, are exactly the [len] bytes of the
    payload; no string holds a NUL; and the count returned is the
    length of the vector.  So a vector is returned only for a payload
    that is empty or ends with a NUL. *)
Theorem split_loses_nothing (strings : string) (len : nat) (w : world)
  (vec : list string) (n : Z) (w' : world) :
  split strings len w = Done (PTR (vec, n)) w' ->
  payload_of vec = memcpy len strings
  /\ String.length (memcpy len strings) = len
  /\ all_nul_free vec = true
  /\ n = Z.of_nat (List.length vec)
  /\ (memcpy len strings = ""
      \/ exists pre, memcpy len strings = pre ++ String NUL EmptyString).
Proof.
  intros E. unfold split in E.
  destruct (count_strings strings len) as [num|]; [|discriminate].
  apply bind_Done in E. destruct E as (r & w1 & _ & E).
  destruct (negb r); [discriminate|].
  destruct (split_from len (memcpy len strings) len 0 []) as [out|] eqn:Es;
    [|discriminate].
  injection E as Hv Hn _. subst out.
  destruct (split_from_whole len "" (memcpy len strings) [] vec len Es eq_refl eq_refl
              (length_memcpy_le len strings)) as (Hp & Hnf & Hl).
  simpl in Hp, Hl.
  split; [exact Hp|]. split; [exact Hl|]. split; [exact Hnf|].
  split; [now rewrite Hn|].
  rewrite <- Hp. exact (payload_of_ends vec).
Qed.

(** X18: a payload whose last byte is not a NUL makes [split] read
    past the end of its copy.  This is so even when [count_strings]
    succeeds, as it does in [process_msg], where the buffer holds one
    more byte, a NUL, after the payload: the copy made by [split] holds
    the payload only. *)
Theorem split_unterminated_overreads (strings : string) (len : nat) (w : world)
  (pre : string) (c : ascii) (num : nat) :
  malloc_ok w = true ->
  count_strings strings len = Some num ->
  memcpy len strings = pre ++ String c EmptyString ->
  c <> NUL ->
  split strings len w = Fault.
Proof.
  intros Hm Hc Hs Hne. unfold split. rewrite Hc.
  rewrite (bind_step _ _ _ _ _ (malloc_after w)). rewrite Hm.
  change (negb true) with false. cbv iota zeta.
  destruct (split_from len (memcpy len strings) len 0 []) as [out|] eqn:Es;
    [|reflexivity].
  exfalso.
  destruct (split_from_whole len "" (memcpy len strings) [] out len Es eq_refl eq_refl
              (length_memcpy_le len strings)) as (Hp & _ & _).
  simpl in Hp. rewrite Hs in Hp.
  destruct (payload_of_ends out) as [E|(pre' & E)]; rewrite E in Hp.
  - apply (f_equal String.length) in Hp. rewrite length_append in Hp.
    simpl in Hp. lia.
  - unfold with_nul in Hp. apply append_last_inj in Hp. now subst c.
Qed.

End SplitBack.

(* ================================================================== *)
(** ** The listing of a directory *)

Section Listing.

Context `{Platform}.

Lemma split_of_payload (ss : list string) (rest : string) (w : world) :
  all_nul_free ss = true ->
  malloc_ok w = true ->
  split (payload_of ss ++ rest) (String.length (payload_of ss)) w
  = Done (PTR (ss, Z.of_nat (List.length ss))) (after_malloc w).
Proof.
  intros Hss Hm.
  assert (Hc : count_strings (payload_of ss ++ rest) (String.length (payload_of ss))
               = Some (List.length ss)).
  { unfold count_strings.
    exact (count_strings_from_payload ss Hss _ "" rest 0%nat _ 0%nat
             eq_refl eq_refl (le_n _)). }
  unfold split. rewrite Hc. rewrite (bind_step _ _ _ _ _ (malloc_after w)).
  rewrite Hm. change (negb true) with false. cbv iota zeta.
  rewrite memcpy_append.
  pose proof (split_from_payload ss Hss _ "" [] _ 0%nat
                eq_refl eq_refl (le_n _)) as Hs.
  simpl in Hs. rewrite Hs. reflexivity.
Qed.

(** X19: [xenbus_directory] joins the path, asks for the listing with
    one request of type [XS_DIRECTORY] whose payload is the path with
    its terminator, and splits the reply: for a reply whose payload is
    the names of the entries, each with its terminator, it returns the
    names in the order of the reply and their number. *)
Theorem directory_lists (t : Z) (dir node : string) (w : world)
  (names : list string) (rtype : Z) (w3 : world) :
  malloc_ok w = true ->
  mutex_free w = true ->
  writes_ok 2 w = true ->
  all_nul_free names = true ->
  read_reply (sent t XS_DIRECTORY [with_nul (joined dir node)] (after_malloc w))
  = Done (rtype, Z.of_nat (String.length (payload_of names)),
          payload_of names ++ String NUL EmptyString) w3 ->
  rtype <> XS_ERROR ->
  malloc_ok w3 = true ->
  exists w',
    xenbus_directory t dir node w
    = Done (PTR (names, Z.of_nat (List.length names))) w'
    /\ xb_out w' = xb_out w ++ request_bytes t XS_DIRECTORY [with_nul (joined dir node)].
Proof.
  intros Hm Hfree Hok Hnames Hrd Hty Hm3.
  destruct (after_malloc_frame w) as (_ & Hs & Hwr & Hout & _).
  assert (Hfree' : mutex_free (after_malloc w) = true)
    by (unfold mutex_free; now rewrite Hs).
  assert (Hok' : writes_ok (S (List.length [with_nul (joined dir node)]))
                   (after_malloc w) = true)
    by (unfold writes_ok; now rewrite Hwr).
  pose proof (xs_talkv_result _ _ _ _ _ _ _ _ Hfree' Hok' Hrd) as Et.
  apply Z.eqb_neq in Hty.
  unfold reply_result, handed_over in Et. cbv zeta in Et. rewrite Hty in Et.
  set (w4 := upd_request_mutex (fun s => mk_sem (count s + 1)) w3) in *.
  assert (Hm4 : malloc_ok w4 = true) by exact Hm3.
  exists (after_malloc w4). split.
  - unfold xenbus_directory. rewrite (bind_step _ _ _ _ _ (join_after dir node w)).
    rewrite Hm. unfold xs_single. rewrite (bind_step _ _ _ _ _ Et).
    rewrite Nat2Z.id.
    exact (split_of_payload names (String NUL EmptyString) w4 Hnames Hm4).
  - destruct (after_malloc_frame w4) as (_ & _ & _ & Hout4 & _).
    rewrite Hout4. change (xb_out w4) with (xb_out w3).
    rewrite (df_xb_out _ _ (read_reply_dframe _ _ _ Hrd)).
    now rewrite sent_out, Hout.
Qed.

End Listing.

(* ================================================================== *)
(** ** The end of a transaction *)

Section TransactionEnd.

Context `{Platform}.

(** X20: [xenbus_transaction_end] sends one request of type
    [XS_TRANSACTION_END] that carries the transaction in the header's
    [tx_id] and the single letter F, when [abort] is not zero, or T,
    with its terminator, as payload.  It returns 0 for a reply that is
    not an error and the negated code of the error otherwise, and in
    both cases it has given back one hold of the read lock. *)
Theorem transaction_end_frame (t abort : Z) (w : world)
  (rtype rlen : Z) (body : string) (w3 : world) :
  mutex_free w = true ->
  writes_ok 2 w = true ->
  read_reply (sent t XS_TRANSACTION_END [with_nul (if abort =? 0 then "T" else "F")] w)
  = Done (rtype, rlen, body) w3 ->
  exists w',
    xenbus_transaction_end t abort w
    = Done (if rtype =? XS_ERROR then - error_code (cstr body) else 0) w'
    /\ xb_out w' =
       xb_out w
       ++ sockmsg_bytes (mk_sockmsg XS_TRANSACTION_END 0 (u32 t) 2)
       ++ (if abort =? 0 then "T" else "F") ++ String NUL EmptyString
    /\ suspend_readers w' = suspend_readers w - 1
    /\ request_mutex (xs_state w') = request_mutex (xs_state w).
Proof.
  intros Hfree Hok Hrd.
  assert (Hstr : (if nez abort then "F" else "T") = (if abort =? 0 then "T" else "F"))
    by (unfold nez; now destruct (abort =? 0)).
  assert (Hok' : writes_ok (S (List.length [with_nul (if abort =? 0 then "T" else "F")]))
                   w = true) by exact Hok.
  pose proof (xs_talkv_result _ _ _ _ _ _ _ _ Hfree Hok' Hrd) as Et.
  pose proof (xs_talkv_kframe _ _ _ _ _ _ Et) as K.
  pose proof (xs_talkv_request_mutex _ _ _ _ _ _ Et) as Mx.
  eexists. unfold xenbus_transaction_end. cbv zeta. rewrite Hstr.
  unfold xs_single. rewrite (bind_step _ _ _ _ _ Et).
  unfold bind, up_read, modify, ret.
  split; [f_equal; unfold reply_result; now destruct (rtype =? XS_ERROR)|].
  split.
  - simpl xb_out. rewrite handed_over_out.
    rewrite (df_xb_out _ _ (read_reply_dframe _ _ _ Hrd)), sent_out.
    unfold request_bytes. f_equal. f_equal.
    + f_equal. now destruct (abort =? 0).
    + simpl. now rewrite append_nil_r.
  - split.
    + unfold suspend_readers. simpl. now rewrite (kf_suspend_mutex _ _ K).
    + simpl. exact Mx.
Qed.

End TransactionEnd.

(* ================================================================== *)
(** ** What a turn of the Dispatcher has read *)

Lemma nez_false (z : Z) : nez z = false -> z = 0.
Proof. unfold nez. intros E. apply negb_false_iff in E. now apply Z.eqb_eq. Qed.

Section ReadBack.

Context `{Platform}.

Lemma split_Done (strings : string) (len : nat) (w : world)
  (r : ptr (list string * Z)) (w' : world) :
  split strings len w = Done r w' -> w' = after_malloc w.
Proof.
  unfold split. destruct (count_strings strings len); [|discriminate].
  rewrite (bind_step _ _ _ _ _ (malloc_after w)).
  destruct (negb (malloc_ok w)); [intros E; now inversion E|].
  destruct (split_from _ _ _ _ _); [intros E; now inversion E | discriminate].
Qed.

(** X2: the message [process_msg] reads is cut from the ring by the
    header's length.  Whenever [process_msg] returns 0, the header is
    what the next [sizeof_sockmsg] bytes of the ring spell, the payload
    is the [len] bytes after them, the ring held them all and is left
    at the byte that follows, and [len + 1] did not wrap.  A message
    that is not a watch event is then the last of the reply list, with
    this header and with this payload and a NUL after it as body; a
    watch event leaves the reply list alone and is either dropped or
    the last of [watch_events], with this header, for a watch of the
    registry. *)
Theorem process_msg_cuts_by_len (w w' : world) :
  process_msg w = Done 0 w' ->
  ENOMEM <> 0 ->
  exists h payload,
    h = sockmsg_of_bytes (memcpy sizeof_sockmsg (xb_in w))
    /\ payload = memcpy (Z.to_nat (len h)) (advance sizeof_sockmsg (xb_in w))
    /\ (sizeof_sockmsg + Z.to_nat (len h) <= String.length (xb_in w))%nat
    /\ body_overrun h = false
    /\ xb_in w' = advance (Z.to_nat (len h)) (advance sizeof_sockmsg (xb_in w))
    /\ if type h =? XS_WATCH_EVENT then
         reply_list (xs_state w') = reply_list (xs_state w)
         /\ (watch_events w' = watch_events w
             \/ exists wt vec n,
                  watch_events w' = (watch_events w ++ [mk_stored h (watch wt vec n)])%list
                  /\ In wt (watches w))
       else
         reply_list (xs_state w')
         = (reply_list (xs_state w)
            ++ [mk_stored h (reply (payload ++ String NUL EmptyString))])%list
         /\ watch_events w' = watch_events w.
Proof.
  intros E Hnomem. unfold process_msg in E.
  apply bind_Done in E. destruct E as (msg & w1 & E1 & E).
  destruct msg; [|exfalso; inversion E; lia].
  change (negb true) with false in E. cbv iota in E.
  apply bind_Done in E. destruct E as ([rc hb] & w2 & E2 & E).
  cbn [fst snd] in E.
  destruct (nez rc) eqn:N1; [exfalso; inversion E; subst; discriminate|].
  apply nez_false in N1. subst rc.
  apply bind_Done in E. destruct E as (body & w3 & E3 & E).
  destruct body; [|exfalso; inversion E; lia].
  change (negb true) with false in E. cbv iota in E.
  apply bind_Done in E. destruct E as ([rc payload] & w4 & E4 & E).
  cbn [fst snd] in E.
  destruct (nez rc) eqn:N2; [exfalso; inversion E; subst; discriminate|].
  apply nez_false in N2. subst rc.
  set (h := sockmsg_of_bytes hb) in *.
  destruct (body_overrun h) eqn:Hfit; [discriminate|].
  assert (Hrd : dispatcher_reads w h payload w4).
  { exists w1, w2, w3, hb. repeat split; assumption. }
  destruct (dispatcher_reads_cut _ _ _ _ Hrd) as (Hh & Hp & Hin & Hlen).
  destruct (process_msg_read _ _ _ _ Hrd Hfit) as (F & _).
  unfold only_input in F.
  exists h, payload.
  split; [exact Hh|]. split; [exact Hp|]. split; [exact Hlen|]. split; [exact Hfit|].
  cbv zeta in E. destruct (type h =? XS_WATCH_EVENT).
  - apply bind_Done in E. destruct E as (v & w5 & E5 & E).
    apply split_Done in E5. destruct (after_malloc_frame w4) as (F5 & S5 & _ & _ & I5).
    unfold only_input in F5. rewrite <- E5 in *.
    destruct v as [e|[vec n]]; [discriminate|].
    destruct (nth_error vec XS_WATCH_TOKEN) as [token|]; [|discriminate].
    apply bind_Done in E. destruct E as (hd & w6 & E6 & E).
    assert (Hq5 : watch_events w5 = watch_events w)
      by (rewrite F5; simpl; rewrite F; reflexivity).
    assert (Hr5 : reply_list (xs_state w5) = reply_list (xs_state w))
      by (rewrite S5, F; reflexivity).
    assert (Hw5 : watches w5 = watches w)
      by (rewrite F5; simpl; rewrite F; reflexivity).
    destruct hd as [wt|].
    + apply find_watch_In in E6. destruct E6 as [-> Hwt].
      unfold bind, modify, ret in E. injection E as E. subst w'.
      split; [simpl; rewrite I5; exact Hin|].
      split; [exact Hr5|]. right. exists wt, vec, n.
      split; [simpl; now rewrite Hq5 | now rewrite <- Hw5].
    + unfold find_watch, bind, get, ret in E6. injection E6 as _ E6. subst w6.
      unfold ret in E. injection E as E. subst w'.
      split; [rewrite I5; exact Hin|].
      split; [exact Hr5 | left; exact Hq5].
  - unfold bind, modify, ret in E. injection E as E. subst w'.
    split; [exact Hin|]. simpl. rewrite F. simpl. split; reflexivity.
Qed.

End ReadBack.

(* ================================================================== *)
(** * The further properties at work *)

Section MoreExamples.

Import Xen Sample XenWire Trial.

(** C1: a watch event that is neither queued nor dropped.  The ring
    delivers an event for the registered watch [beef] whose payload is
    the path alone.  [split] returns a vector of one string, and
    [process_msg] passes [vec[XS_WATCH_TOKEN]], the string after it, to
    [find_watch] without looking at the number of strings: it reads
    past the vector.  The same event with its token, when there is no
    memory for the vector, makes [process_msg] free the message and
    then read the error from it.  And a message of any type whose
    length is 2^32 - 1 is read into a buffer of [len + 1] bytes
    computed in 32 bits, that is of no byte. *)
Theorem dispatch_unchecked_event :
  dispatcher_reads token_less (mk_sockmsg 15 0 0 3) (with_nul "/n") token_less_read
  /\ body_overrun (mk_sockmsg 15 0 0 3) = false
  /\ (type (mk_sockmsg 15 0 0 3) =? XS_WATCH_EVENT) = true
  /\ split (with_nul "/n" ++ nul) 3 token_less_read
     = Done (PTR (["/n"], 1)) token_less_read
  /\ nth_error ["/n"] XS_WATCH_TOKEN = None
  /\ process_msg token_less = Fault
  /\ split (with_nul "/n" ++ with_nul "BEEF" ++ nul) 8 vector_starved_read
     = Done (ERR_PTR (- ENOMEM)) beef_read
  /\ process_msg vector_starved = Fault
  /\ (forall w payload w4,
        dispatcher_reads w (mk_sockmsg 2 0 0 (2 ^ 32 - 1)) payload w4 ->
        process_msg w = Fault).
Proof.
  assert (Hrd : dispatcher_reads token_less (mk_sockmsg 15 0 0 3) (with_nul "/n")
                  token_less_read).
  { exists token_less, token_less_hdr, token_less_hdr,
      (hdr_bytes (mk_sockmsg 15 0 0 3)).
    repeat apply conj; vm_compute; reflexivity. }
  split; [exact Hrd|].
  repeat apply conj;
    [ vm_compute; reflexivity | vm_compute; reflexivity | vm_compute; reflexivity
    | vm_compute; reflexivity | vm_compute; reflexivity | vm_compute; reflexivity
    | vm_compute; reflexivity | ].
  intros w payload w4 Hw.
  assert (Hover : body_overrun (mk_sockmsg 2 0 0 (2 ^ 32 - 1)) = true)
    by (vm_compute; reflexivity).
  exact (process_msg_overruns (H := platform) w _ payload w4 Hw Hover).
Qed.

(** X1 on the read that the store answers with an unknown error. *)
Lemma talk_returns_clean_weird :
  xs_talkv 0 XS_READ [with_nul "/a"] weird = Done (ERR_PTR (-22)) weird_done
  /\ request_mutex (xs_state weird_done) = request_mutex (xs_state weird)
  /\ suspend_mutex (xs_state weird_done) = suspend_mutex (xs_state weird)
  /\ watches weird_done = watches weird
  /\ callbacks weird_done = callbacks weird
  /\ xenwatch_mutex weird_done = xenwatch_mutex weird.
Proof.
  assert (H1 : xs_talkv 0 XS_READ [with_nul "/a"] weird
               = Done (ERR_PTR (-22)) weird_done) by (vm_compute; reflexivity).
  exact (conj H1 (talk_returns_clean (H := platform) _ _ _ _ _ _ H1)).
Defined.

(** X2 on the reply that carries the value [va]. *)
Lemma process_msg_cuts_by_len_va :
  process_msg answered_sent = Done 0 answered_queued
  /\ ENOMEM <> 0
  /\ xb_in answered_sent = frame 2 0 0 "va"
  /\ reply_list (xs_state answered_queued)
     = [mk_stored (mk_sockmsg 2 0 0 2) (reply ("va" ++ String NUL EmptyString))]
  /\ xb_in answered_queued = EmptyString
  /\ exists h payload,
       h = sockmsg_of_bytes (memcpy sizeof_sockmsg (xb_in answered_sent))
       /\ payload = memcpy (Z.to_nat (len h)) (advance sizeof_sockmsg (xb_in answered_sent))
       /\ xb_in answered_queued
          = advance (Z.to_nat (len h)) (advance sizeof_sockmsg (xb_in answered_sent)).
Proof.
  assert (H1 : process_msg answered_sent = Done 0 answered_queued)
    by (vm_compute; reflexivity).
  assert (H2 : ENOMEM <> 0) by (vm_compute; discriminate).
  assert (H3 : xb_in answered_sent = frame 2 0 0 "va") by (vm_compute; reflexivity).
  assert (H4 : reply_list (xs_state answered_queued)
               = [mk_stored (mk_sockmsg 2 0 0 2) (reply ("va" ++ String NUL EmptyString))])
    by (vm_compute; reflexivity).
  assert (H5 : xb_in answered_queued = EmptyString) by (vm_compute; reflexivity).
  destruct (process_msg_cuts_by_len (H := platform) _ _ H1 H2)
    as (h & payload & Hh & Hp & _ & _ & Hin & _).
  split; [exact H1|]. split; [exact H2|]. split; [exact H3|]. split; [exact H4|].
  split; [exact H5|].
  exists h, payload. exact (conj Hh (conj Hp Hin)).
Defined.

(** X3 when there is no memory for the header. *)
Lemma process_msg_error_queues_no_memory :
  process_msg no_memory = Done (-12) no_memory_done
  /\ -12 <> 0
  /\ only_input no_memory no_memory_done.
Proof.
  assert (H1 : process_msg no_memory = Done (-12) no_memory_done)
    by (vm_compute; reflexivity).
  assert (H2 : -12 <> 0) by discriminate.
  exact (conj H1 (conj H2
           (process_msg_error_queues (H := platform) _ _ _ H1 H2))).
Defined.

(** X4 when there is memory for the header of an event only. *)
Lemma process_msg_body_no_memory_event :
  malloc starved = Done true starved_hdr
  /\ xb_read sizeof_sockmsg starved_hdr
     = Done (0, hdr_bytes (mk_sockmsg 15 0 0 8)) starved_hdr_read
  /\ malloc starved_hdr_read = Done false starved_body
  /\ process_msg starved = Done (- ENOMEM) starved_body
  /\ xb_in starved_body = advance sizeof_sockmsg (xb_in starved).
Proof.
  assert (H1 : malloc starved = Done true starved_hdr) by (vm_compute; reflexivity).
  assert (H2 : xb_read sizeof_sockmsg starved_hdr
               = Done (0, hdr_bytes (mk_sockmsg 15 0 0 8)) starved_hdr_read)
    by (vm_compute; reflexivity).
  assert (H3 : malloc starved_hdr_read = Done false starved_body)
    by (vm_compute; reflexivity).
  destruct (process_msg_body_no_memory (H := platform) _ _ _ _ _ H1 H2 H3)
    as (E & Hin & _).
  exact (conj H1 (conj H2 (conj H3 (conj E Hin)))).
Defined.

(** X5 on a read that the store answers with the value [va]. *)
Lemma talk_round_trip_va :
  mutex_free answered = true
  /\ writes_ok 2 answered = true
  /\ dispatcher_reads answered_sent (mk_sockmsg 2 0 0 2) "va" answered_read
  /\ body_overrun (mk_sockmsg 2 0 0 2) = false
  /\ exists w',
       xs_talkv 0 XS_READ [with_nul "/d/a"] answered
       = Done (PTR ("va" ++ String NUL EmptyString, len (mk_sockmsg 2 0 0 2))) w'
       /\ reply_list (xs_state w') = [].
Proof.
  assert (H1 : mutex_free answered = true) by (vm_compute; reflexivity).
  assert (H2 : writes_ok (S (List.length [with_nul "/d/a"])) answered = true)
    by (vm_compute; reflexivity).
  assert (H3 : reply_list (xs_state answered) = []) by (vm_compute; reflexivity).
  assert (H4 : dispatcher_reads (sent 0 XS_READ [with_nul "/d/a"] answered)
                 (mk_sockmsg 2 0 0 2) "va" answered_read).
  { exists answered_sent, answered_hdr, answered_hdr, (hdr_bytes (mk_sockmsg 2 0 0 2)).
    repeat apply conj; vm_compute; reflexivity. }
  assert (Hfit : body_overrun (mk_sockmsg 2 0 0 2) = false)
    by (vm_compute; reflexivity).
  assert (H5 : (type (mk_sockmsg 2 0 0 2) =? XS_WATCH_EVENT) = false)
    by (vm_compute; reflexivity).
  assert (H6 : (type (mk_sockmsg 2 0 0 2) =? XS_ERROR) = false)
    by (vm_compute; reflexivity).
  destruct (talk_round_trip (H := platform) 0 XS_READ [with_nul "/d/a"] answered
              (mk_sockmsg 2 0 0 2) "va" answered_read H1 H2 H3 H4 Hfit H5 H6)
    as (w' & E & Hq & _).
  split; [exact H1|]. split; [exact H2|]. split; [exact H4|]. split; [exact Hfit|].
  exists w'. exact (conj E Hq).
Defined.

(** X6 when a reply to an earlier request is still queued: the caller
    gets that one. *)
Lemma talk_takes_queued_reply_stale :
  mutex_free stale = true
  /\ writes_ok 2 stale = true
  /\ reply_list (xs_state stale) = [stale_reply]
  /\ exists w',
       xs_talkv 0 XS_READ [with_nul "/d/a"] stale
       = Done (PTR (with_nul "old", len (hdr stale_reply))) w'
       /\ xb_in w' = xb_in stale.
Proof.
  assert (H1 : mutex_free stale = true) by (vm_compute; reflexivity).
  assert (H2 : writes_ok (S (List.length [with_nul "/d/a"])) stale = true)
    by (vm_compute; reflexivity).
  assert (H3 : reply_list (xs_state stale) = [stale_reply])
    by (vm_compute; reflexivity).
  assert (H4 : u stale_reply = reply (with_nul "old")) by (vm_compute; reflexivity).
  assert (H5 : (type (hdr stale_reply) =? XS_ERROR) = false)
    by (vm_compute; reflexivity).
  destruct (talk_takes_queued_reply (H := platform) 0 XS_READ [with_nul "/d/a"] stale
              stale_reply [] (with_nul "old") H1 H2 H3 H4 H5)
    as (w' & E & _ & Hin & _).
  split; [exact H1|]. split; [exact H2|]. split; [exact H3|].
  exists w'. exact (conj E Hin).
Defined.

(** X7 on the write of [v] to [/d/k]. *)
Lemma write_frame_k_v :
  malloc_ok (acked 11) = true
  /\ mutex_free (acked 11) = true
  /\ writes_ok 3 (acked 11) = true
  /\ read_reply (sent 0 XS_WRITE [with_nul (joined "/d" "k"); "v"]
                   (after_malloc (acked 11)))
     = Done (11, 3, with_nul "OK" ++ nul) write_acked
  /\ exists w',
       xenbus_write 0 "/d" "k" "v" (acked 11)
       = Done (if 11 =? XS_ERROR then - error_code (cstr (with_nul "OK" ++ nul)) else 0) w'
       /\ xb_out w' =
          xb_out (acked 11)
          ++ sockmsg_bytes (mk_sockmsg XS_WRITE 0 (u32 0)
               (u32 (Z.of_nat (String.length (joined "/d" "k") + 1 + String.length "v"))))
          ++ with_nul (joined "/d" "k") ++ "v".
Proof.
  assert (H1 : malloc_ok (acked 11) = true) by (vm_compute; reflexivity).
  assert (H2 : mutex_free (acked 11) = true) by (vm_compute; reflexivity).
  assert (H3 : writes_ok 3 (acked 11) = true) by (vm_compute; reflexivity).
  assert (H4 : read_reply (sent 0 XS_WRITE [with_nul (joined "/d" "k"); "v"]
                             (after_malloc (acked 11)))
               = Done (11, 3, with_nul "OK" ++ nul) write_acked)
    by (vm_compute; reflexivity).
  exact (conj H1 (conj H2 (conj H3 (conj H4
           (write_frame (H := platform) (H0 := wire) 0 "/d" "k" "v" (acked 11)
              11 3 (with_nul "OK" ++ nul) write_acked H1 H2 H3 H4))))).
Defined.

(** X8 on the creation of [/d/k]. *)
Lemma mkdir_rm_acknowledged_k :
  malloc_ok (acked 12) = true
  /\ mutex_free (acked 12) = true
  /\ writes_ok 2 (acked 12) = true
  /\ read_reply (sent 0 XS_MKDIR [with_nul (joined "/d" "k")] (after_malloc (acked 12)))
     = Done (12, 3, with_nul "OK" ++ nul) mkdir_acked
  /\ exists w',
       xenbus_mkdir 0 "/d" "k" (acked 12)
       = Done (if 12 =? XS_ERROR then - error_code (cstr (with_nul "OK" ++ nul)) else 0) w'
       /\ xb_out w' =
          xb_out (acked 12) ++ request_bytes 0 XS_MKDIR [with_nul (joined "/d" "k")].
Proof.
  assert (H1 : malloc_ok (acked 12) = true) by (vm_compute; reflexivity).
  assert (H2 : mutex_free (acked 12) = true) by (vm_compute; reflexivity).
  assert (H3 : writes_ok 2 (acked 12) = true) by (vm_compute; reflexivity).
  assert (H4 : read_reply (sent 0 XS_MKDIR [with_nul (joined "/d" "k")]
                             (after_malloc (acked 12)))
               = Done (12, 3, with_nul "OK" ++ nul) mkdir_acked)
    by (vm_compute; reflexivity).
  exact (conj H1 (conj H2 (conj H3 (conj H4
           (proj1 (mkdir_rm_acknowledged (H := platform) (H0 := wire) 0 "/d" "k"
                     (acked 12) H1 H2 H3)
              12 3 (with_nul "OK" ++ nul) mkdir_acked H4))))).
Defined.

(** X9 when there is no memory for the path. *)
Lemma no_memory_no_request_k :
  malloc_ok no_memory = false
  /\ xenbus_write 0 "/d" "k" "v" no_memory = Done (- ENOMEM) (after_malloc no_memory)
  /\ xenbus_rm 0 "/d" "k" no_memory = Done (- ENOMEM) (after_malloc no_memory).
Proof.
  assert (H1 : malloc_ok no_memory = false) by (vm_compute; reflexivity).
  destruct (no_memory_no_request (H := platform) (H0 := wire) 0 "/d" "k" "v"
              no_memory H1) as (_ & _ & _ & Hw & _ & Hr).
  exact (conj H1 (conj Hw Hr)).
Defined.

(** X10 on the five bytes of hello. *)
Lemma debug_write_no_reply_hello :
  mutex_free idle = true
  /\ (5 <= String.length "hello")%nat
  /\ exists w',
       xenbus_debug_write "hello" 5 idle = Done tt w'
       /\ xs_state w' = xs_state idle
       /\ xb_in w' = xb_in idle.
Proof.
  assert (H1 : mutex_free idle = true) by (vm_compute; reflexivity).
  assert (H2 : (5 <= String.length "hello")%nat) by (simpl; lia).
  destruct (debug_write_no_reply (H := platform) (H0 := wire) "hello" 5 idle H1 H2)
    as (w' & E & Hs & Hin & _).
  split; [exact H1|]. split; [exact H2|].
  exists w'. exact (conj E (conj Hs Hin)).
Defined.

(** X11 when the write of the request that ends a transaction fails:
    the read lock stays held. *)
Lemma dev_request_read_lock_end_lost :
  xenbus_dev_request_and_reply end_request (with_nul "T") end_lost
  = Done (ERR_PTR (-5), mk_sockmsg 16 0 12 2) end_lost_done
  /\ suspend_readers end_lost = 1
  /\ suspend_readers end_lost_done = suspend_readers end_lost.
Proof.
  assert (H1 : xenbus_dev_request_and_reply end_request (with_nul "T") end_lost
               = Done (ERR_PTR (-5), mk_sockmsg 16 0 12 2) end_lost_done)
    by (vm_compute; reflexivity).
  assert (H2 : suspend_readers end_lost = 1) by (vm_compute; reflexivity).
  assert (H3 : type end_request <> XS_TRANSACTION_START) by (vm_compute; discriminate).
  assert (H4 : XS_ERROR <> XS_TRANSACTION_END) by (vm_compute; discriminate).
  destruct (dev_request_read_lock (H := platform) _ _ _ _ _ _ H1)
    as (_ & _ & _ & _ & _ & _ & Hkeep).
  exact (conj H1 (conj H2 (Hkeep eq_refl H3 H4))).
Defined.

(** X12 on a suspend in a quiet world. *)
Lemma suspend_excludes_resuming :
  xs_suspend resuming = Done tt resuming_suspended
  /\ count (request_mutex (xs_state resuming)) = 1
  /\ writer (suspend_mutex (xs_state resuming_suspended)) = true
  /\ (forall t ty iovec, xs_talkv t ty iovec resuming_suspended = Blocked).
Proof.
  assert (H1 : xs_suspend resuming = Done tt resuming_suspended)
    by (vm_compute; reflexivity).
  assert (H2 : count (request_mutex (xs_state resuming)) = 1)
    by (vm_compute; reflexivity).
  destruct (suspend_excludes (H := platform) (H0 := wire) _ _ H1 H2)
    as (_ & _ & Hw & _ & _ & _ & Ht & _).
  exact (conj H1 (conj H2 (conj Hw Ht))).
Defined.

(** X13 with [beef] registered. *)
Lemma resume_resubscribes_beef :
  xs_suspend resuming = Done tt resuming_suspended
  /\ xs_resume resuming_suspended = Done tt resumed
  /\ request_mutex (xs_state resumed) = request_mutex (xs_state resuming)
  /\ suspend_mutex (xs_state resumed) = suspend_mutex (xs_state resuming)
  /\ watches resumed = watches resuming
  /\ watches resuming = [beef]
  /\ writes_ok (3 * List.length (watches resuming)) resuming = true
  /\ xb_out resumed = xb_out resuming ++ watch_requests (watches resuming).
Proof.
  assert (H1 : xs_suspend resuming = Done tt resuming_suspended)
    by (vm_compute; reflexivity).
  assert (H2 : xs_resume resuming_suspended = Done tt resumed)
    by (vm_compute; reflexivity).
  assert (H3 : watches resuming = [beef]) by (vm_compute; reflexivity).
  assert (H4 : writes_ok (3 * List.length (watches resuming)) resuming = true)
    by (vm_compute; reflexivity).
  destruct (resume_resubscribes (H := platform) _ _ _ H1 H2)
    as (Hm & Hs & Hw & _ & Hout).
  exact (conj H1 (conj H2 (conj Hm (conj Hs (conj Hw (conj H3 (conj H4 (Hout H4)))))))).
Defined.

(** X14 on two queued events. *)
Lemma watcher_delivers_in_order_two :
  (2 <= List.length (watch_events two_events))%nat
  /\ forallb is_watch_event (firstn 2 (watch_events two_events)) = true
  /\ (0 <? count (xenwatch_mutex two_events)) = true
  /\ exists w',
       xenwatch_thread 2 two_events = Done tt w'
       /\ callbacks w' =
          (callbacks two_events
           ++ flat_map call_of (firstn 2 (watch_events two_events)))%list
       /\ watch_events w' = skipn 2 (watch_events two_events).
Proof.
  assert (H1 : (2 <= List.length (watch_events two_events))%nat) by (simpl; lia).
  assert (H2 : forallb is_watch_event (firstn 2 (watch_events two_events)) = true)
    by (vm_compute; reflexivity).
  assert (H3 : (0 <? count (xenwatch_mutex two_events)) = true)
    by (vm_compute; reflexivity).
  destruct (watcher_delivers_in_order (H := platform) 2 two_events H1 H2 H3)
    as (w' & E & Hc & Hq & _).
  split; [exact H1|]. split; [exact H2|]. split; [exact H3|].
  exists w'. exact (conj E (conj Hc Hq)).
Defined.

(** X15 on [beef], registered and unregistered. *)
Lemma register_then_unregister_beef :
  register_xenbus_watch beef coming_going = Done 0 come
  /\ rolled_back 0 = false
  /\ unregister_xenbus_watch beef come = Done tt gone
  /\ watches come = [beef]
  /\ watches gone = watches coming_going
  /\ suspend_mutex (xs_state gone) = suspend_mutex (xs_state coming_going).
Proof.
  assert (H1 : register_xenbus_watch beef coming_going = Done 0 come)
    by (vm_compute; reflexivity).
  assert (H2 : rolled_back 0 = false) by (vm_compute; reflexivity).
  assert (H3 : unregister_xenbus_watch beef come = Done tt gone)
    by (vm_compute; reflexivity).
  assert (H4 : watches come = [beef]) by (vm_compute; reflexivity).
  destruct (register_then_unregister (H := platform) _ _ _ _ _ H1 H2 H3)
    as (Hw & Hs & _).
  exact (conj H1 (conj H2 (conj H3 (conj H4 (conj Hw Hs))))).
Defined.

(** X16 on the turn that queues the event for [beef]. *)
Lemma dispatcher_only_queues_beef :
  xenbus_thread_iter beef_arrives = Done tt beef_queued
  /\ watch_events beef_queued = [beef_stored]
  /\ xb_out beef_queued = xb_out beef_arrives
  /\ watches beef_queued = watches beef_arrives.
Proof.
  assert (H1 : xenbus_thread_iter beef_arrives = Done tt beef_queued)
    by (vm_compute; reflexivity).
  assert (H2 : watch_events beef_queued = [beef_stored]) by (vm_compute; reflexivity).
  destruct (dispatcher_only_queues (H := platform) _ _ H1)
    as (Ho & _ & _ & _ & _ & Hw & _).
  exact (conj H1 (conj H2 (conj Ho Hw))).
Defined.

(** X17 on the payload "x\0y\0". *)
Lemma split_loses_nothing_xy :
  split (payload_of ["x"; "y"] ++ nul) 4 idle = Done (PTR (["x"; "y"], 2)) split_xy
  /\ payload_of ["x"; "y"] = memcpy 4 (payload_of ["x"; "y"] ++ nul)
  /\ all_nul_free ["x"; "y"] = true.
Proof.
  assert (H1 : split (payload_of ["x"; "y"] ++ nul) 4 idle
               = Done (PTR (["x"; "y"], 2)) split_xy) by (vm_compute; reflexivity).
  destruct (split_loses_nothing (H := platform) _ _ _ _ _ _ H1) as (Hp & _ & Hn & _).
  exact (conj H1 (conj Hp Hn)).
Defined.

(** X18 on the payload "ab" of an event, with the terminator that
    [process_msg] appends after it. *)
Lemma split_unterminated_overreads_ab :
  malloc_ok idle = true
  /\ count_strings ("ab" ++ nul) 2 = Some 1%nat
  /\ memcpy 2 ("ab" ++ nul) = "a" ++ String "b" EmptyString
  /\ "b"%char <> NUL
  /\ split ("ab" ++ nul) 2 idle = Fault.
Proof.
  assert (H1 : malloc_ok idle = true) by (vm_compute; reflexivity).
  assert (H2 : count_strings ("ab" ++ nul) 2 = Some 1%nat) by (vm_compute; reflexivity).
  assert (H3 : memcpy 2 ("ab" ++ nul) = "a" ++ String "b" EmptyString)
    by (vm_compute; reflexivity).
  assert (H4 : "b"%char <> NUL) by discriminate.
  exact (conj H1 (conj H2 (conj H3 (conj H4
           (split_unterminated_overreads (H := platform) _ _ idle _ _ _ H1 H2 H3 H4))))).
Defined.

(** X19 on a directory with the entries [a] and [b]. *)
Lemma directory_lists_a_b :
  malloc_ok listing = true
  /\ mutex_free listing = true
  /\ writes_ok 2 listing = true
  /\ all_nul_free ["a"; "b"] = true
  /\ read_reply (sent 0 XS_DIRECTORY [with_nul (joined "/d" "")] (after_malloc listing))
     = Done (1, Z.of_nat (String.length (payload_of ["a"; "b"])),
             payload_of ["a"; "b"] ++ String NUL EmptyString) listing_read
  /\ exists w',
       xenbus_directory 0 "/d" "" listing
       = Done (PTR (["a"; "b"], Z.of_nat (List.length ["a"; "b"]))) w'.
Proof.
  assert (H1 : malloc_ok listing = true) by (vm_compute; reflexivity).
  assert (H2 : mutex_free listing = true) by (vm_compute; reflexivity).
  assert (H3 : writes_ok 2 listing = true) by (vm_compute; reflexivity).
  assert (H4 : all_nul_free ["a"; "b"] = true) by (vm_compute; reflexivity).
  assert (H5 : read_reply (sent 0 XS_DIRECTORY [with_nul (joined "/d" "")]
                             (after_malloc listing))
               = Done (1, Z.of_nat (String.length (payload_of ["a"; "b"])),
                       payload_of ["a"; "b"] ++ String NUL EmptyString) listing_read)
    by (vm_compute; reflexivity).
  assert (H6 : 1 <> XS_ERROR) by discriminate.
  assert (H7 : malloc_ok listing_read = true) by (vm_compute; reflexivity).
  destruct (directory_lists (H := platform) 0 "/d" "" listing ["a"; "b"] 1 listing_read
              H1 H2 H3 H4 H5 H6 H7) as (w' & E & _).
  split; [exact H1|]. split; [exact H2|]. split; [exact H3|]. split; [exact H4|].
  split; [exact H5|]. exists w'. exact E.
Defined.

(** X20 on the commit of transaction 12. *)
Lemma transaction_end_frame_commit :
  mutex_free ending = true
  /\ writes_ok 2 ending = true
  /\ read_reply (sent 12 XS_TRANSACTION_END [with_nul (if 0 =? 0 then "T" else "F")]
                   ending)
     = Done (7, 3, with_nul "OK" ++ nul) ending_read
  /\ suspend_readers ending = 1
  /\ exists w',
       xenbus_transaction_end 12 0 ending
       = Done (if 7 =? XS_ERROR then - error_code (cstr (with_nul "OK" ++ nul)) else 0) w'
       /\ suspend_readers w' = suspend_readers ending - 1.
Proof.
  assert (H1 : mutex_free ending = true) by (vm_compute; reflexivity).
  assert (H2 : writes_ok 2 ending = true) by (vm_compute; reflexivity).
  assert (H3 : read_reply (sent 12 XS_TRANSACTION_END
                             [with_nul (if 0 =? 0 then "T" else "F")] ending)
               = Done (7, 3, with_nul "OK" ++ nul) ending_read)
    by (vm_compute; reflexivity).
  assert (H4 : suspend_readers ending = 1) by (vm_compute; reflexivity).
  destruct (transaction_end_frame (H := platform) 12 0 ending 7 3
              (with_nul "OK" ++ nul) ending_read H1 H2 H3)
    as (w' & E & _ & Hr & _).
  split; [exact H1|]. split; [exact H2|]. split; [exact H3|]. split; [exact H4|].
  exists w'. exact (conj E Hr).
Defined.

End MoreExamples.
